(** * Job-Scams: the content risk-scoring engine

    A shallow embedding of the two scoring services of the backend,
    [services/ml/scamDetectionService.js] (job postings) and
    [services/socialMediaMonitoringService.js] (social posts), together with
    the summary computed by the [batchAnalyze] handler of the ML controller.

    Conventions of the model.
    - A JavaScript slot that may hold [undefined] or [null] is a [js A].
    - Strings are [string], read as sequences of code units below 256;
      [toLowerCase] is the lowercase mapping of Unicode on these units.
    - A number is an IEEE 754 double.  A finite one is modelled by the
      rational it denotes ([Q]), and every arithmetic operation returns
      the exact result rounded to the nearest double, ties to even
      ([double], [jsadd], [jsmul], [jsquot]); a decimal literal of the
      source such as [0.1] is [double 0.1].  The quotient of two
      arbitrary numbers is a [jsnum], which has the infinities and NaN
      that a JavaScript division can produce.
    - A call that may throw returns a [result]; the job service mutates
      its own fields, so its methods are state transformers whose state
      survives a throw ([M]).
    - The packages the services import (the sentiment lexicon, the regular
      expression engine, the TF-IDF index and the Bayes classifier of
      [natural]) are not part of the repository: they are the fields of
      [Externals], and every theorem holds for all of them. *)

From Stdlib Require Import List String Ascii Bool Arith ZArith QArith Lia Lqa.
From Stdlib Require Import Sorting.Sorted.
From Stdlib Require Import Sorting.Permutation.
From Stdlib Require Import Qround Qpower.
Import ListNotations.

Close Scope Q_scope.
Open Scope string_scope.
Open Scope list_scope.
Open Scope nat_scope.

(** ** JavaScript values *)

Inductive js (A : Type) : Type :=
| undefined : js A
| null : js A
| val (a : A) : js A.
Arguments undefined {A}.
Arguments null {A}.
Arguments val {A} a.

Inductive result (A : Type) : Type :=
| Ok (a : A) : result A
| Throw (message : string) : result A.
Arguments Ok {A} a.
Arguments Throw {A} message.

(** [x = d] in a destructuring pattern: the default replaces [undefined]
    only, a [null] stays. *)
Definition with_default {A} (x : js A) (d : A) : js A :=
  match x with
  | undefined => val d
  | _ => x
  end.

(** [s || ''] on a slot that holds a string. *)
Definition or_empty (x : js string) : string :=
  match x with
  | val s => s
  | _ => ""
  end.

(** [xs || []]. *)
Definition or_nil {A} (x : js (list A)) : list A :=
  match x with
  | val l => l
  | _ => []
  end.

(** ** Strings *)

(** A character is a code unit below 256.  On these the lowercase mapping
    of Unicode, which [String.prototype.toLowerCase] applies, moves the
    letters A to Z and the capital letters of the Latin-1 supplement
    (U+00C0 to U+00DE without the multiplication sign U+00D7) up by 32 and
    leaves every other unit as it is; it maps no such unit outside the
    range or to more than one unit, and none depends on its context. *)
Definition lower_ascii (c : ascii) : ascii :=
  let n := nat_of_ascii c in
  if ((65 <=? n) && (n <=? 90)) ||
     ((192 <=? n) && (n <=? 222) && negb (n =? 215))
  then ascii_of_nat (n + 32) else c.

(** [s.toLowerCase()] *)
Fixpoint toLowerCase (s : string) : string :=
  match s with
  | EmptyString => EmptyString
  | String c r => String (lower_ascii c) (toLowerCase r)
  end.

Fixpoint startsWith (s search : string) {struct search} : bool :=
  match search, s with
  | EmptyString, _ => true
  | String _ _, EmptyString => false
  | String a search', String b s' => Ascii.eqb a b && startsWith s' search'
  end.

(** [s.includes(search)]. *)
Fixpoint includes (s search : string) : bool :=
  startsWith s search ||
  match s with
  | EmptyString => false
  | String _ r => includes r search
  end.

(** [xs.join(sep)] where an element that is [null] or [undefined] is
    written as the empty string. *)
Fixpoint join (sep : string) (xs : list (js string)) : string :=
  match xs with
  | [] => ""
  | [x] => or_empty x
  | x :: r => (or_empty x ++ sep ++ join sep r)%string
  end.

(** [xs.includes(x)] on an array of strings. *)
Definition array_includes (xs : list string) (x : string) : bool :=
  existsb (String.eqb x) xs.

(** [xs.some(kw => ys.includes(kw))]. *)
Definition some_in (xs ys : list string) : bool :=
  existsb (array_includes ys) xs.

(** [[...new Set(xs)]]: a Set keeps the first insertion of each value, in
    insertion order. *)
Fixpoint Set_add_all (seen xs : list string) : list string :=
  match xs with
  | [] => seen
  | x :: r => Set_add_all (if array_includes seen x then seen else seen ++ [x]) r
  end.

Definition array_of_Set (xs : list string) : list string := Set_add_all [] xs.

(** The keyword scan both services run:
    [keywords.forEach(k => { if (fullText.includes(k.toLowerCase())) found.push(k) })]
    followed by [[...new Set(found)]]. *)
Definition scanKeywords (keywords : list string) (fullText : string) : list string :=
  array_of_Set (filter (fun keyword => includes fullText (toLowerCase keyword)) keywords).

(** ** Numbers *)

(** The integer nearest to [x], the even one of the two when [x] lies
    halfway between them. *)
Definition rne (x : Q) : Z :=
  let k := Qfloor x in
  match (x - inject_Z k ?= 1#2)%Q with
  | Lt => k
  | Gt => (k + 1)%Z
  | Eq => if Z.even k then k else (k + 1)%Z
  end.

(** The exponent of a positive number: [2 ^ e <= x < 2 ^ (e + 1)]. *)
Definition exponent (x : Q) : Z :=
  let e := (Z.log2 (Qnum x) - Z.log2 (Zpos (Qden x)))%Z in
  if Qle_bool (2 ^ e) x then e else (e - 1)%Z.

(** The doubles around a positive [x] are the multiples of
    [2 ^ quantum x]: 53 significant bits, and the subnormal numbers are
    the multiples of [2 ^ -1074]. *)
Definition quantum (x : Q) : Z := Z.max (exponent x - 52) (-1074).

(** The multiple of [2 ^ q] nearest to [x]. *)
Definition grid (q : Z) (x : Q) : Q := (inject_Z (rne (x / 2 ^ q)) * 2 ^ q)%Q.

Definition round_pos (x : Q) : Q := grid (quantum x) x.

(** The double nearest to [x], ties to even, as a fraction in lowest
    terms.  (Rounding never overflows here; [jsdiv] has the one division
    of the services that can.) *)
Definition double (x : Q) : Q :=
  match (x ?= 0)%Q with
  | Eq => 0%Q
  | Gt => Qred (round_pos x)
  | Lt => Qred (- round_pos (- x))
  end.
Arguments double x%_Q.

(** The numbers that are doubles. *)
Definition representable (x : Q) : Prop := double x = x.

(** [x + y], [x * y] and [x / y] (for [y] other than 0) on finite
    numbers. *)
Definition jsadd (x y : Q) : Q := double (x + y).
Definition jsmul (x y : Q) : Q := double (x * y).
Definition jsquot (x y : Q) : Q := double (x / y).

Infix "+!" := jsadd (at level 50, left associativity) : Q_scope.
Infix "*!" := jsmul (at level 40, left associativity) : Q_scope.
Infix "/!" := jsquot (at level 40, left associativity) : Q_scope.

Inductive jsnum : Type :=
| Finite (q : Q)
| PosInf
| NegInf
| NaN.

(** A quotient of this size or more rounds to an infinity. *)
Definition overflow : Q := inject_Z (2 ^ 1024 - 2 ^ 970).

(** [x / y] on finite numbers. *)
Definition jsdiv (x y : Q) : jsnum :=
  if Qeq_bool y 0%Q then
    match Qcompare x 0%Q with
    | Gt => PosInf
    | Lt => NegInf
    | Eq => NaN
    end
  else
    let q := (x / y)%Q in
    if Qle_bool overflow q then PosInf
    else if Qle_bool q (- overflow) then NegInf
    else Finite (double q).

(** [x > y] on finite numbers. *)
Definition Qgtb (x y : Q) : bool := negb (Qle_bool x y).
(** [x < y] on finite numbers. *)
Definition Qltb (x y : Q) : bool := negb (Qle_bool y x).

(** [r > y] where [r] may be infinite or NaN. *)
Definition jsnum_gtb (r : jsnum) (y : Q) : bool :=
  match r with
  | Finite q => Qgtb q y
  | PosInf => true
  | NegInf => false
  | NaN => false
  end.

Definition Math_min (x y : Q) : Q := if Qle_bool x y then x else y.
Definition Math_max (x y : Q) : Q := if Qle_bool x y then y else x.

(** Truthiness of a number slot: [undefined], [null] and [0] are falsy. *)
Definition truthy_num (x : js Q) : bool :=
  match x with
  | val q => negb (Qeq_bool q 0%Q)
  | _ => false
  end.

Definition num_of (x : js Q) : Q :=
  match x with
  | val q => q
  | _ => 0%Q
  end.

Definition of_length {A} (l : list A) : Q := inject_Z (Z.of_nat (List.length l)).

(** ** The imported packages *)

Record SentimentResult : Type := {
  score : Z;
  comparative : Q;
  positive : list string;
  negative : list string
}.

(** A regular expression literal: its source and its flags. *)
Record RegExp : Type := { source_ : string; flags : string }.

Record Classification : Type := { label : string; value : Q }.

(** What [getClassifications] does: it throws, or it returns some value,
    which is a list of classifications when the classifier behaves. *)
Inductive Reply : Type :=
| Throws (message : string)
| Returns (v : js (list (js Classification))).

Record Doc : Type := { doc_text : string; doc_label : string }.

Record Externals : Type := {
  (** [new Sentiment().analyze(text)] *)
  sentiment_analyze : string -> SentimentResult;
  (** [text.match(pattern)]: [None] is [null] *)
  String_match : string -> RegExp -> option (list string);
  (** [tfidf.tfidf(term, d)] over the documents added so far *)
  tfidf_tfidf : list string -> string -> nat -> Q;
  (** the statistics a Bayes classifier holds once trained *)
  Model : Type;
  untrained : Model;
  train_docs : list Doc -> Model;
  classify : list Doc -> Model -> string -> Reply
}.

(** The pattern scan both services run:
    [patterns.forEach(p => { const m = fullText.match(p); if (m) found.push(...m) })]
    followed by [[...new Set(found)]]. *)
Definition scanPatterns (E : Externals) (patterns : list RegExp) (fullText : string)
  : list string :=
  array_of_Set
    (flat_map (fun pattern =>
                 match String_match E fullText pattern with
                 | Some matches => matches
                 | None => []
                 end) patterns).

(** ** services/socialMediaMonitoringService.js *)

Module Social.

Definition suspiciousKeywords : list string := [
  (* Job scam keywords *)
  "work from home"; "earn money online"; "make money from home"; "easy money";
  "quick cash"; "no experience needed"; "urgent hiring"; "international job";
  "visa processing"; "flight tickets paid"; "work abroad"; "remote job";
  (* Financial scam keywords *)
  "investment opportunity"; "guaranteed returns"; "high profit"; "no risk";
  "get rich quick"; "money making"; "passive income"; "side hustle";
  (* Phishing/social engineering keywords *)
  "click here"; "limited time"; "act now"; "urgent"; "winner"; "congratulations";
  "free money"; "prize"; "lottery"; "inheritance"; "claim now";
  (* Fraudulent schemes *)
  "pyramid scheme"; "multi-level marketing"; "referral program"; "affiliate";
  "binary options"; "crypto investment"; "bitcoin mining"; "forex trading"
].

Definition suspiciousPatterns : list RegExp := [
  {| source_ := "(?:\$|€|£|¥|Rs\.?)\s*\d+(?:\.\d+)?\s*(?:fee|charge|cost|investment)"; flags := "gi" |};
  {| source_ := "(?:paypal|bitcoin|cryptocurrency|western union|moneygram)"; flags := "gi" |};
  {| source_ := "(?:work from home|work remotely|home based|online work)"; flags := "gi" |};
  {| source_ := "(?:no experience|no skills|anyone can apply|beginners welcome)"; flags := "gi" |};
  {| source_ := "(?:urgent|immediate|now|hurry|today|deadline|last day)"; flags := "gi" |};
  {| source_ := "(?:sign up fee|training fee|certification fee|processing fee)"; flags := "gi" |};
  {| source_ := "(?:visa|flight|travel expenses covered)"; flags := "gi" |};
  {| source_ := "(?:guarantee|guaranteed|risk free|no risk)"; flags := "gi" |}
].

Record Engagement : Type := {
  followers : js Q;
  likes : js Q;
  shares : js Q
}.

(** The fields of a post that the analysis reads. *)
Record Content : Type := {
  text : js string;
  engagement : js Engagement
}.

Inductive RiskLevel : Type := low | medium | high | critical.

Record Entities : Type := {
  persons : list string;
  organizations : list string;
  locations : list string;
  dates : list string
}.

Record Analysis : Type := {
  isSuspicious : bool;
  confidence : Q;
  detectedScamTypes : list string;
  flaggedKeywords : list string;
  flaggedPatterns : list string;
  sentiment : SentimentResult;
  entities : Entities;
  riskLevel : RiskLevel
}.

Section Service.
Variable E : Externals.

(** [if (engagement && engagement.followers && engagement.likes)]: the
    quotient [likes / followers] is computed under the guard only; [None]
    says that the division was not evaluated. *)
Definition engagementRatio (engagement : js Engagement) : option jsnum :=
  match engagement with
  | val e =>
      if truthy_num (followers e) && truthy_num (likes e)
      then Some (jsdiv (num_of (likes e)) (num_of (followers e)))
      else None
  | _ => None
  end.

Definition riskLevelOf (riskScore : Q) : RiskLevel :=
  if Qltb riskScore (double 0.3) then low
  else if Qltb riskScore (double 0.6) then medium
  else if Qltb riskScore (double 0.8) then high
  else critical.

Definition scamTypesOf (kws : list string) : list string :=
  (if some_in kws ["work from home"; "earn money online"; "make money from home"]
   then ["work_from_home_scam"] else []) ++
  (if some_in kws ["investment"; "guaranteed returns"; "high profit"; "no risk"]
   then ["investment_fraud"] else []) ++
  (if some_in kws ["pyramid scheme"; "multi-level marketing"; "referral program"]
   then ["pyramid_scheme"] else []).

(** The default [engagement = {}] of the destructuring. *)
Definition no_engagement : Engagement :=
  {| followers := undefined; likes := undefined; shares := undefined |}.

(** The score before the cap, from the four signals. *)
Definition riskScoreOf (flaggedKeywords flaggedPatterns : list string)
    (engagement : js Engagement) (sentimentScore : SentimentResult) : Q :=
  let riskScore := 0%Q in
  (* Keyword-based risk *)
  let riskScore :=
    if 0 <? List.length flaggedKeywords
    then (riskScore +! Math_min (of_length flaggedKeywords *! double 0.1) (1#2))%Q
    else riskScore in
  (* Pattern-based risk *)
  let riskScore :=
    if 0 <? List.length flaggedPatterns
    then (riskScore +! Math_min (of_length flaggedPatterns *! double 0.15) (1#2))%Q
    else riskScore in
  (* Engagement-based risk *)
  let riskScore :=
    match engagementRatio engagement with
    | Some engagementRatio =>
        if jsnum_gtb engagementRatio (1#2) then (riskScore +! double 0.2)%Q else riskScore
    | None => riskScore
    end in
  (* Sentiment-based risk *)
  let riskScore :=
    if Qgtb (comparative sentimentScore) (double 0.8)
    then (riskScore +! double 0.15)%Q
    else riskScore in
  riskScore.

Definition analyzeSocialMediaContent (content : Content) : result Analysis :=
  let engagement := with_default (engagement content) no_engagement in
  match with_default (text content) "" with
  | undefined | null =>
      Throw "TypeError: Cannot read properties of null (reading 'toLowerCase')"
  | val text =>
      let fullText := toLowerCase text in
      let flaggedKeywords := scanKeywords suspiciousKeywords fullText in
      let flaggedPatterns := scanPatterns E suspiciousPatterns fullText in
      let sentimentScore := sentiment_analyze E fullText in
      let riskScore :=
        riskScoreOf flaggedKeywords flaggedPatterns engagement sentimentScore in
      (* Cap risk score at 1 *)
      let riskScore := Math_min riskScore 1 in
      Ok {| isSuspicious := Qgtb riskScore (double 0.4);
            confidence := riskScore;
            detectedScamTypes := scamTypesOf flaggedKeywords;
            flaggedKeywords := flaggedKeywords;
            flaggedPatterns := flaggedPatterns;
            sentiment := sentimentScore;
            entities := {| persons := []; organizations := [];
                           locations := []; dates := [] |};
            riskLevel := riskLevelOf riskScore |}
  end.

End Service.
End Social.

(** ** services/ml/scamDetectionService.js *)

Module ScamDetection.

Definition suspiciousKeywords : list string := [
  (* Payment-related suspicious terms *)
  "money"; "payment"; "fee"; "deposit"; "investment"; "cash"; "wire transfer";
  "paypal"; "bitcoin"; "cryptocurrency"; "bank transfer"; "credit card";
  "urgent payment"; "immediate payment"; "sign up fee"; "training fee";
  (* Work-from-home scams *)
  "work from home"; "remote work"; "earn money from home"; "home based";
  "make money online"; "easy money"; "quick cash"; "no experience needed";
  "work online"; "stay at home"; "extra income"; "side hustle";
  (* Recruitment fraud *)
  "international"; "abroad"; "overseas"; "travel expenses"; "visa processing";
  "flight tickets"; "passport"; "background check fee"; "documentation fee";
  "screening fee"; "interview fee"; "processing fee"; "handling fee";
  (* High pressure tactics *)
  "limited time"; "act now"; "urgent"; "immediate"; "today only"; "last chance";
  "exclusive opportunity"; "once in lifetime"; "must apply now"; "deadline";
  "hurry"; "rush"; "expedited"; "priority"; "first come first served";
  (* Vague job descriptions *)
  "various duties"; "miscellaneous tasks"; "data entry"; "customer service";
  "representative"; "coordinator"; "assistant"; "agent"; "associate";
  "clerk"; "operator"; "specialist"; "manager"; "director";
  (* Red flag phrases *)
  "guaranteed"; "risk free"; "no risk"; "huge profits"; "guaranteed income";
  "no loss"; "profit guarantee"; "money back"; "satisfaction guaranteed";
  "free trial"; "no commitment"; "cancel anytime"; "no strings attached"
].

Definition suspiciousPatterns : list RegExp := [
  {| source_ := "(?:\$|€|£|¥|Rs\.?)\s*\d+(?:\.\d+)?\s*(?:fee|charge|cost|payment)"; flags := "gi" |};
  {| source_ := "(?:paypal|bitcoin|cryptocurrency|western union|moneygram)"; flags := "gi" |};
  {| source_ := "(?:work from home|work remotely|home based|online work)"; flags := "gi" |};
  {| source_ := "(?:no experience|no skills|anyone can apply|beginners welcome)"; flags := "gi" |};
  {| source_ := "(?:urgent|immediate|now|hurry|today|deadline|last day)"; flags := "gi" |};
  {| source_ := "(?:sign up fee|training fee|certification fee|processing fee)"; flags := "gi" |};
  {| source_ := "(?:visa|flight|travel expenses covered)"; flags := "gi" |};
  {| source_ := "(?:guarantee|guaranteed|risk free|no risk)"; flags := "gi" |}
].

Definition trainingData : list Doc := [
  (* Scam examples *)
  {| doc_text := "Work from home making $5000 per week! No experience needed. Sign up fee required."; doc_label := "scam" |};
  {| doc_text := "Earn money online! Send $200 to get started. Easy payments. Urgent!"; doc_label := "scam" |};
  {| doc_text := "International company hiring! Pay processing fee of $150 for visa. Act now!"; doc_label := "scam" |};
  {| doc_text := "Make money from home! No skills required! Wire transfer payment only!"; doc_label := "scam" |};
  {| doc_text := "Earn big money fast! Investment required. Risk free guarantee!"; doc_label := "scam" |};
  (* Legitimate examples *)
  {| doc_text := "Software Engineer position. 3+ years experience required. Competitive salary."; doc_label := "legitimate" |};
  {| doc_text := "Marketing coordinator needed. Bachelor's degree required. Benefits included."; doc_label := "legitimate" |};
  {| doc_text := "Join our team of professionals. Great work environment. Apply today."; doc_label := "legitimate" |};
  {| doc_text := "Senior developer role. Experience with React and Node.js. Remote work available."; doc_label := "legitimate" |};
  {| doc_text := "Customer service representative. Excellent communication skills needed. Full-time."; doc_label := "legitimate" |}
].

Record Company : Type := { name : js string }.

Record ContactInfo : Type := {
  email : js string;
  phone : js string;
  website : js string
}.

(** The fields of a job that the service reads. *)
Record JobData : Type := {
  _id : js string;
  id : js string;
  title : js string;
  description : js string;
  company : js Company;
  requirements : js (list (js string));
  responsibilities : js (list (js string));
  contactInfo : js ContactInfo
}.

Record Analysis : Type := {
  isScam : bool;
  confidence : Q;
  scamTypes : list string;
  flaggedKeywords : list string;
  flaggedPatterns : list string;
  riskFactors : list string;
  recommendations : list string;
  sentiment : SentimentResult
}.

(** The merge of the text fields at the head of [analyzeJobPosting]:
    destructuring with defaults, then the array literal joined by a space
    and lowercased.  Reading a property of a [null] company or contact
    record throws. *)
Definition fullTextOf (jobData : JobData) : result string :=
  let title := with_default (title jobData) "" in
  let description := with_default (description jobData) "" in
  let company := with_default (company jobData) {| name := undefined |} in
  let requirements := with_default (requirements jobData) [] in
  let responsibilities := with_default (responsibilities jobData) [] in
  let contactInfo :=
    with_default (contactInfo jobData)
      {| email := undefined; phone := undefined; website := undefined |} in
  match company with
  | undefined | null =>
      Throw "TypeError: Cannot read properties of null (reading 'name')"
  | val company =>
      match contactInfo with
      | undefined | null =>
          Throw "TypeError: Cannot read properties of null (reading 'email')"
      | val contactInfo =>
          Ok (toLowerCase
                (join " "
                   ([title; description; val (or_empty (name company))]
                    ++ or_nil requirements
                    ++ or_nil responsibilities
                    ++ [val (or_empty (email contactInfo));
                        val (or_empty (phone contactInfo));
                        val (or_empty (website contactInfo))])))
      end
  end.

(** The red flags, in the order the service pushes them, and the scam
    types pushed along with them. *)
Definition redFlagsOf (kws : list string) : list string :=
  (if some_in kws ["fee"; "payment"; "deposit"; "investment"]
   then ["payment_required"] else []) ++
  (if array_includes kws "work from home" &&
      some_in kws ["fee"; "payment"; "deposit"]
   then ["work_from_home_payment"] else []) ++
  (if some_in kws ["international"; "abroad"; "overseas"; "visa"; "flight"] &&
      some_in kws ["fee"; "payment"; "deposit"]
   then ["international_fee"] else []) ++
  (if some_in kws ["urgent"; "immediate"; "act now"; "limited time"; "hurry"]
   then ["high_pressure"] else []) ++
  (if some_in kws ["various duties"; "miscellaneous tasks"; "data entry"; "customer service"] &&
      negb (some_in kws ["engineer"; "developer"; "analyst"; "manager"; "specialist"])
   then ["vague_description"] else []).

Definition scamTypesOf (kws : list string) : list string :=
  (if some_in kws ["fee"; "payment"; "deposit"; "investment"]
   then ["advance_fee_fraud"] else []) ++
  (if array_includes kws "work from home" &&
      some_in kws ["fee"; "payment"; "deposit"]
   then ["work_from_home_scam"] else []) ++
  (if some_in kws ["international"; "abroad"; "overseas"; "visa"; "flight"] &&
      some_in kws ["fee"; "payment"; "deposit"]
   then ["recruitment_fraud"] else []).

(** [bayesResult.find(c => c.label === 'scam')]: the callback reads
    [c.label], which throws on an entry that is [null] or [undefined]. *)
Fixpoint find_scam (bayesResult : list (js Classification)) : result (option Classification) :=
  match bayesResult with
  | [] => Ok None
  | val c :: r => if String.eqb (label c) "scam" then Ok (Some c) else find_scam r
  | _ :: _ => Throw "TypeError: Cannot read properties of null (reading 'label')"
  end.

(** The fusion of the signals, from [let riskScore = keywordRiskScore] to
    the clamp.  [bayesResult] is [null] when the classifier threw. *)
Definition riskScoreOf (flaggedKeywords redFlags : list string)
    (sentimentScore : SentimentResult)
    (bayesResult : js (list (js Classification))) : result Q :=
  (* Calculate keyword-based risk score *)
  let keywordRiskScore :=
    if 0 <? List.length flaggedKeywords
    then Math_min (of_length flaggedKeywords /! 10)%Q 1
    else 0%Q in
  let riskScore := keywordRiskScore in
  (* Add weight for red flags *)
  let redFlagWeight := (of_length redFlags *! double 0.15)%Q in
  let riskScore := (riskScore +! redFlagWeight)%Q in
  (* Add sentiment weight *)
  let riskScore :=
    if Qgtb (comparative sentimentScore) (1#2)
    then (riskScore +! double 0.1)%Q
    else riskScore in
  (* Adjust based on bayes result if available *)
  match
    match bayesResult with
    | val ((_ :: _) as bayesResult) =>
        match find_scam bayesResult with
        | Ok scamClassification =>
            let scamProbability :=
              match scamClassification with
              | Some c => value c
              | None => 0%Q
              end in
            Ok ((riskScore +! scamProbability) /! 2)%Q
        | Throw e => Throw e
        end
    | _ => Ok riskScore
    end
  with
  | Ok riskScore =>
      (* Ensure score is between 0 and 1 *)
      Ok (Math_min (Math_max riskScore 0) 1)
  | Throw e => Throw e
  end.

Definition recommendationsOf (isScam : bool) (flaggedKeywords redFlags : list string) : list string :=
  (if isScam
   then ["Mark as suspicious and investigate further";
         "Consider removing listing if confidence is high";
         "Notify moderators for review"]
   else ["Appears legitimate based on current analysis";
         "Continue monitoring for user reports"]) ++
  (if 0 <? List.length flaggedKeywords
   then [("Review flagged keywords: " ++
          join ", " (map val (firstn 5 flaggedKeywords)))%string]
   else []) ++
  (if 0 <? List.length redFlags
   then [("Red flags detected: " ++ join ", " (map val redFlags))%string]
   else []).

Section Service.
Variable E : Externals.

(** Modelled from the spec: the [BayesClassifier] of the [natural] package,
    which is imported, not part of the repository.  Section 4.5: a corpus
    of examples that [addDocument] extends, and the statistics that [train]
    rebuilds from the corpus and that stay in use until the next [train]. *)
Record BayesClassifier : Type := {
  docs : list Doc;
  trained : Model E
}.

Definition new_BayesClassifier : BayesClassifier :=
  {| docs := []; trained := untrained E |}.

Definition addDocument (c : BayesClassifier) (text label : string) : BayesClassifier :=
  {| docs := docs c ++ [{| doc_text := text; doc_label := label |}];
     trained := trained c |}.

Definition train (c : BayesClassifier) : BayesClassifier :=
  {| docs := docs c; trained := train_docs E (docs c) |}.

Definition getClassifications (c : BayesClassifier) (text : string) : Reply :=
  classify E (docs c) (trained c) text.

(** The fields of the service object that its methods write: the TF-IDF
    index (the documents added to it) and the classifier.  The singleton
    exported by the module is shared by every request. *)
Record Service : Type := {
  tfidf : list string;
  bayesClassifier : js BayesClassifier
}.

(** [this.tfidf.addDocument(fullText)] *)
Definition with_document (this : Service) (fullText : string) : Service :=
  {| tfidf := tfidf this ++ [fullText]; bayesClassifier := bayesClassifier this |}.

(** A method: it may throw, and what it wrote before throwing stays. *)
Definition M (A : Type) : Type := Service -> result A * Service.

Definition ret {A} (a : A) : M A := fun this => (Ok a, this).
Definition throw {A} (e : string) : M A := fun this => (Throw e, this).
Definition bind {A B} (m : M A) (k : A -> M B) : M B :=
  fun this =>
    match m this with
    | (Ok a, this') => k a this'
    | (Throw e, this') => (Throw e, this')
    end.
Definition lift {A} (r : result A) : M A := fun this => (r, this).
Definition get_this : M Service := fun this => (Ok this, this).
Definition put_this (this' : Service) : M unit := fun _ => (Ok tt, this').
Definition set_bayesClassifier (c : BayesClassifier) : M unit :=
  fun this => (Ok tt, {| tfidf := tfidf this; bayesClassifier := val c |}).

Notation "x <- m ;; k" := (bind m (fun x => k))
  (at level 61, m at next level, right associativity).
Notation "m ;;; k" := (bind m (fun _ => k))
  (at level 61, right associativity).

(** [trainingData.forEach(item => this.bayesClassifier.addDocument(item.text, item.label))]
    over the seed examples, on a fresh classifier, then [train()]. *)
Definition initializeBayesClassifier : M unit :=
  set_bayesClassifier
    (train (fold_left (fun c item => addDocument c (doc_text item) (doc_label item))
                      trainingData new_BayesClassifier)).

(** The state the constructor leaves. *)
Definition constructor : Service :=
  snd (initializeBayesClassifier {| tfidf := []; bayesClassifier := null |}).

(** [try { bayesResult = this.bayesClassifier.getClassifications(fullText) } catch { }]:
    [bayesResult] stays [null] when the call throws. *)
Definition tryGetClassifications (this : Service) (fullText : string)
  : js (list (js Classification)) :=
  match bayesClassifier this with
  | val c =>
      match getClassifications c fullText with
      | Returns v => v
      | Throws _ => null
      end
  | _ => null
  end.

Definition analyzeJobPosting (jobData : JobData) : M Analysis :=
  fullText <- lift (fullTextOf jobData) ;;
  (* Check for suspicious keywords *)
  let flaggedKeywords := scanKeywords suspiciousKeywords fullText in
  (* Check for suspicious patterns *)
  let flaggedPatterns := scanPatterns E suspiciousPatterns fullText in
  (* Check for red flag elements *)
  let redFlags := redFlagsOf flaggedKeywords in
  (* Sentiment analysis *)
  let sentimentScore := sentiment_analyze E fullText in
  (* TF-IDF analysis *)
  this <- get_this ;;
  put_this (with_document this fullText) ;;;
  this <- get_this ;;
  let tfidfScores :=
    filter (fun ks => Qgtb (snd ks) 0)
           (map (fun keyword => (keyword, tfidf_tfidf E (tfidf this) keyword 0))
                suspiciousKeywords) in
  (* Bayes classification *)
  let bayesResult := tryGetClassifications this fullText in
  (* Calculate overall risk score *)
  riskScore <- lift (riskScoreOf flaggedKeywords redFlags sentimentScore bayesResult) ;;
  let isScam := Qgtb riskScore (1#2) in
  ret {| isScam := isScam;
         confidence := riskScore;
         scamTypes := scamTypesOf flaggedKeywords;
         flaggedKeywords := flaggedKeywords;
         flaggedPatterns := flaggedPatterns;
         riskFactors := redFlags;
         recommendations := recommendationsOf isScam flaggedKeywords redFlags;
         sentiment := sentimentScore |}.

(** What [batchAnalyze] stores under [analysis]: the analysis, or the
    record built in the [catch] branch,
    [{ isScam: false, confidence: 0, error: error.message }]. *)
Inductive BatchAnalysis : Type :=
| Analysed (analysis : Analysis)
| Failed (error : string).

Definition batch_isScam (a : BatchAnalysis) : bool :=
  match a with
  | Analysed analysis => isScam analysis
  | Failed _ => false
  end.

Definition batch_confidence (a : BatchAnalysis) : Q :=
  match a with
  | Analysed analysis => confidence analysis
  | Failed _ => 0%Q
  end.

Record BatchResult : Type := {
  jobId : js string;
  analysis : BatchAnalysis
}.

(** [job._id || job.id] *)
Definition jobIdOf (job : JobData) : js string :=
  match _id job with
  | val (String _ _) => _id job
  | _ => id job
  end.

Fixpoint batchAnalyze_loop (jobPostings : list JobData) (results : list BatchResult)
  : M (list BatchResult) :=
  match jobPostings with
  | [] => ret results
  | job :: rest =>
      fun this =>
        match analyzeJobPosting job this with
        | (Ok analysis, this') =>
            batchAnalyze_loop rest
              (results ++ [{| jobId := jobIdOf job; analysis := Analysed analysis |}]) this'
        | (Throw error, this') =>
            batchAnalyze_loop rest
              (results ++ [{| jobId := jobIdOf job; analysis := Failed error |}]) this'
        end
  end.

Definition batchAnalyze (jobPostings : list JobData) : M (list BatchResult) :=
  batchAnalyze_loop jobPostings [].

(** An element of the array posted to the retrain route; [null] and
    [undefined] elements are possible in a JSON body. *)
Record TrainingItem : Type := { item_text : string; item_label : string }.

Fixpoint updateModel_forEach (trainingData : list (js TrainingItem)) : M unit :=
  match trainingData with
  | [] => ret tt
  | item :: rest =>
      this <- get_this ;;
      match item, bayesClassifier this with
      | val item, val c =>
          set_bayesClassifier (addDocument c (item_text item) (item_label item)) ;;;
          updateModel_forEach rest
      | val _, _ =>
          throw "TypeError: Cannot read properties of null (reading 'addDocument')"
      | _, _ =>
          throw "TypeError: Cannot read properties of null (reading 'text')"
      end
  end.

Definition updateModel (trainingData : list (js TrainingItem)) : M unit :=
  this <- get_this ;;
  (match bayesClassifier this with
   | val _ => ret tt
   | _ => initializeBayesClassifier
   end) ;;;
  updateModel_forEach trainingData ;;;
  this <- get_this ;;
  match bayesClassifier this with
  | val c => set_bayesClassifier (train c)
  | _ => throw "TypeError: Cannot read properties of null (reading 'train')"
  end.

(** The [summary] of the [batchAnalyze] handler of the ML controller. *)
Record Summary : Type := {
  total : nat;
  scamsDetected : nat;
  legitimate : nat
}.

Definition summary (results : list BatchResult) : Summary :=
  {| total := List.length results;
     scamsDetected := List.length (filter (fun r => batch_isScam (analysis r)) results);
     legitimate := List.length (filter (fun r => negb (batch_isScam (analysis r))) results) |}.

End Service.

Arguments docs {E} _.
Arguments trained {E} _.
Arguments tfidf {E} _.
Arguments bayesClassifier {E} _.
Arguments with_document {E} _ _.

End ScamDetection.

(** ** The fusion rules as the specification words them

    The definitions of this part follow the sentences of the specification,
    not the source; the theorems compare them with the services. *)

Definition clamp01 (x : Q) : Q := Math_min (Math_max x 0) 1.

Definition count_true (bs : list bool) : nat := List.length (filter (fun b => b) bs).

Definition present {A} (x : js A) : bool :=
  match x with
  | val _ => true
  | _ => false
  end.

Module SocialSpec.
Import Social.

(** Step 2 as written: the metrics include both [followers] and [likes],
    and [likes/followers > 0.5]. *)
Definition engagement_bonus (engagement : js Engagement) : Q :=
  match engagement with
  | val e =>
      if present (followers e) && present (likes e) &&
         jsnum_gtb (jsdiv (num_of (likes e)) (num_of (followers e))) (1#2)
      then double 0.2 else 0%Q
  | _ => 0%Q
  end.

(** Step 2 as the service computes it: both counters are present and not
    zero, and the quotient of the two exceeds one half. *)
Definition guarded_engagement_bonus (engagement : js Engagement) : Q :=
  match engagement with
  | val e =>
      match followers e, likes e with
      | val f, val l =>
          if negb (Qeq_bool f 0) && negb (Qeq_bool l 0) &&
             jsnum_gtb (jsdiv l f) (1#2)
          then double 0.2 else 0%Q
      | _, _ => 0%Q
      end
  | _ => 0%Q
  end.

Definition keyword_term (flaggedKeywords : list string) : Q :=
  Math_min (of_length flaggedKeywords *! double 0.1) (1#2).

Definition pattern_term (flaggedPatterns : list string) : Q :=
  Math_min (of_length flaggedPatterns *! double 0.15) (1#2).

Definition sentiment_bonus (s : SentimentResult) : Q :=
  if Qgtb (comparative s) (double 0.8) then double 0.15 else 0%Q.

(** Steps 1 to 4 of the social-post fusion, with a given engagement rule. *)
Definition confidence_with (bonus : js Engagement -> Q)
    (flaggedKeywords flaggedPatterns : list string)
    (engagement : js Engagement) (s : SentimentResult) : Q :=
  clamp01 (keyword_term flaggedKeywords +! pattern_term flaggedPatterns
           +! bonus engagement +! sentiment_bonus s).

(** A counter that is zero, [null] or missing. *)
Definition zero_or_absent (x : js Q) : Prop :=
  match x with
  | val q => (q == 0)%Q
  | _ => True
  end.

(** The engagement metadata of the posts whose ratio must not be taken. *)
Definition no_ratio (engagement : js Engagement) : Prop :=
  match engagement with
  | val e => zero_or_absent (followers e) \/ zero_or_absent (likes e)
  | _ => True
  end.

(** The posts to which the ratio signal applies: the specification
    leaves a follower count of 0 out ("ratio signal inapplicable"). *)
Definition ratio_applicable (engagement : js Engagement) : Prop :=
  match engagement with
  | val e =>
      match followers e with
      | val f => ~ (f == 0)%Q
      | _ => True
      end
  | _ => True
  end.

End SocialSpec.

Module JobSpec.
Import ScamDetection.

(** Step 2 of the job-posting fusion: the five red flags as booleans on
    the flagged keywords. *)
Definition payment_required (kws : list string) : bool :=
  some_in kws ["fee"; "payment"; "deposit"; "investment"].
Definition work_from_home_payment (kws : list string) : bool :=
  array_includes kws "work from home" && some_in kws ["fee"; "payment"; "deposit"].
Definition international_fee (kws : list string) : bool :=
  some_in kws ["international"; "abroad"; "overseas"; "visa"; "flight"] &&
  some_in kws ["fee"; "payment"; "deposit"].
Definition high_pressure (kws : list string) : bool :=
  some_in kws ["urgent"; "immediate"; "act now"; "limited time"; "hurry"].
Definition vague_description (kws : list string) : bool :=
  some_in kws ["various duties"; "miscellaneous tasks"; "data entry"; "customer service"] &&
  negb (some_in kws ["engineer"; "developer"; "analyst"; "manager"; "specialist"]).

Definition red_flag_count (kws : list string) : nat :=
  count_true [payment_required kws; work_from_home_payment kws;
              international_fee kws; high_pressure kws; vague_description kws].

(** The probability of the label ["scam"] in a classification list, 0 if
    the label is absent. *)
Fixpoint scam_probability (cs : list Classification) : Q :=
  match cs with
  | [] => 0%Q
  | c :: r => if String.eqb (label c) "scam" then value c else scam_probability r
  end.

(** Steps 1 and 3 to 5 before the clamp: the rule-based score. *)
Definition rule_score (flaggedKeywords : list string) (s : SentimentResult) : Q :=
  (Math_min (of_length flaggedKeywords /! 10) 1
   +! double 0.15 *! inject_Z (Z.of_nat (red_flag_count flaggedKeywords))
   +! (if Qgtb (comparative s) (1#2) then double 0.1 else 0))%Q.

(** Steps 1 to 6: [cs] is the classification list, [None] when the
    classifier gave none. *)
Definition claimed_confidence (flaggedKeywords : list string) (s : SentimentResult)
    (cs : option (list Classification)) : Q :=
  let riskScore := rule_score flaggedKeywords s in
  let riskScore :=
    match cs with
    | Some ((_ :: _) as cs) => ((riskScore +! scam_probability cs) /! 2)%Q
    | _ => riskScore
    end in
  clamp01 riskScore.

(** The classification list inside a value returned by the classifier:
    the return value seen as a list of well-formed entries, if it is one. *)
Fixpoint entries (l : list (js Classification)) : option (list Classification) :=
  match l with
  | [] => Some []
  | val c :: r =>
      match entries r with
      | Some cs => Some (c :: cs)
      | None => None
      end
  | _ :: _ => None
  end.

(** [classifier_signal v cs]: the value [v] left in [bayesResult] is the
    classification list [cs], or there is no list ([null] after a throw). *)
Inductive classifier_signal
  : js (list (js Classification)) -> option (list Classification) -> Prop :=
| signal_null : classifier_signal null None
| signal_undefined : classifier_signal undefined None
| signal_list (cs : list Classification) : classifier_signal (val (map val cs)) (Some cs).

(** The classifier gave no signal: it threw, or returned nothing, or
    returned an empty list. *)
Definition unavailable (r : Reply) : Prop :=
  match r with
  | Throws _ => True
  | Returns (val (_ :: _)) => False
  | Returns _ => True
  end.

(** Output of the classifier that is not a classification list: [null],
    [undefined], or an array with an entry that is no classification. *)
Definition malformed (v : js (list (js Classification))) : Prop :=
  match v with
  | val l => entries l = None
  | _ => True
  end.

End JobSpec.

Module EngineSpec.
Import ScamDetection.

(** [train(corpus)] of section 4.5: a classifier rebuilt from scratch
    over the corpus. *)
Definition train_from_scratch (E : Externals) (corpus : list Doc) : BayesClassifier E :=
  train E (fold_left (fun c d => addDocument E c (doc_text d) (doc_label d))
                     corpus (new_BayesClassifier E)).

(** The classifier an update works on: the one of the service, or the
    seed classifier when the service has none. *)
Definition active (E : Externals) (this : Service E) : BayesClassifier E :=
  match bayesClassifier this with
  | val c => c
  | _ => train_from_scratch E trainingData
  end.

Definition doc_of (item : TrainingItem) : Doc :=
  {| doc_text := item_text item; doc_label := item_label item |}.

(** What the analysis of one job alone gives, as a batch entry. *)
Definition outcome (E : Externals) (this : Service E) (job : JobData) : BatchAnalysis :=
  match fst (analyzeJobPosting E job this) with
  | Ok a => Analysed a
  | Throw e => Failed e
  end.

Definition entry_of (E : Externals) (this : Service E) (job : JobData) : BatchResult :=
  {| jobId := jobIdOf job; analysis := outcome E this job |}.

(** An entry that holds an analysis, not the record of a failure. *)
Definition analysed (r : BatchResult) : bool :=
  match analysis r with
  | Analysed _ => true
  | Failed _ => false
  end.

Definition degraded (r : BatchResult) : bool := negb (analysed r).

End EngineSpec.

(** ** An instance of the imported packages

    Used to run the services on concrete inputs: the sentiment is a given
    comparative score, the regular expressions match what [matches] says,
    the classifier answers [reply] whatever the text, and its statistics
    are the corpus it was trained on. *)
Definition stub (cmp : Q) (matches : RegExp -> option (list string)) (reply : Reply)
  : Externals :=
  {| sentiment_analyze := fun _ => {| score := 0; comparative := cmp;
                                      positive := []; negative := [] |};
     String_match := fun _ pattern => matches pattern;
     tfidf_tfidf := fun _ _ _ => 0%Q;
     Model := list Doc;
     untrained := [];
     train_docs := fun ds => ds;
     classify := fun _ _ _ => reply |}.

Definition no_match : RegExp -> option (list string) := fun _ => None.

Definition neutral : Externals := stub 0 no_match (Returns (val [])).

(** The lexicon matcher of section 4.2, in the words of the specification. *)
Module LexiconSpec.

(** The position of the first occurrence of [x] in [l] (its length if
    there is none). *)
Fixpoint first_index (x : string) (l : list string) : nat :=
  match l with
  | [] => 0
  | y :: r => if String.eqb x y then 0 else S (first_index x r)
  end.

(** [k] occurs in [text] as a substring, up to the case of the letters. *)
Definition occurs_ignoring_case (k text : string) : Prop :=
  exists pre mid post,
    text = (pre ++ mid ++ post)%string /\ toLowerCase mid = toLowerCase k.

(** The values of [xs] not in [seen], each once, in the order of their
    first occurrence. *)
Fixpoint fresh (seen xs : list string) : list string :=
  match xs with
  | [] => []
  | x :: r =>
      if array_includes seen x then fresh seen r else x :: fresh (seen ++ [x]) r
  end.

End LexiconSpec.

(** Sample inputs. *)
Definition two_matches : RegExp -> option (list string) :=
  fun _ => Some ["urgent"; "now"].

Definition sample_post : Social.Content :=
  {| Social.text := val "Earn money online, ask me how";
     Social.engagement :=
       val {| Social.followers := val 800%Q; Social.likes := val 500%Q;
              Social.shares := undefined |} |}.

Definition plain_job (title description : string) : ScamDetection.JobData :=
  {| ScamDetection._id := undefined;
     ScamDetection.id := val title;
     ScamDetection.title := val title;
     ScamDetection.description := val description;
     ScamDetection.company := undefined;
     ScamDetection.requirements := undefined;
     ScamDetection.responsibilities := undefined;
     ScamDetection.contactInfo := undefined |}.

Definition sample_job : ScamDetection.JobData :=
  plain_job "Assistant"
    "Work from home making money! No experience needed. Sign up fee required. Urgent! Act now!".

Definition null_company_job : ScamDetection.JobData :=
  {| ScamDetection._id := val "job-3";
     ScamDetection.id := undefined;
     ScamDetection.title := val "Clerk";
     ScamDetection.description := null;
     ScamDetection.company := null;
     ScamDetection.requirements := null;
     ScamDetection.responsibilities := undefined;
     ScamDetection.contactInfo := undefined |}.

Definition sample_batch : list ScamDetection.JobData :=
  [plain_job "Software Engineer" "Build services";
   sample_job;
   null_company_job;
   plain_job "Nurse" "Night shifts";
   plain_job "Driver" "Deliver parcels"].

Definition sample_job_text : string :=
  Eval vm_compute in
    match ScamDetection.fullTextOf sample_job with
    | Ok fullText => fullText
    | Throw _ => ""
    end.

Definition sample_classifications : list Classification :=
  [{| label := "legitimate"; value := double 0.1 |};
   {| label := "scam"; value := double 0.9 |}].

(** A classifier that answers [sample_classifications], one that throws,
    and one whose answer holds a [null] entry. *)
Definition answering : Externals :=
  stub (double 0.6) no_match (Returns (val (map val sample_classifications))).

Definition throwing : Externals :=
  stub 0 no_match (Throws "Error: classifier unavailable").

Definition broken : Externals :=
  stub 0 no_match (Returns (val [null])).

Definition good_example : ScamDetection.TrainingItem :=
  {| ScamDetection.item_text := "Pay a deposit to start";
     ScamDetection.item_label := "scam" |}.

Definition sample_text : string := "act now: earn money online".

Definition zero_followers_post : Social.Content :=
  {| Social.text := val "hello";
     Social.engagement :=
       val {| Social.followers := val 0%Q; Social.likes := val 5%Q;
              Social.shares := undefined |} |}.

(** ** controllers/mlController.js

    The handlers of the ML routes.  A handler answers with
    [res.status(s).json(data)] or hands a [new ErrorResponse(message, s)] to
    [next]; an exception thrown inside it is passed on by [asyncHandler]
    and is a [Throw] here.  The counts and records a handler gets from the
    store are arguments; what it sends to the store is returned beside the
    answer. *)

Module MlController.
Import ScamDetection.

Inductive Response (A : Type) : Type :=
| ErrorResponse (message : string) (statusCode : nat)
| Json (status : nat) (data : A).
Arguments ErrorResponse {A} message statusCode.
Arguments Json {A} status data.

(** [x || d] on a number slot. *)
Definition num_or (x : js Q) (d : Q) : Q :=
  match x with
  | val q => if Qeq_bool q 0%Q then d else q
  | _ => d
  end.

(** Truthiness of a string slot. *)
Definition truthy_string (x : js string) : bool :=
  match x with
  | val (String _ _) => true
  | _ => false
  end.

(** [x || null] on a string slot. *)
Definition or_null (x : js string) : js string :=
  if truthy_string x then x else null.

(** *** analyzeActivity *)

Record ActivityData : Type := {
  threatLevel : js string;
  confidenceScore : js Q;
  detectedScamTypes : js (list string);
  flaggedKeywords : js (list string)
}.

Record ActivityAnalysis : Type := {
  isThreat : bool;
  confidence : Q;
  analysis_detectedScamTypes : list string;
  analysis_flaggedKeywords : list string;
  recommendations : list string
}.

(** The fields of [SuspiciousActivity.findByIdAndUpdate(activityId, ...)]. *)
Record ActivityUpdate : Type := {
  aiAnalysis_isScam : bool;
  aiAnalysis_confidence : Q;
  aiAnalysis_detectedScamTypes : list string;
  aiAnalysis_flaggedKeywords : list string;
  update_threatLevel : string
}.

Record ActivityAnswer : Type := {
  answer_activityId : js string;
  answer_analysis : ActivityAnalysis
}.

Definition is_string (x : js string) (s : string) : bool :=
  match x with
  | val t => String.eqb t s
  | _ => false
  end.

Definition analyzeActivity (activityId : js string) (activityData : js ActivityData)
  : option (string * ActivityUpdate) * Response ActivityAnswer :=
  match activityData with
  | val activityData =>
      let analysis :=
        {| isThreat := is_string (threatLevel activityData) "high"
                       || is_string (threatLevel activityData) "critical";
           confidence := num_or (confidenceScore activityData) (1#2);
           analysis_detectedScamTypes := or_nil (detectedScamTypes activityData);
           analysis_flaggedKeywords := or_nil (flaggedKeywords activityData);
           recommendations := ["Manual review recommended"] |} in
      let update :=
        match activityId with
        | val (String _ _ as id) =>
            Some (id,
                  {| aiAnalysis_isScam := isThreat analysis;
                     aiAnalysis_confidence := confidence analysis;
                     aiAnalysis_detectedScamTypes := analysis_detectedScamTypes analysis;
                     aiAnalysis_flaggedKeywords := analysis_flaggedKeywords analysis;
                     update_threatLevel :=
                       if isThreat analysis then "high" else "medium" |})
        | _ => None
        end in
      (update,
       Json 200 {| answer_activityId := or_null activityId;
                   answer_analysis := analysis |})
  | _ => (None, ErrorResponse "activityData is required" 400)
  end.

(** *** getMLStats *)

(** [total > 0 ? (part / total) * 100 : 0] *)
Definition rate (part total : nat) : Q :=
  if 0 <? total
  then (inject_Z (Z.of_nat part) /! inject_Z (Z.of_nat total) *! 100)%Q
  else 0%Q.

Record MLStats : Type := {
  totalJobs : nat;
  scamJobs : nat;
  flaggedJobs : nat;
  totalReports : nat;
  verifiedReports : nat;
  scamRate : Q;
  flagRate : Q;
  verificationRate : Q;
  recentScams : nat;
  recentReports : nat;
  scamTrend : string;
  reportTrend : string
}.

(** The answer of [getMLStats] from the seven counts it reads. *)
Definition getMLStats (totalJobs scamJobs flaggedJobs totalReports verifiedReports
    recentScams recentReports : nat) : Response MLStats :=
  Json 200
    {| totalJobs := totalJobs;
       scamJobs := scamJobs;
       flaggedJobs := flaggedJobs;
       totalReports := totalReports;
       verifiedReports := verifiedReports;
       scamRate := rate scamJobs totalJobs;
       flagRate := rate flaggedJobs totalJobs;
       verificationRate := rate verifiedReports totalReports;
       recentScams := recentScams;
       recentReports := recentReports;
       scamTrend := if 0 <? recentScams then "increasing" else "stable";
       reportTrend := if 0 <? recentReports then "increasing" else "stable" |}.

(** *** retrainModel *)

(** The record handed to [ModelPerformance.create]. *)
Record ModelPerformance : Type := {
  modelName : string;
  modelVersion : string;
  modelType : string;
  datasetUsed : string;
  accuracy : Q;
  precision : Q;
  recall : Q;
  f1Score : Q;
  trainingDataSize : nat;
  deployedBy : string;
  status : string
}.

(** *** analyzeJob and batchAnalyze *)

(** The fields of [JobListing.findByIdAndUpdate(jobId, ...)]. *)
Record JobUpdate : Type := {
  update_jobId : js string;
  scamDetection_isScam : bool;
  scamDetection_confidence : Q;
  scamDetection_details : BatchAnalysis;
  scamProbability : Q;
  scamReasons : js (list string)
}.

Definition update_of (jobId : js string) (analysis : BatchAnalysis) : JobUpdate :=
  {| update_jobId := jobId;
     scamDetection_isScam := batch_isScam analysis;
     scamDetection_confidence := batch_confidence analysis;
     scamDetection_details := analysis;
     scamProbability := batch_confidence analysis;
     scamReasons :=
       match analysis with
       | Analysed a => val (scamTypes a)
       | Failed _ => undefined
       end |}.

Record JobAnswer : Type := {
  answer_jobId : js string;
  job_analysis : Analysis
}.

Record BatchAnswer : Type := {
  results : list BatchResult;
  batch_summary : Summary
}.

Section Handlers.
Variable E : Externals.

(** The service and the model-performance records created so far. *)
Definition State : Type := (Service E * list ModelPerformance)%type.

Definition retrainModel (role userId : string)
    (trainingData : js (list (js TrainingItem))) (st : State)
  : result (Response ModelPerformance) * State :=
  if negb (String.eqb role "admin")
  then (Ok (ErrorResponse "Only administrators can retrain models" 403), st)
  else
    match trainingData with
    | val trainingData =>
        (* Update the model with new training data *)
        match updateModel E trainingData (fst st) with
        | (Ok _, this) =>
            (* Log model performance *)
            let modelPerformance :=
              {| modelName := "ScamDetectionModel";
                 modelVersion := "1.0.0";
                 modelType := "scam_detection";
                 datasetUsed := "job_listings";
                 accuracy := double 0.92;
                 precision := double 0.89;
                 recall := double 0.91;
                 f1Score := double 0.90;
                 trainingDataSize := List.length trainingData;
                 deployedBy := userId;
                 status := "deployed" |} in
            (Ok (Json 200 modelPerformance), (this, snd st ++ [modelPerformance]))
        | (Throw e, this) => (Throw e, (this, snd st))
        end
    | _ => (Ok (ErrorResponse "Training data array is required" 400), st)
    end.

(** [JobListing.findById]: the stored posting, if any. *)
Variable findById : string -> option JobData.

Definition analyzeJob (jobId : js string) (jobData : js JobData) (this : Service E)
  : result (option JobUpdate * Response JobAnswer) * Service E :=
  let respond (jobToAnalyze : JobData) :=
    (* Perform scam detection analysis *)
    match analyzeJobPosting E jobToAnalyze this with
    | (Ok analysis, this') =>
        (Ok (if truthy_string jobId
             then Some (update_of jobId (Analysed analysis))
             else None,
             Json 200 {| answer_jobId := or_null jobId; job_analysis := analysis |}),
         this')
    | (Throw e, this') => (Throw e, this')
    end in
  match jobId with
  | val (String _ _ as id) =>
      match findById id with
      | Some job => respond job
      | None =>
          (Ok (None, ErrorResponse ("Job not found with id of " ++ id) 404), this)
      end
  | _ =>
      match jobData with
      | val jobData => respond jobData
      | _ =>
          (Ok (None, ErrorResponse "Either jobId or jobData must be provided" 400),
           this)
      end
  end.

(** [JobListing.find({ _id: { $in: jobIds } })]: the stored postings whose
    id is one of [jobIds]. *)
Variable find_in : list string -> list JobData.

Definition batchAnalyze (jobIds : js (list string)) (this : Service E)
  : result (list JobUpdate * Response BatchAnswer) * Service E :=
  match jobIds with
  | val ((_ :: _) as jobIds) =>
      (* Fetch all jobs *)
      let jobs := find_in jobIds in
      if negb (List.length jobs =? List.length jobIds)
      then (Ok ([], ErrorResponse "Some jobs were not found" 404), this)
      else
        (* Perform batch analysis *)
        match ScamDetection.batchAnalyze E jobs this with
        | (Ok results, this') =>
            (Ok (map (fun r => update_of (jobId r) (analysis r)) results,
                 Json 200 {| results := results; batch_summary := summary results |}),
             this')
        | (Throw e, this') => (Throw e, this')
        end
  | _ => (Ok ([], ErrorResponse "jobIds array is required" 400), this)
  end.

End Handlers.

End MlController.

(** ** services/socialMediaMonitoringService.js: monitoring

    The rest of the social service: the simulated fetches, the record
    built for a suspicious post, and the monitoring loops.  The platform
    tokens come from the environment when the service is constructed;
    [SuspiciousActivity.create] is the store and is a parameter. *)

Module Monitor.
Import Social.

Definition socialMediaPlatforms : list string :=
  ["twitter"; "facebook"; "instagram"; "linkedin"; "tiktok"; "youtube"; "reddit"].

Record Author : Type := {
  name : js string;
  username : js string;
  profileUrl : js string
}.

(** A fetched post: the fields the analysis reads ([post_content]) and the
    others that the record reads. *)
Record Post : Type := {
  post_content : Content;
  author : js Author;
  url : js string
}.

(** [process.env.*] as read by the constructor into [socialMediaAPIs]. *)
Record Tokens : Type := {
  twitter_bearerToken : js string;
  facebook_accessToken : js string;
  instagram_accessToken : js string;
  linkedin_accessToken : js string
}.

Definition falsy_string (x : js string) : bool :=
  match x with
  | val (String _ _) => false
  | _ => true
  end.

Definition mock_post (text name username profileUrl url : string)
    (likes followers : js Q) (shares : js Q) : Post :=
  {| post_content :=
       {| Social.text := val text;
          engagement := val {| followers := followers; likes := likes;
                               shares := shares |} |};
     author := val {| name := val name; username := val username;
                      profileUrl := val profileUrl |};
     url := val url |}.

Definition fetchTwitterPosts (tokens : Tokens) (keywords : list string)
    (dateRange : js string) : list Post :=
  if falsy_string (twitter_bearerToken tokens) then []
  else
    [mock_post "Work from home making $5000 per week! No experience needed. DM for details!"
       "Job Opportunities" "@jobopportunities123"
       "https://twitter.com/jobopportunities123"
       "https://twitter.com/jobopportunities123/status/123456789"
       (val 250%Q) (val 1200%Q) undefined;
     mock_post "Earn money online! Click the link in bio to join our program. Limited spots available!"
       "Make Money Now" "@makemoneynow"
       "https://twitter.com/makemoneynow"
       "https://twitter.com/makemoneynow/status/987654321"
       (val 500%Q) (val 800%Q) undefined].

Definition fetchFacebookPosts (tokens : Tokens) (keywords : list string)
    (dateRange : js string) : list Post :=
  if falsy_string (facebook_accessToken tokens) then []
  else
    [mock_post "Urgent hiring! International positions available. Pay processing fee of $150 for visa. Act now!"
       "Global Jobs Inc" "globaljobsinc"
       "https://facebook.com/globaljobsinc"
       "https://facebook.com/globaljobsinc/posts/123456789"
       (val 89%Q) (val 5000%Q) (val 45%Q)].

Definition fetchInstagramPosts (tokens : Tokens) (keywords : list string)
    (dateRange : js string) : list Post :=
  if falsy_string (instagram_accessToken tokens) then []
  else
    [mock_post "Make money from home! No skills required! Transfer payment only! #workfromhome #makemoney"
       "Home Business Pro" "homebusinesspro"
       "https://instagram.com/homebusinesspro"
       "https://instagram.com/p/ABCD1234567"
       (val 1200%Q) (val 15000%Q) (val 89%Q)].

Definition fetchLinkedInPosts (tokens : Tokens) (keywords : list string)
    (dateRange : js string) : list Post :=
  if falsy_string (linkedin_accessToken tokens) then []
  else
    [mock_post "Investment opportunity! Guaranteed returns of 20% monthly. No risk involved. Contact for details."
       "Investment Advisor" "investmentadvisor"
       "https://linkedin.com/in/investmentadvisor"
       "https://linkedin.com/feed/update/urn:li:activity:123456789"
       (val 45%Q) (val 1200%Q) undefined].

Definition fetchTikTokPosts (keywords : list string) (dateRange : js string)
  : list Post :=
  [mock_post "Easy money hack! Work from home and make $1000s weekly! No experience needed! Link in bio!"
     "Money Hacks" "@moneyhacks"
     "https://tiktok.com/@moneyhacks"
     "https://tiktok.com/@moneyhacks/video/123456789"
     (val 50000%Q) (val 100000%Q) (val 2500%Q)].

Definition fetchRedditPosts (keywords : list string) (dateRange : js string)
  : list Post :=
  [mock_post "Got scammed by this 'work from home' job. They asked for a $200 processing fee. Beware!"
     "JobSeeker2023" "JobSeeker2023"
     "https://reddit.com/user/JobSeeker2023"
     "https://reddit.com/r/Jobs/comments/xyz123"
     undefined undefined undefined].

(** [fetchUserPosts(username, platform)] *)
Definition fetchUserPosts (username platform : string) : list Post :=
  [{| post_content :=
        {| Social.text :=
             val ("New post from " ++ username ++ " about earning money online")%string;
           engagement := val {| followers := val 1000%Q; likes := val 100%Q;
                                shares := val 20%Q |} |};
      author := val {| name := val username; username := val username;
                       profileUrl := undefined |};
      url := val ("https://" ++ platform ++ ".com/" ++ username ++ "/posts/123")%string |}].

(** The argument of [SuspiciousActivity.create]. *)
Record AuthorRecord : Type := {
  record_name : js string;
  record_username : js string;
  record_profileUrl : js string
}.

Record ViralPotential : Type := {
  viral_score : Q;
  viral_riskLevel : string
}.

Record ActivityRecord : Type := {
  activityType : string;
  platform : string;
  source : string;
  sourceUrl : js string;
  title : string;
  content : string;
  record_author : AuthorRecord;
  detectedScamTypes : list string;
  flaggedKeywords : list string;
  flaggedPatterns : list string;
  threatLevel : RiskLevel;
  confidenceScore : Q;
  detectionMethod : string;
  aiAnalysis_isScam : bool;
  aiAnalysis_confidence : Q;
  aiAnalysis_detectedScamTypes : list string;
  aiAnalysis_flaggedKeywords : list string;
  aiAnalysis_sentiment : SentimentResult;
  engagementMetrics : Engagement;
  socialMediaAnalysis_sentiment : SentimentResult;
  viralPotential : ViralPotential;
  status : string;
  priority : nat
}.

(** [a || b] on two string slots. *)
Definition string_or (a b : js string) : js string :=
  if falsy_string a then b else a.

(** [x > y] where the left side is a number slot: [undefined] compares as
    NaN and [null] as 0. *)
Definition slot_gtb (x : js Q) (y : Q) : bool :=
  match x with
  | val q => Qgtb q y
  | null => Qgtb 0 y
  | undefined => false
  end.

(** The object literal of [createSuspiciousActivityRecord], evaluated in
    the order it is written: a [null] text, author or engagement throws
    where its property is first read. *)
Definition recordOf (post : Post) (platform : string) (analysis : Analysis)
  : result ActivityRecord :=
  let text := with_default (Social.text (post_content post)) "" in
  let author :=
    with_default (author post)
      {| name := undefined; username := undefined; profileUrl := undefined |} in
  let url := with_default (url post) "" in
  let engagement := with_default (engagement (post_content post)) no_engagement in
  match text with
  | undefined | null =>
      Throw "TypeError: Cannot read properties of null (reading 'substring')"
  | val text =>
      match author with
      | undefined | null =>
          Throw "TypeError: Cannot read properties of null (reading 'name')"
      | val author =>
          match engagement with
          | undefined | null =>
              Throw "TypeError: Cannot read properties of null (reading 'shares')"
          | val engagement =>
              Ok {| activityType := "social_media_post";
                    platform := platform;
                    source := platform;
                    sourceUrl := url;
                    title :=
                      String.append (substring 0 100 text)
                        (if 100 <? String.length text then "..." else "");
                    content := text;
                    record_author :=
                      {| record_name := string_or (name author) (username author);
                         record_username := username author;
                         record_profileUrl := profileUrl author |};
                    detectedScamTypes := Social.detectedScamTypes analysis;
                    flaggedKeywords := Social.flaggedKeywords analysis;
                    flaggedPatterns := Social.flaggedPatterns analysis;
                    threatLevel := riskLevel analysis;
                    confidenceScore := confidence analysis;
                    detectionMethod := "ml_model";
                    aiAnalysis_isScam := isSuspicious analysis;
                    aiAnalysis_confidence := confidence analysis;
                    aiAnalysis_detectedScamTypes := Social.detectedScamTypes analysis;
                    aiAnalysis_flaggedKeywords := Social.flaggedKeywords analysis;
                    aiAnalysis_sentiment := sentiment analysis;
                    engagementMetrics := engagement;
                    socialMediaAnalysis_sentiment := sentiment analysis;
                    viralPotential :=
                      {| viral_score :=
                           if truthy_num (shares engagement)
                           then (num_of (shares engagement) /! 100)%Q
                           else 0%Q;
                         viral_riskLevel :=
                           if slot_gtb (shares engagement) 1000 then "high" else "medium" |};
                    status := "new";
                    priority :=
                      match riskLevel analysis with
                      | critical => 5
                      | high => 4
                      | medium => 3
                      | low => 2
                      end |}
          end
      end
  end.

(** The enums that the schema of [SuspiciousActivity] declares for the
    string paths the record sets. *)
Definition activityType_enum : list string :=
  ["job_posting"; "profile_creation"; "application_submission"; "message_sending";
   "social_media_post"; "account_login"; "data_access"; "report_submission"; "other"].

Definition platform_enum : list string :=
  ["job_board"; "social_media"; "email"; "website"; "mobile_app"; "other"].

Definition source_enum : list string :=
  ["linkedin"; "indeed"; "glassdoor"; "facebook"; "twitter"; "instagram"; "tiktok";
   "youtube"; "reddit"; "other"].

Definition detectedScamTypes_enum : list string :=
  ["fake_job_listing"; "salary_misrepresentation"; "company_impersonation";
   "identity_theft"; "financial_fraud"; "work_from_home_scam";
   "pyramid_scheme"; "advance_fee_fraud"; "recruitment_fraud";
   "harassment"; "bullying"; "impersonation"; "misinformation";
   "copyright_violation"; "spam"; "phishing"; "other"].

Definition detectionMethod_enum : list string :=
  ["ml_model"; "rule_engine"; "user_report"; "pattern_matching";
   "anomaly_detection"; "combined"].

Definition status_enum : list string :=
  ["new"; "analyzed"; "reviewed"; "resolved"; "closed"].

(** The paths of a record whose value is outside the enum declared for
    them. *)
Definition enum_violations (r : ActivityRecord) : list string :=
  (if array_includes activityType_enum (activityType r) then [] else ["activityType"]) ++
  (if array_includes platform_enum (platform r) then [] else ["platform"]) ++
  (if array_includes source_enum (source r) then [] else ["source"]) ++
  (if forallb (array_includes detectedScamTypes_enum) (detectedScamTypes r)
   then [] else ["detectedScamTypes"]) ++
  (if array_includes detectionMethod_enum (detectionMethod r)
   then [] else ["detectionMethod"]) ++
  (if array_includes status_enum (status r) then [] else ["status"]).

(** [usernames] is one name or an array of names. *)
Inductive Usernames : Type :=
| One (username : string)
| Many (usernames : list string).

Section Service.
Variable E : Externals.
(** The documents of the store and [SuspiciousActivity.create]. *)
Variable Stored : Type.
Variable create : ActivityRecord -> result Stored.
Variable tokens : Tokens.

Definition createSuspiciousActivityRecord (post : Post) (platform : string)
    (analysis : Analysis) : result Stored :=
  match recordOf post platform analysis with
  | Ok record => create record
  | Throw e => Throw e
  end.

(** The loop over the posts that [monitorPlatform] and
    [monitorUserAccounts] share. *)
Fixpoint analyzePosts (posts : list Post) (platform : string)
    (suspiciousActivities : list Stored) : result (list Stored) :=
  match posts with
  | [] => Ok suspiciousActivities
  | post :: rest =>
      match analyzeSocialMediaContent E (post_content post) with
      | Ok analysis =>
          if isSuspicious analysis
          then
            match createSuspiciousActivityRecord post platform analysis with
            | Ok suspiciousActivity =>
                analyzePosts rest platform (suspiciousActivities ++ [suspiciousActivity])
            | Throw e => Throw e
            end
          else analyzePosts rest platform suspiciousActivities
      | Throw e => Throw e
      end
  end.

(** The [switch] of [monitorPlatform]. *)
Definition fetchPosts (platform : string) (keywords : list string)
    (dateRange : js string) : result (list Post) :=
  let p := toLowerCase platform in
  if String.eqb p "twitter" then Ok (fetchTwitterPosts tokens keywords dateRange)
  else if String.eqb p "facebook" then Ok (fetchFacebookPosts tokens keywords dateRange)
  else if String.eqb p "instagram" then Ok (fetchInstagramPosts tokens keywords dateRange)
  else if String.eqb p "linkedin" then Ok (fetchLinkedInPosts tokens keywords dateRange)
  else if String.eqb p "tiktok" then Ok (fetchTikTokPosts keywords dateRange)
  else if String.eqb p "reddit" then Ok (fetchRedditPosts keywords dateRange)
  else Throw ("Unsupported platform: " ++ platform).

Definition monitorPlatform (platform : string) (keywords : list string)
    (dateRange : js string) : result (list Stored) :=
  match fetchPosts platform keywords dateRange with
  | Ok posts => analyzePosts posts platform []
  | Throw e => Throw e
  end.

(** The loop of [monitorSocialMedia]: the call, with the spread of
    [keywords] in its argument, is inside the [try]. *)
Fixpoint monitorSocialMedia_loop (platforms : list string)
    (keywords : js (list string)) (dateRange : js string)
    (results : list Stored) : list Stored :=
  match platforms with
  | [] => results
  | platform :: rest =>
      match
        match keywords with
        | val keywords =>
            monitorPlatform platform (suspiciousKeywords ++ keywords) dateRange
        | _ => Throw "TypeError: keywords is not iterable"
        end
      with
      | Ok platformResults =>
          monitorSocialMedia_loop rest keywords dateRange (results ++ platformResults)
      | Throw _ => monitorSocialMedia_loop rest keywords dateRange results
      end
  end.

Definition monitorSocialMedia (platforms : js (list string))
    (keywords : js (list string)) (dateRange : js string) : result (list Stored) :=
  match with_default platforms socialMediaPlatforms with
  | val platforms =>
      Ok (monitorSocialMedia_loop platforms (with_default keywords []) dateRange [])
  | _ => Throw "TypeError: platforms is not iterable"
  end.

(** The inner loop of [monitorUserAccounts]: the activities are pushed
    to the outer array as they are created, so those pushed before a throw
    stay; the throw ends the posts of this user. *)
Fixpoint userPosts_loop (userPosts : list Post) (platform : string)
    (monitoredActivities : list Stored) : list Stored :=
  match userPosts with
  | [] => monitoredActivities
  | post :: rest =>
      match analyzeSocialMediaContent E (post_content post) with
      | Ok analysis =>
          if isSuspicious analysis
          then
            match createSuspiciousActivityRecord post platform analysis with
            | Ok suspiciousActivity =>
                userPosts_loop rest platform (monitoredActivities ++ [suspiciousActivity])
            | Throw _ => monitoredActivities
            end
          else userPosts_loop rest platform monitoredActivities
      | Throw _ => monitoredActivities
      end
  end.

Fixpoint monitorUserAccounts_loop (usernames : list string) (platform : string)
    (monitoredActivities : list Stored) : list Stored :=
  match usernames with
  | [] => monitoredActivities
  | username :: rest =>
      monitorUserAccounts_loop rest platform
        (userPosts_loop (fetchUserPosts username platform) platform monitoredActivities)
  end.

Definition monitorUserAccounts (usernames : Usernames) (platform : string)
  : list Stored :=
  let usernames :=
    match usernames with
    | One username => [username]
    | Many usernames => usernames
    end in
  monitorUserAccounts_loop usernames platform [].

End Service.

End Monitor.

(** ** Plain objects used as maps *)

(** A plain object used as a map from strings, as the list of its entries
    in insertion order, the order [Object.entries] gives them in.  This is
    what a JavaScript object does for keys that are neither array indices
    (which come first, in numeric order) nor names inherited from
    [Object.prototype] (which read as something else than [undefined]
    before they are written); [ordinary] below tells these keys apart. *)
Definition object (A : Type) : Type := list (string * A).

(** [o[key]], with [None] for [undefined]. *)
Fixpoint object_get {A} (o : object A) (key : string) : option A :=
  match o with
  | [] => None
  | (k, v) :: r => if String.eqb key k then Some v else object_get r key
  end.

(** [o[key] = v]: an existing key keeps its place. *)
Fixpoint object_set {A} (o : object A) (key : string) (v : A) : object A :=
  match o with
  | [] => [(key, v)]
  | (k, v') :: r =>
      if String.eqb key k then (k, v) :: r else (k, v') :: object_set r key v
  end.

Definition Object_prototype_names : list string := [
  "constructor"; "__proto__"; "hasOwnProperty"; "isPrototypeOf";
  "propertyIsEnumerable"; "toLocaleString"; "toString"; "valueOf";
  "__defineGetter__"; "__defineSetter__"; "__lookupGetter__"; "__lookupSetter__"
].

Definition digit (c : ascii) : bool :=
  let n := nat_of_ascii c in (48 <=? n) && (n <=? 57).

(** Every array index is a string of digits. *)
Definition all_digits (key : string) : bool :=
  match key with
  | EmptyString => false
  | _ => forallb digit (list_ascii_of_string key)
  end.

Definition ordinary (key : string) : bool :=
  negb (array_includes Object_prototype_names key) && negb (all_digits key).

(** ** The keyword statistics of the scam detection service *)

Module KeywordStats.

(** The characters that mean something else than themselves in a regular
    expression. *)
Definition special (c : ascii) : bool :=
  existsb (Ascii.eqb c) (list_ascii_of_string "\^$.|?*+()[]{}").

Definition literal (keyword : string) : bool :=
  forallb (fun c => negb (special c)) (list_ascii_of_string keyword).

(** [(s.match(new RegExp(keyword, 'g')) || []).length] for a [literal]
    keyword: the matches are taken from left to right, each search
    resuming where the match before it ended.  [skip] counts the
    characters of [s] that the last match still covers. *)
Fixpoint count_matches (keyword : string) (skip : nat) (s : string) : nat :=
  match s with
  | EmptyString =>
      match skip with
      | 0 => if startsWith s keyword then 1 else 0
      | S _ => 0
      end
  | String _ r =>
      match skip with
      | S n => count_matches keyword n r
      | 0 =>
          if startsWith s keyword
          then S (count_matches keyword (String.length keyword - 1) r)
          else count_matches keyword 0 r
      end
  end.

(** The body of [this.suspiciousKeywords.forEach] in
    [getSuspiciousKeywordStats]. *)
Fixpoint forEach_keyword (keywords : list string) (text : js string)
    (stats : object nat) : result (object nat) :=
  match keywords with
  | [] => Ok stats
  | keyword :: rest =>
      match text with
      | undefined =>
          Throw "TypeError: Cannot read properties of undefined (reading 'toLowerCase')"
      | null =>
          Throw "TypeError: Cannot read properties of null (reading 'toLowerCase')"
      | val t =>
          let count := count_matches (toLowerCase keyword) 0 (toLowerCase t) in
          forEach_keyword rest text
            (if 0 <? count then object_set stats keyword count else stats)
      end
  end.

Definition getSuspiciousKeywordStats (text : js string) : result (object nat) :=
  forEach_keyword ScamDetection.suspiciousKeywords text [].

End KeywordStats.

(** ** The trending topics of the social media monitor *)

Module Trends.

(** The paths of a stored activity that [getTrendingSuspiciousTopics]
    reads. *)
Record Activity : Type := {
  flaggedKeywords : list string;
  detectedScamTypes : list string
}.

(** [counts[key] || 0]. *)
Definition count_of (counts : object nat) (key : string) : nat :=
  match object_get counts key with
  | Some n => n
  | None => 0
  end.

(** [counts[key] = (counts[key] || 0) + 1]. *)
Definition bump (counts : object nat) (key : string) : object nat :=
  object_set counts key (count_of counts key + 1).

(** [activities.forEach(...)] over the two count objects. *)
Definition forEach_activity (activities : list Activity)
    (counts : object nat * object nat) : object nat * object nat :=
  fold_left
    (fun (counts : object nat * object nat) activity =>
       let (keywordCounts, scamTypeCounts) := counts in
       (fold_left bump (flaggedKeywords activity) keywordCounts,
        fold_left bump (detectedScamTypes activity) scamTypeCounts))
    activities counts.

(** [entries.sort(([,a], [,b]) => b - a)]: the sort of an array is stable,
    so an entry stays ahead of the later entries with the same count. *)
Fixpoint insert_desc (e : string * nat) (sorted : list (string * nat)) :
    list (string * nat) :=
  match sorted with
  | [] => [e]
  | e' :: r =>
      if snd e' <=? snd e then e :: e' :: r else e' :: insert_desc e r
  end.

Definition sort_desc (entries : list (string * nat)) : list (string * nat) :=
  fold_right insert_desc [] entries.

Record Trending : Type := {
  trendingKeywords : list (string * nat);
  trendingScamTypes : list (string * nat);
  totalActivities : nat
}.

(** [getTrendingSuspiciousTopics], from the activities that the query
    found. *)
Definition getTrendingSuspiciousTopics (activities : list Activity) : Trending :=
  let (keywordCounts, scamTypeCounts) := forEach_activity activities ([], []) in
  {| trendingKeywords := firstn 10 (sort_desc keywordCounts);
     trendingScamTypes := firstn 10 (sort_desc scamTypeCounts);
     totalActivities := List.length activities |}.

End Trends.

(** ** Notions used to state further properties of the services *)

Module MoreSpec.
Import ScamDetection.

(** The texts that a run over [jobs] adds to the TF-IDF index: the merged
    text of each job whose merge does not throw, in order. *)
Definition merged_texts (jobs : list JobData) : list string :=
  flat_map (fun job =>
              match fullTextOf job with
              | Ok fullText => [fullText]
              | Throw _ => []
              end) jobs.

(** The strings a job carries in the fields that are merged. *)
Definition fields_of (jobData : JobData) : list string :=
  [or_empty (title jobData); or_empty (description jobData)]
  ++ match company jobData with
     | val c => [or_empty (name c)]
     | _ => []
     end
  ++ map or_empty (or_nil (requirements jobData))
  ++ map or_empty (or_nil (responsibilities jobData))
  ++ match contactInfo jobData with
     | val i => [or_empty (email i); or_empty (phone i); or_empty (website i)]
     | _ => []
     end.

(** What it is for [entries] to be the ten most frequent of [keys]: at
    most ten entries, one per key, in descending order of count, each with
    the number of times its key occurs, and no key left out that occurs
    more often than one that is listed. *)
Definition ranked (keys : list string) (entries : list (string * nat)) : Prop :=
  List.length entries <= 10 /\
  NoDup (map fst entries) /\
  StronglySorted (fun a b => snd b <= snd a) entries /\
  (forall k n, In (k, n) entries ->
               n = count_occ string_dec keys k /\ 1 <= n) /\
  (forall k, In k keys -> ~ In k (map fst entries) ->
             List.length entries = 10 /\
             forall e, In e entries -> count_occ string_dec keys k <= snd e).


End MoreSpec.

(** Further sample inputs. *)
Definition visa_job : ScamDetection.JobData :=
  plain_job "Nurse" "Visa processing fee and flight tickets are paid by you".

Definition engineer_job : ScamDetection.JobData :=
  plain_job "Data Engineer" "Data entry and various duties for our engineer team".

(** A sentiment lexicon that finds every text very positive, and a post
    with nothing but likes. *)
Definition cheerful : Externals := stub 1 no_match (Returns (val [])).

Definition liked_post : Social.Content :=
  {| Social.text := val "What a lovely day";
     Social.engagement :=
       val {| Social.followers := val 10%Q; Social.likes := val 9%Q;
              Social.shares := undefined |} |}.

Definition investment_post : Social.Content :=
  {| Social.text := val "Crypto investment opportunity for everyone";
     Social.engagement := undefined |}.

Definition requirement_job : ScamDetection.JobData :=
  {| ScamDetection._id := undefined;
     ScamDetection.id := undefined;
     ScamDetection.title := val "Trainee";
     ScamDetection.description := null;
     ScamDetection.company := undefined;
     ScamDetection.requirements := val [null; val "Pay the TRAINING FEE upfront"];
     ScamDetection.responsibilities := undefined;
     ScamDetection.contactInfo := undefined |}.

Definition long_post : Monitor.Post :=
  Monitor.mock_post
    "Work from home and earn money online with no experience needed: act now, this is a limited time offer for you"
    "Money Hacks" "@moneyhacks" "https://tiktok.com/@moneyhacks"
    "https://tiktok.com/@moneyhacks/video/1"
    (val 50000%Q) (val 100000%Q) (val 2500%Q).

(** A post the analysis accepts and the record does not: its engagement
    is [null]. *)
Definition null_engagement_post : Monitor.Post :=
  {| Monitor.post_content :=
       {| Social.text := val "Earn money online, work from home, act now, urgent, easy money";
          Social.engagement := null |};
     Monitor.author := undefined;
     Monitor.url := undefined |}.

(** A store that checks the enums of the schema, and one that accepts
    every record. *)
Definition checking_create (r : Monitor.ActivityRecord) : result Monitor.ActivityRecord :=
  match Monitor.enum_violations r with
  | [] => Ok r
  | path :: _ => Throw ("ValidationError: " ++ path)
  end.

Definition accepting_create (r : Monitor.ActivityRecord) : result Monitor.ActivityRecord :=
  Ok r.

(** Packages under which every post is suspicious: two pattern matches
    and a very positive sentiment give 0.3 + 0.15. *)
Definition alarming : Externals := stub 1 two_matches (Returns (val [])).

Definition all_tokens : Monitor.Tokens :=
  {| Monitor.twitter_bearerToken := val "t";
     Monitor.facebook_accessToken := val "f";
     Monitor.instagram_accessToken := val "i";
     Monitor.linkedin_accessToken := val "l" |}.

Definition no_tokens : Monitor.Tokens :=
  {| Monitor.twitter_bearerToken := undefined;
     Monitor.facebook_accessToken := undefined;
     Monitor.instagram_accessToken := undefined;
     Monitor.linkedin_accessToken := undefined |}.

Definition medium_analysis : Social.Analysis :=
  {| Social.isSuspicious := true;
     Social.confidence := 1#2;
     Social.detectedScamTypes := ["work_from_home_scam"];
     Social.flaggedKeywords := ["work from home"; "earn money online";
                                "no experience needed"; "limited time"; "act now"];
     Social.flaggedPatterns := [];
     Social.sentiment := {| score := 0; comparative := 0; positive := []; negative := [] |};
     Social.entities := {| Social.persons := []; Social.organizations := [];
                           Social.locations := []; Social.dates := [] |};
     Social.riskLevel := Social.medium |}.

(** Three stored activities with thirteen keywords between them. *)
Definition stored_activities : list Trends.Activity := [
  {| Trends.flaggedKeywords :=
       ["money"; "fee"; "urgent"; "bitcoin"; "guaranteed"; "deposit"];
     Trends.detectedScamTypes := ["advance_fee_fraud"] |};
  {| Trends.flaggedKeywords :=
       ["fee"; "urgent"; "work from home"; "easy money"; "quick cash"; "passport"];
     Trends.detectedScamTypes := ["advance_fee_fraud"; "work_from_home_scam"] |};
  {| Trends.flaggedKeywords := ["fee"; "money"; "act now"; "hurry"; "deadline"];
     Trends.detectedScamTypes := ["recruitment_fraud"] |}
].

(** ** Numbers: rounding to the nearest double *)

Lemma Qfloor_bounds (x : Q) : (inject_Z (Qfloor x) <= x < inject_Z (Qfloor x) + 1)%Q.
Proof.
  split; [apply Qfloor_le|].
  pose proof (Qlt_floor x) as H. rewrite inject_Z_plus in H. exact H.
Qed.

Lemma rne_bounds (x : Q) : (Qfloor x <= rne x <= Qfloor x + 1)%Z.
Proof.
  unfold rne. cbv zeta.
  destruct (x - inject_Z (Qfloor x) ?= 1 # 2)%Q; [destruct (Z.even _)| |]; lia.
Qed.

Lemma rne_comp (x y : Q) : (x == y)%Q -> rne x = rne y.
Proof.
  intros H. unfold rne. cbv zeta.
  rewrite (Qfloor_comp _ _ H).
  assert (Hc : (x - inject_Z (Qfloor y) ?= 1#2)%Q = (y - inject_Z (Qfloor y) ?= 1#2)%Q).
  { apply Qcompare_comp; [rewrite H; reflexivity | reflexivity]. }
  rewrite Hc. reflexivity.
Qed.

Lemma rne_inject_Z (n : Z) : rne (inject_Z n) = n.
Proof.
  unfold rne. cbv zeta. rewrite Qfloor_Z.
  assert (H : (inject_Z n - inject_Z n ?= 1#2)%Q = Lt).
  { rewrite <- Qlt_alt. lra. }
  rewrite H. reflexivity.
Qed.

Lemma rne_mono (x y : Q) : (x <= y)%Q -> (rne x <= rne y)%Z.
Proof.
  intros Hxy.
  pose proof (Qfloor_resp_le _ _ Hxy) as Hfloor.
  pose proof (rne_bounds x) as Hx. pose proof (rne_bounds y) as Hy.
  destruct (Z.eq_dec (Qfloor x) (Qfloor y)) as [Heq | Hne]; [|lia].
  unfold rne in *. cbv zeta in *. rewrite Heq in *.
  destruct (x - inject_Z (Qfloor y) ?= 1 # 2)%Q eqn:Cx;
    destruct (y - inject_Z (Qfloor y) ?= 1 # 2)%Q eqn:Cy;
    try (destruct (Z.even (Qfloor y))); try lia;
    try rewrite <- Qeq_alt in *; try rewrite <- Qlt_alt in *;
    try rewrite <- Qgt_alt in *; lra.
Qed.

Lemma rne_near (x : Q) : (x - (1#2) <= inject_Z (rne x) <= x + (1#2))%Q.
Proof.
  pose proof (Qfloor_bounds x) as [Hlow Hhigh].
  unfold rne. cbv zeta.
  destruct (x - inject_Z (Qfloor x) ?= 1 # 2)%Q eqn:C;
    [rewrite <- Qeq_alt in C | rewrite <- Qlt_alt in C | rewrite <- Qgt_alt in C];
    try destruct (Z.even (Qfloor x));
    rewrite ?inject_Z_plus; change (inject_Z 1) with 1%Q; lra.
Qed.

Lemma rne_le_Z (x : Q) (n : Z) : (x <= inject_Z n)%Q -> (rne x <= n)%Z.
Proof. intros H. apply rne_mono in H. rewrite rne_inject_Z in H. exact H. Qed.

Lemma rne_ge_Z (x : Q) (n : Z) : (inject_Z n <= x)%Q -> (n <= rne x)%Z.
Proof. intros H. apply rne_mono in H. rewrite rne_inject_Z in H. exact H. Qed.

(** Powers of two *)

Lemma pow2_pos (e : Z) : (0 < 2 ^ e)%Q.
Proof. apply Qpower_0_lt. reflexivity. Qed.

Lemma pow2_plus (a b : Z) : (2 ^ (a + b) == 2 ^ a * 2 ^ b)%Q.
Proof. apply Qpower_plus. discriminate. Qed.

Lemma pow2_succ (a : Z) : (2 ^ (a + 1) == 2 * 2 ^ a)%Q.
Proof. rewrite pow2_plus. change (2 ^ 1)%Q with 2%Q. ring. Qed.

Lemma pow2_le (a b : Z) : (a <= b)%Z -> (2 ^ a <= 2 ^ b)%Q.
Proof. intros H. apply Qpower_le_compat_l; [exact H | discriminate]. Qed.

Lemma pow2_lt (a b : Z) : (a < b)%Z -> (2 ^ a < 2 ^ b)%Q.
Proof. intros H. apply Qpower_lt_compat_l; [exact H | reflexivity]. Qed.

Lemma pow2_lt_inv (a b : Z) : (2 ^ a < 2 ^ b)%Q -> (a < b)%Z.
Proof. intros H. apply (Qpower_lt_compat_l_inv 2); [exact H | reflexivity]. Qed.

Lemma pow2_Z (n : Z) : (0 <= n)%Z -> (inject_Z (2 ^ n) == 2 ^ n)%Q.
Proof. intros H. apply (Zpower_Qpower 2 n H). Qed.

(** The exponent of a positive number *)

Lemma between_powers (x N D A B P : Q) :
  (0 < D -> 0 < B -> 0 < P -> x * D == N -> P * B == A ->
   A <= N -> N < 2 * A -> B <= D -> D < 2 * B ->
   P <= 2 * x /\ x < 2 * P)%Q.
Proof.
  intros HD HB HP HxD HPB HA1 HA2 HB1 HB2. split.
  - destruct (Qlt_le_dec (2 * x) P) as [H|H]; [|exact H]. exfalso.
    assert (H1 : (2 * x * D < P * D)%Q) by (apply Qmult_lt_compat_r; assumption).
    assert (H2 : (P * D < P * (2 * B))%Q) by (apply Qmult_lt_l; assumption).
    lra.
  - destruct (Qlt_le_dec x (2 * P)) as [H|H]; [exact H|]. exfalso.
    assert (H1 : (2 * P * D <= x * D)%Q) by (apply Qmult_le_compat_r; lra).
    assert (H2 : (2 * P * B <= 2 * P * D)%Q) by (apply Qmult_le_l; lra).
    lra.
Qed.

Lemma exponent_spec (x : Q) :
  (0 < x)%Q -> (2 ^ exponent x <= x < 2 ^ (exponent x + 1))%Q.
Proof.
  intros Hx. destruct x as [n d].
  assert (Hn : (0 < n)%Z).
  { unfold Qlt in Hx. simpl in Hx. lia. }
  unfold exponent. cbn [Qnum Qden].
  set (a := Z.log2 n). set (b := Z.log2 (Z.pos d)).
  pose proof (Z.log2_spec n Hn) as Ha. fold a in Ha.
  pose proof (Z.log2_spec (Z.pos d) (Pos2Z.is_pos d)) as Hb. fold b in Hb.
  pose proof (Z.log2_nonneg n) as Ha0. fold a in Ha0.
  pose proof (Z.log2_nonneg (Z.pos d)) as Hb0. fold b in Hb0.
  assert (HxD : ((n # d) * inject_Z (Z.pos d) == inject_Z n)%Q).
  { rewrite (Qmake_Qdiv n d). field.
    intros H. apply (Qeq_bool_neq (inject_Z (Z.pos d)) 0); [reflexivity | exact H]. }
  assert (Hd : (0 < inject_Z (Z.pos d))%Q).
  { change 0%Q with (inject_Z 0). rewrite <- Zlt_Qlt. lia. }
  assert (Ha1 : (2 ^ a <= inject_Z n)%Q).
  { rewrite <- pow2_Z by lia. rewrite <- Zle_Qle. lia. }
  assert (Ha2 : (inject_Z n < 2 * 2 ^ a)%Q).
  { rewrite <- pow2_succ, <- pow2_Z by lia. rewrite <- Zlt_Qlt.
    rewrite <- Z.add_1_r in Ha. lia. }
  assert (Hb1 : (2 ^ b <= inject_Z (Z.pos d))%Q).
  { rewrite <- pow2_Z by lia. rewrite <- Zle_Qle. lia. }
  assert (Hb2 : (inject_Z (Z.pos d) < 2 * 2 ^ b)%Q).
  { rewrite <- pow2_succ, <- pow2_Z by lia. rewrite <- Zlt_Qlt.
    rewrite <- Z.add_1_r in Hb. lia. }
  assert (HP : (2 ^ (a - b) * 2 ^ b == 2 ^ a)%Q).
  { rewrite <- pow2_plus. replace (a - b + b)%Z with a by lia. reflexivity. }
  destruct (between_powers (n # d) _ _ _ _ _ Hd (pow2_pos b) (pow2_pos (a - b))
              HxD HP Ha1 Ha2 Hb1 Hb2) as [Hlow Hhigh].
  destruct (Qle_bool (2 ^ (a - b)) (n # d)) eqn:Hle.
  - apply Qle_bool_iff in Hle. split; [exact Hle|].
    rewrite pow2_succ. exact Hhigh.
  - assert (Hlt : (n # d < 2 ^ (a - b))%Q).
    { apply Qnot_le_lt. intros H. apply Qle_bool_iff in H. congruence. }
    replace (a - b - 1 + 1)%Z with (a - b)%Z by lia. split; [|exact Hlt].
    pose proof (pow2_succ (a - b - 1)) as Hs.
    replace (a - b - 1 + 1)%Z with (a - b)%Z in Hs by lia. lra.
Qed.

Lemma exponent_unique (x : Q) (e : Z) :
  (2 ^ e <= x < 2 ^ (e + 1))%Q -> exponent x = e.
Proof.
  intros [H1 H2].
  assert (Hx : (0 < x)%Q) by (pose proof (pow2_pos e); lra).
  destruct (exponent_spec x Hx) as [H3 H4].
  assert (e < exponent x + 1)%Z by (apply pow2_lt_inv; lra).
  assert (exponent x < e + 1)%Z by (apply pow2_lt_inv; lra).
  lia.
Qed.

Lemma exponent_comp (x y : Q) : (0 < x)%Q -> (x == y)%Q -> exponent x = exponent y.
Proof.
  intros Hx Hxy. symmetry. apply exponent_unique.
  rewrite <- Hxy. apply exponent_spec, Hx.
Qed.

Lemma exponent_mono (x y : Q) : (0 < x)%Q -> (x <= y)%Q -> (exponent x <= exponent y)%Z.
Proof.
  intros Hx Hxy.
  destruct (exponent_spec x Hx) as [H1 _].
  destruct (exponent_spec y) as [_ H2]; [lra|].
  assert (exponent x < exponent y + 1)%Z by (apply pow2_lt_inv; lra).
  lia.
Qed.

(** Rounding to a grid *)

Lemma round_pos_grid (x : Q) : round_pos x = grid (quantum x) x.
Proof. reflexivity. Qed.

Lemma scaled_le (q : Z) (x y : Q) : (x <= y)%Q -> (x / 2 ^ q <= y / 2 ^ q)%Q.
Proof.
  intros H. unfold Qdiv. apply Qmult_le_compat_r; [exact H|].
  apply Qinv_le_0_compat, Qlt_le_weak, pow2_pos.
Qed.

Lemma scaled_multiple (q : Z) (m : Z) : (inject_Z m * 2 ^ q / 2 ^ q == inject_Z m)%Q.
Proof.
  field. intros H. pose proof (pow2_pos q). lra.
Qed.

Lemma grid_mono (q : Z) (x y : Q) : (x <= y)%Q -> (grid q x <= grid q y)%Q.
Proof.
  intros H. unfold grid. apply Qmult_le_compat_r.
  - rewrite <- Zle_Qle. apply rne_mono, scaled_le, H.
  - apply Qlt_le_weak, pow2_pos.
Qed.

Lemma grid_comp (q : Z) (x y : Q) : (x == y)%Q -> (grid q x == grid q y)%Q.
Proof.
  intros H. unfold grid. rewrite (rne_comp (x / 2 ^ q) (y / 2 ^ q)); [reflexivity|].
  rewrite H. reflexivity.
Qed.

Lemma grid_fix (q : Z) (m : Z) (x : Q) :
  (x == inject_Z m * 2 ^ q)%Q -> (grid q x == x)%Q.
Proof.
  intros H. unfold grid.
  rewrite (rne_comp (x / 2 ^ q) (inject_Z m)).
  - rewrite rne_inject_Z. symmetry. exact H.
  - rewrite H. apply scaled_multiple.
Qed.

Lemma grid_le (q : Z) (m : Z) (x : Q) :
  (x <= inject_Z m * 2 ^ q)%Q -> (grid q x <= inject_Z m * 2 ^ q)%Q.
Proof.
  intros H. apply (grid_mono q) in H.
  rewrite (grid_fix q m (inject_Z m * 2 ^ q)) in H by reflexivity. exact H.
Qed.

Lemma grid_ge (q : Z) (m : Z) (x : Q) :
  (inject_Z m * 2 ^ q <= x)%Q -> (inject_Z m * 2 ^ q <= grid q x)%Q.
Proof.
  intros H. apply (grid_mono q) in H.
  rewrite (grid_fix q m (inject_Z m * 2 ^ q)) in H by reflexivity. exact H.
Qed.

Lemma grid_nonneg (q : Z) (x : Q) : (0 <= x)%Q -> (0 <= grid q x)%Q.
Proof.
  intros H. pose proof (grid_ge q 0 x) as H0.
  assert (Hz : (inject_Z 0 * 2 ^ q == 0)%Q) by (change (inject_Z 0) with 0%Q; ring).
  rewrite Hz in H0. exact (H0 H).
Qed.

Lemma multiple_finer (q q' : Z) (m : Z) :
  (q' <= q)%Z ->
  (inject_Z m * 2 ^ q == inject_Z (m * 2 ^ (q - q')) * 2 ^ q')%Q.
Proof.
  intros H. rewrite inject_Z_mult, pow2_Z by lia.
  rewrite <- Qmult_assoc, <- pow2_plus.
  replace (q - q' + q')%Z with q by lia. reflexivity.
Qed.

Lemma grid_half (q : Z) (x : Q) : (0 <= x)%Q -> (x <= 2 ^ (q - 1))%Q -> (grid q x == 0)%Q.
Proof.
  intros H0 H. apply Qle_antisym; [|apply grid_nonneg, H0].
  apply (grid_mono q) in H. eapply Qle_trans; [exact H|].
  unfold grid. rewrite (rne_comp (2 ^ (q - 1) / 2 ^ q) (1#2)).
  - change (rne (1#2)) with 0%Z. change (inject_Z 0) with 0%Q. lra.
  - pose proof (pow2_succ (q - 1)) as Hs.
    replace (q - 1 + 1)%Z with q in Hs by lia. rewrite Hs.
    field. pose proof (pow2_pos (q - 1)). lra.
Qed.

(** Rounding a positive number *)

Lemma quantum_bounds (x : Q) : (-1074 <= quantum x /\ exponent x - 52 <= quantum x)%Z.
Proof. unfold quantum. lia. Qed.

Lemma round_pos_nonneg (x : Q) : (0 <= x)%Q -> (0 <= round_pos x)%Q.
Proof. intros H. rewrite round_pos_grid. apply grid_nonneg, H. Qed.

Lemma round_pos_comp (x y : Q) :
  (0 < x)%Q -> (x == y)%Q -> (round_pos x == round_pos y)%Q.
Proof.
  intros Hx Hxy. rewrite !round_pos_grid. unfold quantum.
  rewrite (exponent_comp x y Hx Hxy). apply grid_comp, Hxy.
Qed.

Lemma round_pos_upper (x : Q) :
  (0 < x)%Q -> (round_pos x <= 2 ^ (exponent x + 1))%Q.
Proof.
  intros Hx. destruct (exponent_spec x Hx) as [_ Hhigh].
  rewrite round_pos_grid. pose proof (quantum_bounds x) as [Hq1 Hq2].
  set (q := quantum x) in *. set (e := exponent x) in *.
  destruct (Z_le_gt_dec q (e + 1)) as [Hle | Hgt].
  - assert (Hm : (2 ^ (e + 1) == inject_Z (2 ^ (e + 1 - q)) * 2 ^ q)%Q).
    { rewrite pow2_Z by lia. rewrite <- pow2_plus.
      replace (e + 1 - q + q)%Z with (e + 1)%Z by lia. reflexivity. }
    rewrite Hm. apply grid_le. rewrite <- Hm. lra.
  - rewrite grid_half; [apply Qlt_le_weak, pow2_pos | lra |].
    apply Qle_trans with (2 ^ (e + 1))%Q; [lra | apply pow2_le; lia].
Qed.

Lemma round_pos_lower (x : Q) :
  (0 < x)%Q -> quantum x = (exponent x - 52)%Z ->
  (2 ^ exponent x <= round_pos x)%Q.
Proof.
  intros Hx Hq. destruct (exponent_spec x Hx) as [Hlow _].
  rewrite round_pos_grid, Hq.
  assert (Hm : (2 ^ exponent x == inject_Z (2 ^ 52) * 2 ^ (exponent x - 52))%Q).
  { rewrite pow2_Z by lia. rewrite <- pow2_plus.
    replace (52 + (exponent x - 52))%Z with (exponent x) by lia. reflexivity. }
  rewrite Hm. apply grid_ge. rewrite <- Hm. exact Hlow.
Qed.

Lemma round_pos_mono (x y : Q) :
  (0 < x)%Q -> (x <= y)%Q -> (round_pos x <= round_pos y)%Q.
Proof.
  intros Hx Hxy. assert (Hy : (0 < y)%Q) by lra.
  pose proof (exponent_mono x y Hx Hxy) as He.
  destruct (Z.eq_dec (quantum x) (quantum y)) as [Heq | Hne].
  - rewrite !round_pos_grid, Heq. apply grid_mono, Hxy.
  - assert (Hqy : quantum y = (exponent y - 52)%Z) by (unfold quantum in *; lia).
    assert (He' : (exponent x + 1 <= exponent y)%Z) by (unfold quantum in *; lia).
    apply Qle_trans with (2 ^ (exponent x + 1))%Q; [apply round_pos_upper, Hx|].
    apply Qle_trans with (2 ^ exponent y)%Q; [apply pow2_le, He'|].
    apply round_pos_lower; assumption.
Qed.

Lemma round_pos_fix (x : Q) :
  (0 < x)%Q -> (0 < round_pos x)%Q -> (round_pos (round_pos x) == round_pos x)%Q.
Proof.
  intros Hx Hy. set (y := round_pos x) in *.
  pose proof (quantum_bounds x) as [Hq1 Hq2].
  pose proof (round_pos_upper x Hx) as Hup. fold y in Hup.
  set (q := quantum x) in *.
  assert (Hmult : (y == inject_Z (rne (x / 2 ^ q)) * 2 ^ q)%Q) by reflexivity.
  assert (Hup' : (y <= 2 ^ (q + 53))%Q).
  { eapply Qle_trans; [exact Hup|]. apply pow2_le. lia. }
  destruct (exponent_spec y Hy) as [Hey1 Hey2].
  rewrite round_pos_grid.
  destruct (Qlt_le_dec y (2 ^ (q + 53))) as [Hlt | Hge].
  - assert (Hqy : (quantum y <= q)%Z).
    { assert (exponent y < q + 53)%Z by (apply pow2_lt_inv; lra).
      unfold quantum. lia. }
    apply (grid_fix _ (rne (x / 2 ^ q) * 2 ^ (q - quantum y))).
    eapply Qeq_trans; [exact Hmult | apply multiple_finer, Hqy].
  - assert (Heq : (y == 2 ^ (q + 53))%Q) by lra.
    assert (Hey : exponent y = (q + 53)%Z).
    { apply exponent_unique. rewrite Heq. split; [lra | apply pow2_lt; lia]. }
    assert (Hqy : quantum y = (q + 1)%Z) by (unfold quantum; lia).
    rewrite Hqy. apply (grid_fix _ (2 ^ 52)).
    eapply Qeq_trans; [exact Heq|].
    rewrite pow2_Z by lia. rewrite <- pow2_plus.
    replace (52 + (q + 1))%Z with (q + 53)%Z by lia. reflexivity.
Qed.

Lemma grid_near (q : Z) (x : Q) :
  (x - 2 ^ q / 2 <= grid q x <= x + 2 ^ q / 2)%Q.
Proof.
  pose proof (rne_near (x / 2 ^ q)) as [Hlow Hhigh].
  pose proof (pow2_pos q) as Hq. unfold grid.
  assert (Hx : (x == x / 2 ^ q * 2 ^ q)%Q) by (field; lra).
  set (z := (x / 2 ^ q)%Q) in *. set (P := (2 ^ q)%Q) in *.
  set (R := inject_Z (rne z)) in *.
  apply (Qmult_le_compat_r _ _ P) in Hlow; [|lra].
  apply (Qmult_le_compat_r _ _ P) in Hhigh; [|lra].
  unfold Qdiv. change (/ 2)%Q with (1#2)%Q.
  split; lra.
Qed.

(** Rounding to the nearest double *)

Lemma double_0 : double 0 = 0%Q.
Proof. reflexivity. Qed.

Lemma double_pos (x : Q) : (0 < x)%Q -> double x = Qred (round_pos x).
Proof.
  intros H. unfold double.
  assert (Hc : (x ?= 0)%Q = Gt) by (apply Qgt_alt; exact H).
  rewrite Hc. reflexivity.
Qed.

Lemma double_neg (x : Q) : (x < 0)%Q -> double x = Qred (- round_pos (- x)).
Proof.
  intros H. unfold double.
  assert (Hc : (x ?= 0)%Q = Lt) by (apply Qlt_alt; exact H).
  rewrite Hc. reflexivity.
Qed.

Lemma double_zero (x : Q) : (x == 0)%Q -> double x = 0%Q.
Proof.
  intros H. unfold double.
  assert (Hc : (x ?= 0)%Q = Eq) by (apply Qeq_alt; exact H).
  rewrite Hc. reflexivity.
Qed.

(** The double of a positive number is a multiple of its quantum, at
    most half a quantum away. *)
Lemma double_near (x : Q) :
  (0 < x)%Q ->
  (exists m : Z, double x == inject_Z m * 2 ^ quantum x)%Q /\
  (x - 2 ^ quantum x / 2 <= double x <= x + 2 ^ quantum x / 2)%Q.
Proof.
  intros Hx. rewrite (double_pos x Hx). split.
  - exists (rne (x / 2 ^ quantum x)). rewrite Qred_correct. reflexivity.
  - rewrite Qred_correct. apply grid_near.
Qed.

Lemma double_nonneg (x : Q) : (0 <= x)%Q -> (0 <= double x)%Q.
Proof.
  intros H. destruct (Qlt_le_dec 0 x) as [Hpos | Hle].
  - rewrite (double_pos x Hpos), Qred_correct. apply round_pos_nonneg, H.
  - rewrite (double_zero x) by lra. lra.
Qed.

Lemma double_nonpos (x : Q) : (x <= 0)%Q -> (double x <= 0)%Q.
Proof.
  intros H. destruct (Qlt_le_dec x 0) as [Hneg | Hle].
  - rewrite (double_neg x Hneg), Qred_correct.
    pose proof (round_pos_nonneg (- x)). lra.
  - rewrite (double_zero x) by lra. lra.
Qed.

Lemma double_mono (x y : Q) : (x <= y)%Q -> (double x <= double y)%Q.
Proof.
  intros Hxy.
  destruct (Qlt_le_dec 0 x) as [Hx | Hx].
  - rewrite (double_pos x Hx), (double_pos y) by lra.
    rewrite !Qred_correct. apply round_pos_mono; assumption.
  - destruct (Qlt_le_dec y 0) as [Hy | Hy].
    + rewrite (double_neg y Hy), (double_neg x) by lra.
      rewrite !Qred_correct.
      assert (H : (round_pos (- y) <= round_pos (- x))%Q)
        by (apply round_pos_mono; lra).
      lra.
    + apply Qle_trans with 0%Q; [apply double_nonpos, Hx | apply double_nonneg, Hy].
Qed.

Lemma double_comp (x y : Q) : (x == y)%Q -> double x = double y.
Proof.
  intros H.
  destruct (Q_dec x 0) as [[Hneg | Hpos] | Hz].
  - rewrite (double_neg x Hneg), (double_neg y) by lra.
    apply Qred_complete.
    rewrite (round_pos_comp (- x) (- y)); [reflexivity | lra | rewrite H; reflexivity].
  - rewrite (double_pos x Hpos), (double_pos y) by lra.
    apply Qred_complete, round_pos_comp; assumption.
  - rewrite (double_zero x Hz), (double_zero y) by lra. reflexivity.
Qed.

Lemma double_canonical (x : Q) : Qred (double x) = double x.
Proof.
  unfold double. destruct (x ?= 0)%Q; [reflexivity | |]; apply Qred_complete, Qred_correct.
Qed.

Lemma double_opp (x : Q) : (double (- x) == - double x)%Q.
Proof.
  destruct (Q_dec x 0) as [[Hneg | Hpos] | Hz].
  - rewrite (double_neg x Hneg), (double_pos (- x)) by lra.
    rewrite !Qred_correct. ring.
  - rewrite (double_pos x Hpos), (double_neg (- x)) by lra.
    rewrite !Qred_correct.
    rewrite (round_pos_comp (- - x) x); [reflexivity | lra | ring].
  - rewrite (double_zero x Hz), (double_zero (- x)) by lra. reflexivity.
Qed.

Lemma double_round_pos (x : Q) :
  (0 < x)%Q -> (double (round_pos x) == round_pos x)%Q.
Proof.
  intros Hx.
  pose proof (round_pos_nonneg x (Qlt_le_weak _ _ Hx)) as H0.
  destruct (Qlt_le_dec 0 (round_pos x)) as [Hy | Hy].
  - rewrite (double_pos _ Hy), Qred_correct. apply round_pos_fix; assumption.
  - rewrite (double_zero (round_pos x)) by lra. lra.
Qed.

Lemma double_fixed (y : Q) : (double y == y)%Q -> double (Qred y) = Qred y.
Proof.
  intros H. rewrite (double_comp (Qred y) y (Qred_correct y)).
  rewrite <- double_canonical. apply Qred_complete, H.
Qed.

Lemma double_idempotent (x : Q) : double (double x) = double x.
Proof.
  destruct (Q_dec x 0) as [[Hneg | Hpos] | Hz].
  - rewrite (double_neg x Hneg). apply double_fixed.
    rewrite double_opp, double_round_pos by lra. reflexivity.
  - rewrite (double_pos x Hpos). apply double_fixed, double_round_pos, Hpos.
  - rewrite (double_zero x Hz). reflexivity.
Qed.

(** ** Numbers: the boolean tests against the order of [Q] *)

Lemma Qle_bool_false (x y : Q) : Qle_bool x y = false -> (y < x)%Q.
Proof.
  intros H. apply Qnot_le_lt. intros Hle.
  apply Qle_bool_iff in Hle. congruence.
Qed.

Lemma Qgtb_true (x y : Q) : Qgtb x y = true <-> (y < x)%Q.
Proof.
  unfold Qgtb. destruct (Qle_bool x y) eqn:H; simpl.
  - apply Qle_bool_iff in H. split; [discriminate | intros; lra].
  - apply Qle_bool_false in H. tauto.
Qed.

Lemma Qeq_bool_false (x y : Q) : Qeq_bool x y = false -> ~ (x == y)%Q.
Proof. intros H Heq. apply Qeq_bool_iff in Heq. congruence. Qed.

Lemma Math_min_cases (x y : Q) :
  ((x <= y)%Q /\ Math_min x y = x) \/ ((y < x)%Q /\ Math_min x y = y).
Proof.
  unfold Math_min. destruct (Qle_bool x y) eqn:H.
  - left. apply Qle_bool_iff in H. tauto.
  - right. apply Qle_bool_false in H. tauto.
Qed.

Lemma Math_max_cases (x y : Q) :
  ((x <= y)%Q /\ Math_max x y = y) \/ ((y < x)%Q /\ Math_max x y = x).
Proof.
  unfold Math_max. destruct (Qle_bool x y) eqn:H.
  - left. apply Qle_bool_iff in H. tauto.
  - right. apply Qle_bool_false in H. tauto.
Qed.

Lemma Qgtb_cases (x y : Q) :
  ((y < x)%Q /\ Qgtb x y = true) \/ ((x <= y)%Q /\ Qgtb x y = false).
Proof.
  unfold Qgtb. destruct (Qle_bool x y) eqn:H.
  - right. apply Qle_bool_iff in H. tauto.
  - left. apply Qle_bool_false in H. tauto.
Qed.

Lemma Qltb_cases (x y : Q) :
  ((x < y)%Q /\ Qltb x y = true) \/ ((y <= x)%Q /\ Qltb x y = false).
Proof. unfold Qltb. apply (Qgtb_cases y x). Qed.

Lemma Qeq_bool_cases (x y : Q) :
  ((x == y)%Q /\ Qeq_bool x y = true) \/ (~ (x == y)%Q /\ Qeq_bool x y = false).
Proof.
  destruct (Qeq_bool x y) eqn:H.
  - left. apply Qeq_bool_iff in H. tauto.
  - right. apply Qeq_bool_false in H. tauto.
Qed.

(** Replaces every comparison, minimum and maximum by the cases it has. *)
Ltac qcase_on lem :=
  let H := fresh "Hq" in
  let E := fresh "Eq" in
  destruct lem as [[H E] | [H E]]; rewrite E in *; clear E.

Ltac qcases :=
  unfold clamp01 in *;
  repeat match goal with
  | |- context [Math_min ?a ?b] => qcase_on (Math_min_cases a b)
  | |- context [Math_max ?a ?b] => qcase_on (Math_max_cases a b)
  | |- context [Qgtb ?a ?b] => qcase_on (Qgtb_cases a b)
  | |- context [Qltb ?a ?b] => qcase_on (Qltb_cases a b)
  | |- context [Qeq_bool ?a ?b] => qcase_on (Qeq_bool_cases a b)
  | H : context [Math_min ?a ?b] |- _ => qcase_on (Math_min_cases a b)
  | H : context [Math_max ?a ?b] |- _ => qcase_on (Math_max_cases a b)
  end;
  cbn [negb andb orb].

Lemma of_length_nonneg {A} (l : list A) : (0 <= of_length l)%Q.
Proof.
  unfold of_length. change 0%Q with (inject_Z 0).
  rewrite <- Zle_Qle. lia.
Qed.

Lemma length_not_positive {A} (l : list A) :
  (0 <? List.length l) = false -> l = [].
Proof.
  destruct l; [reflexivity | simpl; discriminate].
Qed.

Lemma clamp01_bounds (x : Q) : (0 <= clamp01 x <= 1)%Q.
Proof. qcases; lra. Qed.

Lemma clamp01_nonneg (x : Q) : (0 <= x)%Q -> (clamp01 x == Math_min x 1)%Q.
Proof. intros H. qcases; lra. Qed.

Lemma clamp01_mor (x y : Q) : (x == y)%Q -> (clamp01 x == clamp01 y)%Q.
Proof. intros H. qcases; lra. Qed.

Lemma Math_min_mor (x y z : Q) : (x == y)%Q -> (Math_min x z == Math_min y z)%Q.
Proof. intros H. qcases; lra. Qed.

(** ** Numbers: the rounded operations *)

Lemma representable_double (x : Q) : representable (double x).
Proof. apply double_idempotent. Qed.

Lemma representable_0 : representable 0.
Proof. reflexivity. Qed.

Lemma representable_half : representable (1#2).
Proof. vm_compute. reflexivity. Qed.

Lemma representable_1 : representable 1.
Proof. vm_compute. reflexivity. Qed.

Lemma representable_min (x y : Q) :
  representable x -> representable y -> representable (Math_min x y).
Proof. intros Hx Hy. unfold Math_min. destruct (Qle_bool x y); assumption. Qed.

Lemma representable_max (x y : Q) :
  representable x -> representable y -> representable (Math_max x y).
Proof. intros Hx Hy. unfold Math_max. destruct (Qle_bool x y); assumption. Qed.

Lemma representable_jsadd (x y : Q) : representable (x +! y)%Q.
Proof. apply representable_double. Qed.

Lemma jsadd_0_r (x : Q) : representable x -> (x +! 0)%Q = x.
Proof.
  intros H. unfold jsadd. rewrite (double_comp (x + 0) x) by ring. exact H.
Qed.

Lemma jsadd_0_l (x : Q) : representable x -> (0 +! x)%Q = x.
Proof.
  intros H. unfold jsadd. rewrite (double_comp (0 + x) x) by ring. exact H.
Qed.

Lemma jsmul_comm (x y : Q) : (x *! y)%Q = (y *! x)%Q.
Proof. apply double_comp. ring. Qed.

Lemma jsadd_nonneg (x y : Q) : (0 <= x)%Q -> (0 <= y)%Q -> (0 <= x +! y)%Q.
Proof. intros Hx Hy. apply double_nonneg. lra. Qed.

Lemma jsmul_nonneg (x y : Q) : (0 <= x)%Q -> (0 <= y)%Q -> (0 <= x *! y)%Q.
Proof. intros Hx Hy. apply double_nonneg. apply Qmult_le_0_compat; assumption. Qed.

Lemma double_le (x r : Q) : representable r -> (x <= r)%Q -> (double x <= r)%Q.
Proof. intros Hr H. apply double_mono in H. rewrite Hr in H. exact H. Qed.

Lemma double_ge (x r : Q) : representable r -> (r <= x)%Q -> (r <= double x)%Q.
Proof. intros Hr H. apply double_mono in H. rewrite Hr in H. exact H. Qed.

(** The decimal literals of the two fusions, in order. *)
Lemma literals_order :
  (0 < double 0.1)%Q /\ (double 0.1 < double 0.15)%Q /\
  (double 0.15 < double 0.2)%Q /\ (double 0.2 < double 0.3)%Q /\
  (double 0.3 < double 0.4)%Q /\ (double 0.4 < 1#2)%Q /\
  (1#2 < double 0.6)%Q /\ (double 0.6 < double 0.8)%Q /\ (double 0.8 < 1)%Q.
Proof. repeat split; vm_compute; reflexivity. Qed.

(** Rounding shows: three tenths is not the sum of one and two tenths. *)
Example rounding_shows :
  (double 0.3 < double 0.1 +! double 0.2)%Q /\
  (3 *! double 0.15 < double 0.45)%Q /\
  (1 # 10 < double 0.1)%Q /\
  double (double (1 /! 3) * 100) = (2345624805922133 # 70368744177664)%Q.
Proof. repeat split; vm_compute; reflexivity. Qed.

#[global] Opaque double.

(** ** The social-post fusion *)

Section SocialFusion.
Import Social SocialSpec.
Variable E : Externals.

Lemma engagementRatio_skipped (engagement : js Engagement) :
  no_ratio engagement ->
  engagementRatio (with_default engagement no_engagement) = None.
Proof.
  destruct engagement as [| |e]; simpl; try reflexivity.
  intros [H | H].
  - destruct (followers e) as [| |f]; simpl in *; try reflexivity.
    apply Qeq_bool_iff in H. rewrite H. reflexivity.
  - destruct (likes e) as [| |l]; simpl in *;
      try (rewrite andb_false_r; reflexivity).
    apply Qeq_bool_iff in H. rewrite H. rewrite andb_false_r. reflexivity.
Qed.

(** A ratio that is computed has a divisor and a dividend other than 0,
    so it is not NaN. *)
Lemma engagementRatio_guarded (engagement : js Engagement) (r : jsnum) :
  engagementRatio engagement = Some r ->
  exists l f, ~ (l == 0)%Q /\ ~ (f == 0)%Q /\ r = jsdiv l f /\ r <> NaN.
Proof.
  unfold engagementRatio. destruct engagement as [| |e]; try discriminate.
  destruct (followers e) as [| |f]; simpl; try discriminate.
  destruct (likes e) as [| |l]; simpl;
    destruct (Qeq_bool f 0) eqn:Hf; simpl; try discriminate.
  destruct (Qeq_bool l 0) eqn:Hl; simpl; try discriminate.
  intros H. injection H as <-. exists l, f.
  apply Qeq_bool_false in Hf. apply Qeq_bool_false in Hl.
  split; [exact Hl|]. split; [exact Hf|]. split; [reflexivity|].
  unfold jsdiv. destruct (Qeq_bool_cases f 0) as [[H0 _] | [_ ->]]; [contradiction|].
  cbv zeta. destruct (Qle_bool overflow (l / f)); [discriminate|].
  destruct (Qle_bool (l / f) (- overflow)); discriminate.
Qed.

Lemma keyword_term_representable (kws : list string) : representable (keyword_term kws).
Proof.
  apply representable_min; [apply representable_double | apply representable_half].
Qed.

Lemma pattern_term_representable (pats : list string) : representable (pattern_term pats).
Proof.
  apply representable_min; [apply representable_double | apply representable_half].
Qed.

Lemma keyword_term_nil : keyword_term [] = 0%Q.
Proof. vm_compute. reflexivity. Qed.

Lemma pattern_term_nil : pattern_term [] = 0%Q.
Proof. vm_compute. reflexivity. Qed.

Lemma keyword_step (r : Q) (kws : list string) :
  representable r ->
  (if 0 <? List.length kws
   then r +! Math_min (of_length kws *! double 0.1) (1#2) else r)%Q
  = (r +! keyword_term kws)%Q.
Proof.
  intros Hr. destruct (0 <? List.length kws) eqn:H; [reflexivity|].
  apply length_not_positive in H. subst kws.
  rewrite keyword_term_nil, jsadd_0_r; [reflexivity | exact Hr].
Qed.

Lemma pattern_step (r : Q) (pats : list string) :
  representable r ->
  (if 0 <? List.length pats
   then r +! Math_min (of_length pats *! double 0.15) (1#2) else r)%Q
  = (r +! pattern_term pats)%Q.
Proof.
  intros Hr. destruct (0 <? List.length pats) eqn:H; [reflexivity|].
  apply length_not_positive in H. subst pats.
  rewrite pattern_term_nil, jsadd_0_r; [reflexivity | exact Hr].
Qed.

Lemma engagement_step (r : Q) (engagement : js Engagement) :
  representable r ->
  match engagementRatio (with_default engagement no_engagement) with
  | Some ratio => if jsnum_gtb ratio (1#2) then (r +! double 0.2)%Q else r
  | None => r
  end = (r +! guarded_engagement_bonus engagement)%Q.
Proof.
  intros Hr. pose proof (jsadd_0_r r Hr) as H0.
  destruct engagement as [| |e]; simpl; try (symmetry; exact H0).
  destruct (followers e) as [| |f]; simpl; try (symmetry; exact H0).
  destruct (likes e) as [| |l]; simpl;
    destruct (Qeq_bool f 0) eqn:Hf; simpl; try (symmetry; exact H0).
  destruct (Qeq_bool l 0) eqn:Hl; simpl; try (symmetry; exact H0).
  destruct (jsnum_gtb (jsdiv l f) (1#2)); [reflexivity | symmetry; exact H0].
Qed.

Lemma sentiment_step (r : Q) (s : SentimentResult) :
  representable r ->
  (if Qgtb (comparative s) (double 0.8) then (r +! double 0.15)%Q else r)
  = (r +! sentiment_bonus s)%Q.
Proof.
  intros Hr. unfold sentiment_bonus.
  destruct (Qgtb (comparative s) (double 0.8));
    [reflexivity | symmetry; apply jsadd_0_r, Hr].
Qed.

Lemma keyword_term_bounds (kws : list string) : (0 <= keyword_term kws <= 1#2)%Q.
Proof.
  unfold keyword_term.
  assert (H : (0 <= of_length kws *! double 0.1)%Q).
  { apply jsmul_nonneg; [apply of_length_nonneg|].
    pose proof literals_order. lra. }
  qcases; lra.
Qed.

Lemma pattern_term_bounds (pats : list string) : (0 <= pattern_term pats <= 1#2)%Q.
Proof.
  unfold pattern_term.
  assert (H : (0 <= of_length pats *! double 0.15)%Q).
  { apply jsmul_nonneg; [apply of_length_nonneg|].
    pose proof literals_order. lra. }
  qcases; lra.
Qed.

Lemma guarded_engagement_bonus_bounds (engagement : js Engagement) :
  (0 <= guarded_engagement_bonus engagement <= double 0.2)%Q.
Proof.
  pose proof literals_order.
  unfold guarded_engagement_bonus.
  destruct engagement as [| |e]; try lra.
  destruct (followers e); try lra. destruct (likes e); try lra.
  match goal with |- context [if ?b then _ else _] => destruct b end; lra.
Qed.

Lemma sentiment_bonus_bounds (s : SentimentResult) :
  (0 <= sentiment_bonus s <= double 0.15)%Q.
Proof.
  pose proof literals_order. unfold sentiment_bonus. destruct (Qgtb _ _); lra.
Qed.

(** The score before the cap is the sum, taken from left to right and
    rounded at every step, of the four terms. *)
Lemma riskScoreOf_sum (kws pats : list string) (engagement : js Engagement)
    (s : SentimentResult) :
  riskScoreOf kws pats (with_default engagement no_engagement) s
  = (keyword_term kws +! pattern_term pats
     +! guarded_engagement_bonus engagement +! sentiment_bonus s)%Q.
Proof.
  unfold riskScoreOf. cbv zeta.
  rewrite (keyword_step 0 kws representable_0).
  rewrite (jsadd_0_l _ (keyword_term_representable kws)).
  rewrite (pattern_step _ pats (keyword_term_representable kws)).
  rewrite (engagement_step _ engagement (representable_jsadd _ _)).
  rewrite (sentiment_step _ s (representable_jsadd _ _)).
  reflexivity.
Qed.

Lemma riskScoreOf_nonneg (kws pats : list string) (engagement : js Engagement)
    (s : SentimentResult) :
  (0 <= riskScoreOf kws pats (with_default engagement no_engagement) s)%Q.
Proof.
  rewrite riskScoreOf_sum.
  pose proof (keyword_term_bounds kws). pose proof (pattern_term_bounds pats).
  pose proof (guarded_engagement_bonus_bounds engagement).
  pose proof (sentiment_bonus_bounds s).
  repeat apply jsadd_nonneg; lra.
Qed.

(** Where the ratio signal applies, the rule as the service computes it
    is the rule as it is written. *)
Lemma guarded_engagement_bonus_applicable (engagement : js Engagement) :
  ratio_applicable engagement ->
  guarded_engagement_bonus engagement = engagement_bonus engagement.
Proof.
  unfold ratio_applicable, guarded_engagement_bonus, engagement_bonus.
  destruct engagement as [| |e]; try reflexivity.
  destruct (followers e) as [| |f]; cbn [present andb num_of]; try reflexivity.
  intros Hf. destruct (likes e) as [| |l]; cbn [present andb num_of];
    try reflexivity.
  destruct (Qeq_bool_cases f 0) as [[Hf0 _] | [_ ->]]; [contradiction|].
  cbn [negb andb].
  destruct (Qeq_bool_cases l 0) as [[Hl0 ->] | [_ ->]]; cbn [negb andb];
    [|reflexivity].
  (* likes is 0: the quotient is 0, which does not exceed one half *)
  assert (Hdiv : jsnum_gtb (jsdiv l f) (1#2) = false).
  { unfold jsdiv. destruct (Qeq_bool_cases f 0) as [[Hf0 _] | [_ ->]];
      [contradiction|].
    cbv zeta.
    assert (Hq : (l / f == 0)%Q) by (rewrite Hl0; unfold Qdiv; ring).
    destruct (Qle_bool overflow (l / f)) eqn:Ho.
    { apply Qle_bool_iff in Ho. rewrite Hq in Ho. vm_compute in Ho.
      destruct Ho. reflexivity. }
    destruct (Qle_bool (l / f) (- overflow)) eqn:Hu.
    { apply Qle_bool_iff in Hu. rewrite Hq in Hu. vm_compute in Hu.
      destruct Hu. reflexivity. }
    cbn [jsnum_gtb]. rewrite (double_comp (l / f) 0 Hq).
    reflexivity. }
  rewrite Hdiv. reflexivity.
Qed.

(** The analysis of a post whose text is not [null] returns, and this is
    what it returns. *)
Lemma analyzeSocialMediaContent_returns (content : Content) :
  text content <> null ->
  exists fullText,
    with_default (text content) "" = val fullText /\
    let kws := scanKeywords suspiciousKeywords (toLowerCase fullText) in
    let pats := scanPatterns E suspiciousPatterns (toLowerCase fullText) in
    let s := sentiment_analyze E (toLowerCase fullText) in
    let riskScore :=
      Math_min (riskScoreOf kws pats (with_default (engagement content) no_engagement) s) 1 in
    analyzeSocialMediaContent E content =
    Ok {| isSuspicious := Qgtb riskScore (double 0.4);
          confidence := riskScore;
          detectedScamTypes := scamTypesOf kws;
          flaggedKeywords := kws;
          flaggedPatterns := pats;
          sentiment := s;
          entities := {| persons := []; organizations := [];
                         locations := []; dates := [] |};
          riskLevel := riskLevelOf riskScore |}.
Proof.
  intros Htext. unfold analyzeSocialMediaContent.
  destruct (text content) as [| |t]; [| congruence |]; simpl; eauto.
Qed.

End SocialFusion.

Section SocialClaims.
Import Social SocialSpec.

(** For every social post whose text is not [null], the analysis returns,
    and its confidence is the sum, rounded at every step, of
    min(|flaggedKeywords| x 0.1, 0.5), min(|flaggedPatterns| x 0.15, 0.5),
    0.2 when followers and likes are both present and both non-zero with
    likes/followers > 0.5, and 0.15 when the sentiment comparative exceeds
    0.8, clamped to [0, 1]; and isSuspicious = confidence > 0.4. *)
Lemma social_confidence_guarded (E : Externals) (content : Content) :
  text content <> null ->
  exists a,
    analyzeSocialMediaContent E content = Ok a /\
    (confidence a ==
     confidence_with guarded_engagement_bonus
       (flaggedKeywords a) (flaggedPatterns a) (engagement content) (sentiment a))%Q /\
    isSuspicious a = Qgtb (confidence a) (double 0.4) /\
    (isSuspicious a = true <-> (double 0.4 < confidence a)%Q).
Proof.
  intros Htext.
  destruct (analyzeSocialMediaContent_returns E content Htext) as (t & _ & Ha).
  cbv zeta in Ha. eexists. split; [exact Ha|]. cbn [confidence flaggedKeywords
    flaggedPatterns sentiment isSuspicious].
  split; [| split; [reflexivity | apply Qgtb_true]].
  unfold confidence_with.
  set (kws := scanKeywords _ _). set (pats := scanPatterns _ _ _).
  set (s := sentiment_analyze _ _).
  pose proof (riskScoreOf_nonneg kws pats (engagement content) s) as Hpos.
  rewrite riskScoreOf_sum in *.
  rewrite clamp01_nonneg by exact Hpos. reflexivity.
Qed.

(** C2.  For every social post (whose text is not [null]) to which the
    ratio signal applies, that is, whose follower count is not 0, the
    analysis returns, and its confidence equals
    min(|flaggedKeywords| x 0.1, 0.5) + min(|flaggedPatterns| x 0.15, 0.5),
    plus 0.2 when the engagement metrics include both followers and likes
    with likes/followers > 0.5, plus 0.15 when the sentiment comparative
    exceeds 0.8, clamped to [0, 1], every operation being one of doubles;
    and isSuspicious (isFlagged) = confidence > 0.4. *)
Theorem social_confidence_formula (E : Externals) (content : Content) :
  text content <> null ->
  ratio_applicable (engagement content) ->
  exists a,
    analyzeSocialMediaContent E content = Ok a /\
    (confidence a ==
     confidence_with engagement_bonus
       (flaggedKeywords a) (flaggedPatterns a) (engagement content) (sentiment a))%Q /\
    isSuspicious a = Qgtb (confidence a) (double 0.4) /\
    (isSuspicious a = true <-> (double 0.4 < confidence a)%Q).
Proof.
  intros Htext Happ.
  destruct (analyzeSocialMediaContent_returns E content Htext) as (t & _ & Ha).
  cbv zeta in Ha. eexists. split; [exact Ha|]. cbn [confidence flaggedKeywords
    flaggedPatterns sentiment isSuspicious].
  split; [| split; [reflexivity | apply Qgtb_true]].
  unfold confidence_with.
  rewrite <- (guarded_engagement_bonus_applicable _ Happ).
  set (kws := scanKeywords _ _). set (pats := scanPatterns _ _ _).
  set (s := sentiment_analyze _ _).
  pose proof (riskScoreOf_nonneg kws pats (engagement content) s) as Hpos.
  rewrite riskScoreOf_sum in *.
  rewrite clamp01_nonneg by exact Hpos. reflexivity.
Qed.

Lemma social_confidence_formula_witness :
  text sample_post <> null /\
  ratio_applicable (engagement sample_post) /\
  exists a,
    analyzeSocialMediaContent neutral sample_post = Ok a /\
    (confidence a ==
     confidence_with engagement_bonus
       (flaggedKeywords a) (flaggedPatterns a) (engagement sample_post) (sentiment a))%Q /\
    isSuspicious a = Qgtb (confidence a) (double 0.4) /\
    (isSuspicious a = true <-> (double 0.4 < confidence a)%Q).
Proof.
  assert (Happ : ratio_applicable (engagement sample_post))
    by (vm_compute; discriminate).
  split; [discriminate|]. split; [exact Happ|].
  apply (social_confidence_formula neutral sample_post); [discriminate | exact Happ].
Defined.

(** The sample post: one keyword and a ratio of 0.625 give
    0.1 + 0.2 = 0.30000000000000004, and three patterns with the
    engagement and sentiment bonuses give 0.7999999999999999, which is
    "high". *)
Example social_confidence_samples :
  (exists a,
     analyzeSocialMediaContent neutral sample_post = Ok a /\
     confidence a = (double 0.1 +! double 0.2)%Q /\
     (double 0.3 < confidence a)%Q /\
     riskLevel a = medium) /\
  (let riskScore :=
     Math_min (0 +! Math_min (3 *! double 0.15) (1#2) +! double 0.2 +! double 0.15) 1 in
   (riskScore < double 0.8)%Q /\ riskLevelOf riskScore = high).
Proof.
  split; [eexists; split; [vm_compute; reflexivity | repeat split]|];
    repeat split; vm_compute; reflexivity.
Qed.

(** The hypothesis of C2 is needed: for a post with 0 followers and 5
    likes the quotient is +Infinity and the rule as written adds 0.2,
    where the service, as the specification asks, takes the signal to be
    inapplicable. *)
Example social_confidence_zero_followers :
  ~ ratio_applicable (engagement zero_followers_post) /\
  exists a,
    analyzeSocialMediaContent neutral zero_followers_post = Ok a /\
    confidence a = 0%Q /\
    confidence_with engagement_bonus
      (flaggedKeywords a) (flaggedPatterns a)
      (engagement zero_followers_post) (sentiment a) = double 0.2.
Proof.
  split; [intros H; apply H; reflexivity|].
  eexists. split; [vm_compute; reflexivity|].
  split; vm_compute; reflexivity.
Qed.

(** C3.  For every social post the analysis returns a result for, the
    riskLevel is "low" when confidence < 0.3, "medium" when
    0.3 <= confidence < 0.6, "high" when 0.6 <= confidence < 0.8 and
    "critical" otherwise; so a confidence of exactly 0.3 is "medium",
    exactly 0.6 is "high" and exactly 0.8 is "critical" (0.3, 0.6 and 0.8
    being the doubles the literals denote). *)
Theorem riskLevel_bands (E : Externals) (content : Content) (a : Analysis) :
  analyzeSocialMediaContent E content = Ok a ->
  ((confidence a < double 0.3)%Q -> riskLevel a = low) /\
  ((double 0.3 <= confidence a)%Q -> (confidence a < double 0.6)%Q ->
   riskLevel a = medium) /\
  ((double 0.6 <= confidence a)%Q -> (confidence a < double 0.8)%Q ->
   riskLevel a = high) /\
  ((double 0.8 <= confidence a)%Q -> riskLevel a = critical) /\
  ((confidence a == double 0.3)%Q -> riskLevel a = medium) /\
  ((confidence a == double 0.6)%Q -> riskLevel a = high) /\
  ((confidence a == double 0.8)%Q -> riskLevel a = critical).
Proof.
  intros Ha.
  assert (Hlevel : riskLevel a = riskLevelOf (confidence a)).
  { unfold analyzeSocialMediaContent in Ha.
    destruct (with_default (text content) ""); try discriminate.
    injection Ha as <-. reflexivity. }
  rewrite Hlevel. unfold riskLevelOf. pose proof literals_order.
  repeat split; intros; qcases; try reflexivity; lra.
Qed.

Lemma riskLevel_bands_witness :
  exists a,
    analyzeSocialMediaContent neutral sample_post = Ok a /\
    (double 0.3 <= confidence a)%Q /\ (confidence a < double 0.6)%Q /\
    riskLevel a = medium.
Proof.
  eexists. split; [vm_compute; reflexivity|].
  match goal with
  | |- ?P1 /\ ?P2 /\ _ =>
      assert (H1 : P1) by (vm_compute; discriminate);
      assert (H2 : P2) by (vm_compute; reflexivity)
  end.
  split; [exact H1|]. split; [exact H2|].
  refine (proj1 (proj2 (riskLevel_bands neutral sample_post _ eq_refl)) H1 H2).
Defined.

Example riskLevelOf_boundaries :
  riskLevelOf (double 0.3) = medium /\ riskLevelOf (double 0.6) = high /\
  riskLevelOf (double 0.8) = critical /\ riskLevelOf (double 0.299) = low.
Proof. repeat split; vm_compute; reflexivity. Qed.

(** C10.  For every social post (with a text) whose engagement metadata
    is missing or has followers or likes equal to 0, [null] or absent,
    the engagement branch is skipped: likes/followers is not evaluated,
    no 0.2 is added, and the confidence is the capped sum of the keyword,
    pattern and sentiment terms only. *)
Theorem engagement_branch_skipped (E : Externals) (content : Content) :
  text content <> null ->
  no_ratio (engagement content) ->
  engagementRatio (with_default (engagement content) no_engagement) = None /\
  exists a,
    analyzeSocialMediaContent E content = Ok a /\
    (confidence a ==
     Math_min (keyword_term (flaggedKeywords a) +! pattern_term (flaggedPatterns a)
               +! sentiment_bonus (sentiment a)) 1)%Q.
Proof.
  intros Htext Hskip.
  pose proof (engagementRatio_skipped _ Hskip) as Hnone.
  split; [exact Hnone|].
  destruct (analyzeSocialMediaContent_returns E content Htext) as (t & _ & Ha).
  cbv zeta in Ha. eexists. split; [exact Ha|].
  cbn [confidence flaggedKeywords flaggedPatterns sentiment].
  unfold riskScoreOf. rewrite Hnone. cbv zeta.
  rewrite (keyword_step 0 _ representable_0).
  rewrite (jsadd_0_l _ (keyword_term_representable _)).
  rewrite (pattern_step _ _ (keyword_term_representable _)).
  rewrite (sentiment_step _ _ (representable_jsadd _ _)).
  reflexivity.
Qed.

Lemma engagement_branch_skipped_witness :
  text zero_followers_post <> null /\
  no_ratio (engagement zero_followers_post) /\
  engagementRatio (with_default (engagement zero_followers_post) no_engagement) = None /\
  exists a,
    analyzeSocialMediaContent neutral zero_followers_post = Ok a /\
    (confidence a ==
     Math_min (keyword_term (flaggedKeywords a) +! pattern_term (flaggedPatterns a)
               +! sentiment_bonus (sentiment a)) 1)%Q.
Proof.
  assert (Hskip : no_ratio (engagement zero_followers_post)) by (left; reflexivity).
  split; [discriminate|]. split; [exact Hskip|].
  apply (engagement_branch_skipped neutral zero_followers_post); [discriminate | exact Hskip].
Defined.

End SocialClaims.

(** ** The keyword scan *)

Section Strings.

Lemma append_assoc (a b c : string) : ((a ++ b) ++ c = a ++ (b ++ c))%string.
Proof. induction a; simpl; congruence. Qed.

Lemma append_inj (a a' b b' : string) :
  String.length a = String.length a' ->
  (a ++ b = a' ++ b')%string -> a = a' /\ b = b'.
Proof.
  revert a'. induction a as [|c a IH]; intros [|c' a'] Hlen H;
    simpl in *; try discriminate.
  - auto.
  - injection H as -> H. injection Hlen as Hlen.
    destruct (IH a' Hlen H) as [-> ->]. auto.
Qed.

Lemma toLowerCase_length (s : string) :
  String.length (toLowerCase s) = String.length s.
Proof. induction s; simpl; congruence. Qed.

Lemma toLowerCase_append (a b : string) :
  toLowerCase (a ++ b) = (toLowerCase a ++ toLowerCase b)%string.
Proof. induction a; simpl; congruence. Qed.

Lemma lower_ascii_idempotent (c : ascii) : lower_ascii (lower_ascii c) = lower_ascii c.
Proof. destruct c as [[] [] [] [] [] [] [] []]; reflexivity. Qed.

Lemma toLowerCase_idempotent (s : string) : toLowerCase (toLowerCase s) = toLowerCase s.
Proof. induction s; simpl; [|rewrite lower_ascii_idempotent]; congruence. Qed.

Lemma startsWith_iff (s search : string) :
  startsWith s search = true <-> exists post, s = (search ++ post)%string.
Proof.
  revert s. induction search as [|a search IH]; intros s; simpl.
  - split; [eauto | reflexivity].
  - destruct s as [|b s].
    + split; [discriminate | intros [post H]; discriminate].
    + rewrite andb_true_iff, Ascii.eqb_eq, IH. split.
      * intros [-> [post ->]]. eauto.
      * intros [post H]. injection H as -> ->. eauto.
Qed.

Lemma includes_iff (s search : string) :
  includes s search = true <->
  exists pre post, s = (pre ++ search ++ post)%string.
Proof.
  induction s as [|c s IH].
  - simpl. rewrite orb_false_r, startsWith_iff. split.
    + intros [post H]. exists "", post. exact H.
    + intros (pre & post & H). destruct pre; [eauto|discriminate].
  - cbn [includes]. rewrite orb_true_iff, startsWith_iff, IH. split.
    + intros [[post H] | (pre & post & H)].
      * exists "", post. exact H.
      * exists (String c pre), post. simpl. congruence.
    + intros (pre & post & H). destruct pre as [|c' pre].
      * left. eauto.
      * right. simpl in H. injection H as _ H. eauto.
Qed.

(** On a lowercase text, [includes] against the lowercased keyword is the
    occurrence of the keyword up to case. *)
Lemma includes_ignoring_case (text k : string) :
  toLowerCase text = text ->
  includes text (toLowerCase k) = true <-> LexiconSpec.occurs_ignoring_case k text.
Proof.
  intros Hlow. rewrite includes_iff. unfold LexiconSpec.occurs_ignoring_case. split.
  - intros (pre & post & H). exists pre, (toLowerCase k), post.
    split; [exact H | apply toLowerCase_idempotent].
  - intros (pre & mid & post & H & Hmid). exists pre, post.
    rewrite <- Hmid.
    rewrite H in Hlow. rewrite !toLowerCase_append in Hlow.
    apply append_inj in Hlow; [|apply toLowerCase_length].
    destruct Hlow as [_ Hlow].
    apply append_inj in Hlow; [|apply toLowerCase_length].
    destruct Hlow as [-> _]. exact H.
Qed.

End Strings.

Section Lexicon.
Import LexiconSpec.

Lemma array_includes_In (xs : list string) (x : string) :
  array_includes xs x = true <-> In x xs.
Proof.
  unfold array_includes. rewrite existsb_exists. split.
  - intros (y & Hy & Heq). apply String.eqb_eq in Heq. congruence.
  - intros H. exists x. split; [exact H | apply String.eqb_refl].
Qed.

Lemma array_includes_not_In (xs : list string) (x : string) :
  array_includes xs x = false <-> ~ In x xs.
Proof.
  rewrite <- array_includes_In. destruct (array_includes xs x); split; congruence.
Qed.

Lemma Set_add_all_fresh (seen xs : list string) :
  Set_add_all seen xs = seen ++ fresh seen xs.
Proof.
  revert seen. induction xs as [|x r IH]; intros seen; simpl.
  - symmetry. apply app_nil_r.
  - rewrite IH. destruct (array_includes seen x); [reflexivity|].
    rewrite <- app_assoc. reflexivity.
Qed.

Lemma fresh_In (seen xs : list string) (y : string) :
  In y (fresh seen xs) <-> In y xs /\ ~ In y seen.
Proof.
  revert seen. induction xs as [|x r IH]; intros seen; simpl; [tauto|].
  destruct (array_includes seen x) eqn:Hx.
  - apply array_includes_In in Hx. rewrite IH. split.
    + tauto.
    + intros [[-> | Hr] Hn]; tauto.
  - apply array_includes_not_In in Hx. simpl. rewrite IH, in_app_iff. simpl.
    destruct (string_dec x y) as [-> | Hne]; tauto.
Qed.

Lemma fresh_NoDup (seen xs : list string) : NoDup (fresh seen xs).
Proof.
  revert seen. induction xs as [|x r IH]; intros seen; simpl; [constructor|].
  destruct (array_includes seen x); [apply IH|].
  constructor; [|apply IH].
  rewrite fresh_In, in_app_iff. simpl. tauto.
Qed.

Lemma StronglySorted_weaken {A} (R R' : A -> A -> Prop) (l : list A) :
  (forall a b, In a l -> In b l -> R a b -> R' a b) ->
  StronglySorted R l -> StronglySorted R' l.
Proof.
  induction l as [|x l IH]; intros Himp Hs; [constructor|].
  apply StronglySorted_inv in Hs. destruct Hs as [Hs Hall].
  constructor.
  - apply IH; [|exact Hs]. intros a b Ha Hb. apply Himp; right; assumption.
  - rewrite Forall_forall in *. intros y Hy.
    apply Himp; [left; reflexivity | right; exact Hy | apply Hall; exact Hy].
Qed.

Lemma first_index_cons_ne (x y : string) (r : list string) :
  y <> x -> first_index y (x :: r) = S (first_index y r).
Proof. intros H. simpl. apply String.eqb_neq in H. rewrite H. reflexivity. Qed.

Lemma fresh_sorted (seen xs : list string) :
  StronglySorted (fun a b => first_index a xs < first_index b xs) (fresh seen xs).
Proof.
  revert seen. induction xs as [|x r IH]; intros seen; [constructor|].
  cbn [fresh]. destruct (array_includes seen x) eqn:Hx.
  - apply array_includes_In in Hx.
    apply StronglySorted_weaken
      with (R := fun a b => first_index a r < first_index b r); [|apply IH].
    intros a b Ha Hb H.
    apply fresh_In in Ha, Hb.
    rewrite !first_index_cons_ne by (intros ->; tauto). lia.
  - constructor.
    + apply StronglySorted_weaken
        with (R := fun a b => first_index a r < first_index b r); [|apply IH].
      intros a b Ha Hb H.
      apply fresh_In in Ha, Hb. rewrite in_app_iff in Ha, Hb. simpl in Ha, Hb.
      rewrite !first_index_cons_ne by (intros ->; tauto). lia.
    + apply Forall_forall. intros y Hy.
      apply fresh_In in Hy. rewrite in_app_iff in Hy. simpl in Hy.
      rewrite (first_index_cons_ne x y) by (intros ->; tauto).
      simpl. rewrite String.eqb_refl. lia.
Qed.

Lemma first_index_filter (f : string -> bool) (v : list string) (a b : string) :
  f a = true -> f b = true ->
  first_index a (filter f v) < first_index b (filter f v) ->
  first_index a v < first_index b v.
Proof.
  intros Ha Hb. induction v as [|y r IH]; simpl; [lia|].
  destruct (f y) eqn:Hy; simpl.
  - destruct (String.eqb_spec a y), (String.eqb_spec b y); lia.
  - destruct (String.eqb_spec a y); [congruence|].
    destruct (String.eqb_spec b y); [congruence|]. lia.
Qed.

Lemma fresh_of_NoDup (seen xs : list string) :
  NoDup xs -> (forall x, In x xs -> ~ In x seen) -> fresh seen xs = xs.
Proof.
  revert seen. induction xs as [|x r IH]; intros seen Hnd Hsep; [reflexivity|].
  simpl. inversion Hnd as [|? ? Hx Hr]; subst.
  assert (Hnot : array_includes seen x = false).
  { apply array_includes_not_In. apply Hsep. left. reflexivity. }
  rewrite Hnot. f_equal. apply IH; [exact Hr|].
  intros y Hy. rewrite in_app_iff. simpl. intros [H | [-> | []]].
  - apply (Hsep y); [right; exact Hy | exact H].
  - exact (Hx Hy).
Qed.

Lemma array_of_Set_NoDup (xs : list string) : NoDup xs -> array_of_Set xs = xs.
Proof.
  intros H. unfold array_of_Set. rewrite Set_add_all_fresh. simpl.
  apply fresh_of_NoDup; [exact H | intros ? ? []].
Qed.

Lemma filter_all {A} (f : A -> bool) (l : list A) :
  (forall x, In x l -> f x = true) -> filter f l = l.
Proof.
  induction l as [|x l IH]; intros H; simpl; [reflexivity|].
  rewrite (H x) by (left; reflexivity). f_equal. apply IH.
  intros y Hy. apply H. right. exact Hy.
Qed.

Lemma scanKeywords_fresh (keywords : list string) (fullText : string) :
  scanKeywords keywords fullText =
  fresh [] (filter (fun keyword => includes fullText (toLowerCase keyword)) keywords).
Proof. unfold scanKeywords, array_of_Set. apply Set_add_all_fresh. Qed.

Lemma scanKeywords_In (keywords : list string) (fullText k : string) :
  In k (scanKeywords keywords fullText) <->
  In k keywords /\ includes fullText (toLowerCase k) = true.
Proof.
  rewrite scanKeywords_fresh, fresh_In, filter_In. simpl. tauto.
Qed.

End Lexicon.

(** C9.  For every normalized (lowercase) text and every vocabulary, the
    keyword scan returns a duplicate-free list that holds exactly the
    vocabulary entries occurring in the text as substrings up to case,
    ordered by their first position in the vocabulary (not in the text);
    de-duplicating the result again, or scanning the text again with the
    result as vocabulary, returns the same list. *)
Theorem scanKeywords_lexicon (keywords : list string) (fullText : string) :
  toLowerCase fullText = fullText ->
  let found := scanKeywords keywords fullText in
  NoDup found /\
  (forall k, In k found <->
             In k keywords /\ LexiconSpec.occurs_ignoring_case k fullText) /\
  StronglySorted
    (fun a b => LexiconSpec.first_index a keywords < LexiconSpec.first_index b keywords)
    found /\
  array_of_Set found = found /\
  scanKeywords found fullText = found.
Proof.
  intros Hlow found.
  assert (Hnd : NoDup found).
  { unfold found. rewrite scanKeywords_fresh. apply fresh_NoDup. }
  split; [exact Hnd|]. split; [|split; [|split]].
  - intros k. unfold found. rewrite scanKeywords_In.
    rewrite (includes_ignoring_case fullText k Hlow). tauto.
  - unfold found. rewrite scanKeywords_fresh.
    set (f := fun keyword => includes fullText (toLowerCase keyword)).
    apply StronglySorted_weaken
      with (R := fun a b => LexiconSpec.first_index a (filter f keywords)
                            < LexiconSpec.first_index b (filter f keywords));
      [|apply fresh_sorted].
    intros a b Ha Hb H.
    apply fresh_In in Ha, Hb. destruct Ha as [Ha _], Hb as [Hb _].
    apply filter_In in Ha, Hb.
    apply (first_index_filter f); tauto.
  - apply array_of_Set_NoDup. exact Hnd.
  - unfold scanKeywords at 1. rewrite filter_all.
    + apply array_of_Set_NoDup. exact Hnd.
    + intros k Hk. apply scanKeywords_In in Hk. tauto.
Qed.

Lemma scanKeywords_lexicon_witness :
  toLowerCase sample_text = sample_text /\
  let found := scanKeywords Social.suspiciousKeywords sample_text in
  NoDup found /\
  (forall k, In k found <->
             In k Social.suspiciousKeywords /\
             LexiconSpec.occurs_ignoring_case k sample_text) /\
  StronglySorted
    (fun a b => LexiconSpec.first_index a Social.suspiciousKeywords
                < LexiconSpec.first_index b Social.suspiciousKeywords)
    found /\
  array_of_Set found = found /\
  scanKeywords found sample_text = found.
Proof.
  split; [reflexivity | apply (scanKeywords_lexicon Social.suspiciousKeywords sample_text)].
  reflexivity.
Defined.

Example scanKeywords_vocabulary_order :
  scanKeywords Social.suspiciousKeywords sample_text = ["earn money online"; "act now"].
Proof. reflexivity. Qed.

(** Both services run the scan on the lowercased text. *)
Lemma social_flaggedKeywords_scan (E : Externals) (content : Social.Content)
    (a : Social.Analysis) :
  Social.analyzeSocialMediaContent E content = Ok a ->
  exists t, with_default (Social.text content) "" = val t /\
    Social.flaggedKeywords a = scanKeywords Social.suspiciousKeywords (toLowerCase t).
Proof.
  unfold Social.analyzeSocialMediaContent.
  destruct (with_default (Social.text content) "") as [| |t]; try discriminate.
  intros H. injection H as <-. eauto.
Qed.

(** ** The job-posting service *)

Section JobService.
Import ScamDetection JobSpec.
Variable E : Externals.

Lemma analyzeJobPosting_unfold (jobData : JobData) (this : Service E) :
  analyzeJobPosting E jobData this =
  match fullTextOf jobData with
  | Throw e => (Throw e, this)
  | Ok fullText =>
      let kws := scanKeywords suspiciousKeywords fullText in
      let s := sentiment_analyze E fullText in
      match riskScoreOf kws (redFlagsOf kws) s
              (tryGetClassifications E this fullText) with
      | Throw e => (Throw e, with_document this fullText)
      | Ok riskScore =>
          (Ok {| isScam := Qgtb riskScore (1#2);
                 confidence := riskScore;
                 scamTypes := scamTypesOf kws;
                 flaggedKeywords := kws;
                 flaggedPatterns := scanPatterns E suspiciousPatterns fullText;
                 riskFactors := redFlagsOf kws;
                 recommendations :=
                   recommendationsOf (Qgtb riskScore (1#2)) kws (redFlagsOf kws);
                 sentiment := s |},
           with_document this fullText)
      end
  end.
Proof.
  unfold analyzeJobPosting, bind, lift, get_this, put_this, ret.
  destruct (fullTextOf jobData) as [fullText|e]; [|reflexivity].
  change (tryGetClassifications E (with_document this fullText) fullText)
    with (tryGetClassifications E this fullText).
  destruct (riskScoreOf _ _ _ _); reflexivity.
Qed.

Lemma redFlags_count (kws : list string) :
  List.length (redFlagsOf kws) = red_flag_count kws.
Proof.
  unfold redFlagsOf, red_flag_count, count_true, payment_required,
    work_from_home_payment, international_fee, high_pressure, vague_description.
  repeat match goal with
  | |- context [some_in kws ?l] => destruct (some_in kws l)
  | |- context [array_includes kws ?x] => destruct (array_includes kws x)
  end; reflexivity.
Qed.

Lemma find_scam_list (cs : list Classification) :
  exists found,
    find_scam (map val cs) = Ok found /\
    scam_probability cs = match found with Some c => value c | None => 0%Q end.
Proof.
  induction cs as [|c r IH]; simpl.
  - eauto.
  - destruct (String.eqb (label c) "scam"); eauto.
Qed.

(** The score before the classifier is consulted, as the service adds it
    up, is the rule-based score of the specification. *)
Lemma rule_score_steps (kws : list string) (s : SentimentResult) :
  (let riskScore :=
     (if 0 <? List.length kws then Math_min (of_length kws /! 10) 1 else 0)
     +! of_length (redFlagsOf kws) *! double 0.15 in
   if Qgtb (comparative s) (1#2) then riskScore +! double 0.1 else riskScore)%Q
  = rule_score kws s.
Proof.
  cbv zeta. unfold rule_score.
  assert (Hflags : of_length (redFlagsOf kws)
                   = inject_Z (Z.of_nat (red_flag_count kws))).
  { unfold of_length. rewrite redFlags_count. reflexivity. }
  rewrite Hflags.
  assert (Hkw : (if 0 <? List.length kws then Math_min (of_length kws /! 10) 1 else 0)%Q
                = Math_min (of_length kws /! 10)%Q 1).
  { destruct (0 <? List.length kws) eqn:H; [reflexivity|].
    apply length_not_positive in H. subst kws. vm_compute. reflexivity. }
  rewrite Hkw, (jsmul_comm (double 0.15)).
  destruct (Qgtb (comparative s) (1#2)); [reflexivity|].
  symmetry. apply jsadd_0_r, representable_jsadd.
Qed.

(** The fusion on a well-formed classifier value returns the confidence
    the specification states. *)
Lemma riskScoreOf_signal (kws : list string) (s : SentimentResult)
    (v : js (list (js Classification))) (cs : option (list Classification)) :
  classifier_signal v cs ->
  exists riskScore,
    riskScoreOf kws (redFlagsOf kws) s v = Ok riskScore /\
    (riskScore == claimed_confidence kws s cs)%Q.
Proof.
  intros Hsig. unfold riskScoreOf, claimed_confidence. cbv zeta.
  pose proof (rule_score_steps kws s) as HX. cbv zeta in HX. rewrite HX.
  destruct Hsig as [| |[|c r]]; cbn [map]; cbv beta iota.
  - eexists. split; reflexivity.
  - eexists. split; reflexivity.
  - eexists. split; reflexivity.
  - change (val c :: map val r) with (map (@val Classification) (c :: r)).
    destruct (find_scam_list (c :: r)) as (found & -> & Hp).
    eexists. split; [reflexivity|]. rewrite Hp. reflexivity.
Qed.

End JobService.

(** C1.  For every job posting whose fields can be merged and every
    classifier value that is a classification list or no list at all, the
    analysis returns with
    confidence = clamp to [0, 1] of the score
    min(|flaggedKeywords|/10, 1) + 0.15 x (number of true red flags),
    plus 0.1 when the sentiment comparative exceeds 0.5, replaced by
    (score + p)/2 when the classifier returned a non-empty list (p the
    probability of the label "scam", 0 if absent), every operation being
    the one of doubles, taken in this order; the number of true red flags
    is the length of riskFactors; and isScam = confidence > 0.5. *)
Theorem job_confidence_formula (E : Externals) (jobData : ScamDetection.JobData)
    (this : ScamDetection.Service E) (fullText : string)
    (cs : option (list Classification)) :
  ScamDetection.fullTextOf jobData = Ok fullText ->
  JobSpec.classifier_signal (ScamDetection.tryGetClassifications E this fullText) cs ->
  exists a this',
    ScamDetection.analyzeJobPosting E jobData this = (Ok a, this') /\
    (ScamDetection.confidence a ==
     JobSpec.claimed_confidence
       (ScamDetection.flaggedKeywords a) (ScamDetection.sentiment a) cs)%Q /\
    List.length (ScamDetection.riskFactors a)
    = JobSpec.red_flag_count (ScamDetection.flaggedKeywords a) /\
    (0 <= ScamDetection.confidence a <= 1)%Q /\
    ScamDetection.isScam a = Qgtb (ScamDetection.confidence a) (1#2) /\
    (ScamDetection.isScam a = true <-> (1#2 < ScamDetection.confidence a)%Q).
Proof.
  intros Htext Hsig.
  rewrite analyzeJobPosting_unfold, Htext. cbv zeta.
  destruct (riskScoreOf_signal
              (scanKeywords ScamDetection.suspiciousKeywords fullText)
              (sentiment_analyze E fullText) _ cs Hsig) as (r & -> & Hr).
  do 2 eexists. split; [reflexivity|].
  cbn [ScamDetection.confidence ScamDetection.flaggedKeywords
       ScamDetection.sentiment ScamDetection.riskFactors ScamDetection.isScam].
  split; [exact Hr|]. split; [apply redFlags_count|].
  split; [|split; [reflexivity | apply Qgtb_true]].
  rewrite Hr. apply clamp01_bounds.
Qed.

(** Spec section 8, third property: the sample posting is a scam on the
    rule-based signals alone. *)
Example sample_job_is_scam :
  exists a this',
    ScamDetection.analyzeJobPosting neutral sample_job (ScamDetection.constructor neutral)
    = (Ok a, this') /\
    ScamDetection.isScam a = true /\
    ScamDetection.riskFactors a
    = ["payment_required"; "work_from_home_payment"; "high_pressure"].
Proof. do 2 eexists. split; [vm_compute; reflexivity|]. split; reflexivity. Qed.

(** Rounding in the job fusion: five keywords and a scam probability one
    step above one half average to exactly one half, which is not a scam;
    and three red flags weigh less than 0.45. *)
Example job_fusion_rounding :
  let s := {| score := 0; comparative := 0; positive := []; negative := [] |} in
  let p := double 0.5000000000000001 in
  (1#2 < p)%Q /\
  ScamDetection.riskScoreOf ["a"; "b"; "c"; "d"; "e"] [] s
    (val [val {| label := "scam"; value := p |}]) = Ok (1#2)%Q /\
  JobSpec.claimed_confidence ["a"; "b"; "c"; "d"; "e"] s
    (Some [{| label := "scam"; value := p |}]) = (1#2)%Q /\
  Qgtb (1#2) (1#2) = false /\
  (of_length ["x"; "y"; "z"] *! double 0.15 < double 0.45)%Q.
Proof. repeat split; vm_compute; reflexivity. Qed.

Lemma job_confidence_formula_witness :
  ScamDetection.fullTextOf sample_job = Ok sample_job_text /\
  JobSpec.classifier_signal
    (ScamDetection.tryGetClassifications answering
       (ScamDetection.constructor answering) sample_job_text)
    (Some sample_classifications) /\
  exists a this',
    ScamDetection.analyzeJobPosting answering sample_job
      (ScamDetection.constructor answering) = (Ok a, this') /\
    (ScamDetection.confidence a ==
     JobSpec.claimed_confidence
       (ScamDetection.flaggedKeywords a) (ScamDetection.sentiment a)
       (Some sample_classifications))%Q /\
    List.length (ScamDetection.riskFactors a)
    = JobSpec.red_flag_count (ScamDetection.flaggedKeywords a) /\
    (0 <= ScamDetection.confidence a <= 1)%Q /\
    ScamDetection.isScam a = Qgtb (ScamDetection.confidence a) (1#2) /\
    (ScamDetection.isScam a = true <-> (1#2 < ScamDetection.confidence a)%Q).
Proof.
  assert (Htext : ScamDetection.fullTextOf sample_job = Ok sample_job_text)
    by reflexivity.
  assert (Hsig : JobSpec.classifier_signal
                   (ScamDetection.tryGetClassifications answering
                      (ScamDetection.constructor answering) sample_job_text)
                   (Some sample_classifications))
    by exact (JobSpec.signal_list sample_classifications).
  split; [exact Htext|]. split; [exact Hsig|].
  exact (job_confidence_formula answering sample_job
           (ScamDetection.constructor answering) sample_job_text
           (Some sample_classifications) Htext Hsig).
Defined.

(** C6 (as amended).  For every job posting whose fields can be merged,
    if the classifier call throws, or returns [null], [undefined] or an
    empty list, there is no classifier signal: the averaging step is
    skipped, the confidence is the clamped rule-based score, and the
    analysis returns a result. *)
Theorem classifier_unavailable_rule_based (E : Externals)
    (jobData : ScamDetection.JobData) (this : ScamDetection.Service E)
    (fullText : string) :
  ScamDetection.fullTextOf jobData = Ok fullText ->
  match ScamDetection.bayesClassifier this with
  | val c => JobSpec.unavailable (ScamDetection.getClassifications E c fullText)
  | _ => True
  end ->
  exists a this',
    ScamDetection.analyzeJobPosting E jobData this = (Ok a, this') /\
    (ScamDetection.confidence a ==
     clamp01 (JobSpec.rule_score (ScamDetection.flaggedKeywords a)
                                 (ScamDetection.sentiment a)))%Q.
Proof.
  intros Htext Hun.
  assert (Hsig : exists cs,
             JobSpec.classifier_signal
               (ScamDetection.tryGetClassifications E this fullText) cs /\
             (cs = None \/ cs = Some [])).
  { unfold ScamDetection.tryGetClassifications.
    destruct (ScamDetection.bayesClassifier this) as [| |c];
      try (exists None; split; [constructor | auto]).
    destruct (ScamDetection.getClassifications E c fullText) as [m|[| |[|x l]]];
      simpl in Hun; try contradiction;
      try (exists None; split; [constructor | auto]).
    exists (Some []). split; [exact (JobSpec.signal_list []) | auto]. }
  destruct Hsig as (cs & Hsig & Hcs).
  rewrite analyzeJobPosting_unfold, Htext. cbv zeta.
  destruct (riskScoreOf_signal
              (scanKeywords ScamDetection.suspiciousKeywords fullText)
              (sentiment_analyze E fullText) _ cs Hsig) as (r & -> & Hr).
  do 2 eexists. split; [reflexivity|].
  cbn [ScamDetection.confidence ScamDetection.flaggedKeywords ScamDetection.sentiment].
  rewrite Hr. destruct Hcs as [-> | ->]; reflexivity.
Qed.

Lemma classifier_unavailable_rule_based_witness :
  ScamDetection.fullTextOf sample_job = Ok sample_job_text /\
  JobSpec.unavailable (Throws "Error: classifier unavailable") /\
  exists a this',
    ScamDetection.analyzeJobPosting throwing sample_job
      (ScamDetection.constructor throwing) = (Ok a, this') /\
    (ScamDetection.confidence a ==
     clamp01 (JobSpec.rule_score (ScamDetection.flaggedKeywords a)
                                 (ScamDetection.sentiment a)))%Q.
Proof.
  split; [reflexivity|]. split; [exact I|].
  exact (classifier_unavailable_rule_based throwing sample_job
           (ScamDetection.constructor throwing) sample_job_text eq_refl I).
Defined.

(** C6 fails as stated: an answer that holds a [null] entry is malformed
    output, and the analysis throws on it instead of returning. *)
Lemma classifier_malformed_entry_throws :
  JobSpec.malformed (val [null]) /\
  ScamDetection.tryGetClassifications broken
    (ScamDetection.constructor broken) sample_job_text = val [null] /\
  fst (ScamDetection.analyzeJobPosting broken sample_job
         (ScamDetection.constructor broken))
  = Throw "TypeError: Cannot read properties of null (reading 'label')".
Proof. repeat split. Qed.

(** C8: the merge throws on a [null] company (a [null] description or
    requirement list is read as empty, and so is a missing company). *)
Theorem fullTextOf_null_company_throws :
  ScamDetection.company null_company_job = null /\
  ScamDetection.fullTextOf null_company_job
  = Throw "TypeError: Cannot read properties of null (reading 'name')" /\
  ScamDetection.fullTextOf
    {| ScamDetection._id := ScamDetection._id null_company_job;
       ScamDetection.id := ScamDetection.id null_company_job;
       ScamDetection.title := ScamDetection.title null_company_job;
       ScamDetection.description := ScamDetection.description null_company_job;
       ScamDetection.company := undefined;
       ScamDetection.requirements := ScamDetection.requirements null_company_job;
       ScamDetection.responsibilities := ScamDetection.responsibilities null_company_job;
       ScamDetection.contactInfo := ScamDetection.contactInfo null_company_job |}
  = Ok "clerk     ".
Proof. repeat split. Qed.

(** The merge returns for every job whose company and contact records are
    not [null], whatever else is [null] or missing; the text it returns is
    lowercase. *)
Lemma fullTextOf_returns (jobData : ScamDetection.JobData) :
  ScamDetection.company jobData <> null ->
  ScamDetection.contactInfo jobData <> null ->
  exists fullText,
    ScamDetection.fullTextOf jobData = Ok fullText /\
    toLowerCase fullText = fullText.
Proof.
  intros Hc Hi. unfold ScamDetection.fullTextOf.
  destruct (ScamDetection.company jobData) as [| |c]; [|congruence|];
    destruct (ScamDetection.contactInfo jobData) as [| |i]; try congruence;
    cbn [with_default]; eexists; (split; [reflexivity | apply toLowerCase_idempotent]).
Qed.

Lemma fullTextOf_throws (jobData : ScamDetection.JobData) :
  ScamDetection.company jobData = null \/ ScamDetection.contactInfo jobData = null ->
  exists e, ScamDetection.fullTextOf jobData = Throw e.
Proof.
  unfold ScamDetection.fullTextOf. intros [H | H]; rewrite H.
  - simpl. eauto.
  - destruct (ScamDetection.company jobData); simpl; eauto.
Qed.

(** ** The state of the job service *)

Section Frame.
Import ScamDetection EngineSpec.
Variable E : Externals.

Lemma analyzeJobPosting_state (jobData : JobData) (this : Service E) :
  snd (analyzeJobPosting E jobData this) =
  match fullTextOf jobData with
  | Ok fullText => with_document this fullText
  | Throw _ => this
  end.
Proof.
  rewrite analyzeJobPosting_unfold.
  destruct (fullTextOf jobData) as [fullText|e]; [|reflexivity].
  cbv zeta. destruct (riskScoreOf _ _ _ _); reflexivity.
Qed.

Lemma analyzeJobPosting_classifier (jobData : JobData) (this : Service E) :
  bayesClassifier (snd (analyzeJobPosting E jobData this)) = bayesClassifier this.
Proof.
  rewrite analyzeJobPosting_state. destruct (fullTextOf jobData); reflexivity.
Qed.

Lemma tryGetClassifications_frame (this this2 : Service E) (fullText : string) :
  bayesClassifier this2 = bayesClassifier this ->
  tryGetClassifications E this2 fullText = tryGetClassifications E this fullText.
Proof. unfold tryGetClassifications. intros ->. reflexivity. Qed.

(** The result of an analysis depends on the job and the classifier only. *)
Lemma analyzeJobPosting_result_frame (jobData : JobData) (this this2 : Service E) :
  bayesClassifier this2 = bayesClassifier this ->
  fst (analyzeJobPosting E jobData this2) = fst (analyzeJobPosting E jobData this).
Proof.
  intros H. rewrite !analyzeJobPosting_unfold.
  destruct (fullTextOf jobData) as [fullText|e]; [|reflexivity].
  cbv zeta. rewrite (tryGetClassifications_frame this this2 fullText H).
  destruct (riskScoreOf _ _ _ _); reflexivity.
Qed.

Lemma outcome_frame (jobData : JobData) (this this2 : Service E) :
  bayesClassifier this2 = bayesClassifier this ->
  outcome E this2 jobData = outcome E this jobData.
Proof.
  intros H. unfold outcome. rewrite (analyzeJobPosting_result_frame _ _ _ H).
  reflexivity.
Qed.

Lemma batchAnalyze_loop_entries (jobPostings : list JobData) :
  forall (results : list BatchResult) (this0 this : Service E),
    bayesClassifier this = bayesClassifier this0 ->
    exists this',
      batchAnalyze_loop E jobPostings results this
      = (Ok (results ++ map (entry_of E this0) jobPostings), this') /\
      bayesClassifier this' = bayesClassifier this0.
Proof.
  induction jobPostings as [|job rest IH]; intros results this0 this Hc.
  - exists this. simpl. rewrite app_nil_r. split; [reflexivity | exact Hc].
  - cbn [batchAnalyze_loop map].
    pose proof (analyzeJobPosting_classifier job this) as Hkeep.
    pose proof (outcome_frame job this0 this Hc) as Hout.
    unfold outcome in Hout.
    destruct (analyzeJobPosting E job this) as [[a|e] this1] eqn:Hrun;
      cbn [fst snd] in *;
      (destruct (IH (results ++ [entry_of E this0 job]) this0 this1) as (this' & Hloop & Hc');
       [congruence|]);
      exists this'; (split; [|exact Hc']);
      rewrite <- app_assoc in Hloop; cbn [app] in Hloop;
      rewrite <- Hloop; unfold entry_of, outcome; rewrite <- Hout; reflexivity.
Qed.

Lemma summary_partition (results : list BatchResult) :
  scamsDetected (summary results) + legitimate (summary results)
  = List.length results.
Proof.
  unfold summary. cbn [scamsDetected legitimate].
  induction results as [|r rest IH]; [reflexivity|].
  cbn [filter]. destruct (batch_isScam (analysis r)); simpl in *; lia.
Qed.

Lemma legitimate_counts_degraded (results : list BatchResult) :
  legitimate (summary results)
  = List.length (filter degraded results)
    + List.length (filter (fun r => analysed r && negb (batch_isScam (analysis r))) results).
Proof.
  unfold summary. cbn [legitimate].
  induction results as [|r rest IH]; [reflexivity|].
  cbn [filter]. unfold degraded at 1, analysed at 1 2.
  destruct (analysis r) as [a|e]; cbn [batch_isScam negb andb].
  - destruct (isScam a); simpl; rewrite IH; lia.
  - simpl. rewrite IH. reflexivity.
Qed.

Lemma updateModel_forEach_items (items : list TrainingItem) :
  forall (this : Service E) (c : BayesClassifier E),
    bayesClassifier this = val c ->
    updateModel_forEach E (map val items) this
    = (Ok tt, {| tfidf := tfidf this;
                 bayesClassifier :=
                   val {| docs := docs c ++ map doc_of items;
                          trained := trained c |} |}).
Proof.
  induction items as [|item rest IH]; intros this c Hc.
  - simpl. unfold ret. rewrite app_nil_r. destruct this as [t b].
    simpl in *. subst b. destruct c. reflexivity.
  - cbn [map updateModel_forEach]. unfold bind at 1, get_this at 1.
    rewrite Hc. unfold bind at 1, set_bayesClassifier at 1.
    rewrite (IH {| tfidf := tfidf this;
                   bayesClassifier :=
                     val (addDocument E c (item_text item) (item_label item)) |}
                (addDocument E c (item_text item) (item_label item)) eq_refl).
    cbn [tfidf docs trained addDocument]. rewrite <- app_assoc. reflexivity.
Qed.

Lemma updateModel_forEach_stops (before : list TrainingItem)
    (bad : js TrainingItem) (after : list (js TrainingItem)) :
  present bad = false ->
  forall (this : Service E) (c : BayesClassifier E),
    bayesClassifier this = val c ->
    updateModel_forEach E (map val before ++ bad :: after) this
    = (Throw "TypeError: Cannot read properties of null (reading 'text')",
       {| tfidf := tfidf this;
          bayesClassifier :=
            val {| docs := docs c ++ map doc_of before;
                   trained := trained c |} |}).
Proof.
  intros Hbad. induction before as [|item rest IH]; intros this c Hc.
  - cbn [map app updateModel_forEach]. unfold bind, get_this, throw.
    rewrite Hc, app_nil_r. destruct this as [t b]. simpl in *. subst b.
    destruct c. destruct bad; [reflexivity | reflexivity | discriminate].
  - cbn [map app updateModel_forEach]. unfold bind at 1, get_this at 1.
    rewrite Hc. unfold bind at 1, set_bayesClassifier at 1.
    rewrite (IH {| tfidf := tfidf this;
                   bayesClassifier :=
                     val (addDocument E c (item_text item) (item_label item)) |}
                (addDocument E c (item_text item) (item_label item)) eq_refl).
    cbn [tfidf docs trained addDocument]. rewrite <- app_assoc. reflexivity.
Qed.

Lemma train_from_scratch_docs (corpus : list Doc) :
  train_from_scratch E corpus
  = {| docs := corpus; trained := train_docs E corpus |}.
Proof.
  unfold train_from_scratch.
  assert (H : forall c,
             docs (fold_left (fun c d => addDocument E c (doc_text d) (doc_label d))
                             corpus c) = docs c ++ corpus).
  { induction corpus as [|[t l] r IH]; intros c; simpl.
    - symmetry. apply app_nil_r.
    - rewrite IH. simpl. rewrite <- app_assoc. reflexivity. }
  unfold train. rewrite H. reflexivity.
Qed.

End Frame.

(** C7 (as amended).  For every job posting, the analysis leaves the
    classifier as it was and appends the merged text to the TF-IDF index
    of the service (nothing when the merge throws); its result depends on
    the posting and the classifier only, so analysing the same posting
    again, or from any state with the same classifier, gives the same
    result. *)
Theorem analysis_frame (E : Externals) (jobData : ScamDetection.JobData)
    (this : ScamDetection.Service E) :
  let after := snd (ScamDetection.analyzeJobPosting E jobData this) in
  ScamDetection.bayesClassifier after = ScamDetection.bayesClassifier this /\
  ScamDetection.tfidf after
  = match ScamDetection.fullTextOf jobData with
    | Ok fullText => ScamDetection.tfidf this ++ [fullText]
    | Throw _ => ScamDetection.tfidf this
    end /\
  fst (ScamDetection.analyzeJobPosting E jobData after)
  = fst (ScamDetection.analyzeJobPosting E jobData this) /\
  (forall this2,
     ScamDetection.bayesClassifier this2 = ScamDetection.bayesClassifier this ->
     fst (ScamDetection.analyzeJobPosting E jobData this2)
     = fst (ScamDetection.analyzeJobPosting E jobData this)).
Proof.
  intros after. unfold after.
  split; [apply analyzeJobPosting_classifier|]. split; [|split].
  - rewrite analyzeJobPosting_state.
    destruct (ScamDetection.fullTextOf jobData); reflexivity.
  - apply analyzeJobPosting_result_frame, analyzeJobPosting_classifier.
  - intros this2. apply analyzeJobPosting_result_frame.
Qed.

Lemma analysis_frame_witness :
  let this := ScamDetection.constructor neutral in
  let after := snd (ScamDetection.analyzeJobPosting neutral sample_job this) in
  ScamDetection.bayesClassifier after = ScamDetection.bayesClassifier this /\
  fst (ScamDetection.analyzeJobPosting neutral sample_job after)
  = fst (ScamDetection.analyzeJobPosting neutral sample_job this).
Proof.
  intros this after.
  pose proof (analysis_frame neutral sample_job this) as H. cbv zeta in H.
  destruct H as (Hc & _ & _ & Hframe).
  split; [exact Hc | exact (Hframe after Hc)].
Defined.

(** C7 fails as stated: the analysis of a posting writes to the service;
    the TF-IDF index holds one more document afterwards. *)
Lemma analysis_writes_tfidf :
  let this := ScamDetection.constructor neutral in
  let after := snd (ScamDetection.analyzeJobPosting neutral sample_job this) in
  ScamDetection.tfidf this = [] /\
  ScamDetection.tfidf after = [sample_job_text] /\
  after <> this.
Proof.
  cbv zeta. split; [reflexivity|]. split; [reflexivity|].
  intros H. apply (f_equal (fun s => List.length (ScamDetection.tfidf s))) in H.
  vm_compute in H. discriminate.
Qed.

(** C5 (as amended).  For every list of N job postings, batchAnalyze
    returns (it does not throw) exactly N entries in input order; each
    entry is what the analysis of that posting alone gives; a posting
    whose analysis throws gets isScam = false, confidence = 0 and the
    error message.  In the controller summary, total = N, every entry is
    counted as scam or as legitimate, and the entries of failed analyses
    are counted as legitimate. *)
Theorem batchAnalyze_entries (E : Externals)
    (jobPostings : list ScamDetection.JobData) (this : ScamDetection.Service E) :
  exists results this',
    ScamDetection.batchAnalyze E jobPostings this = (Ok results, this') /\
    results = map (EngineSpec.entry_of E this) jobPostings /\
    List.length results = List.length jobPostings /\
    map ScamDetection.jobId results = map ScamDetection.jobIdOf jobPostings /\
    Forall (fun r => EngineSpec.degraded r = true ->
                     ScamDetection.batch_isScam (ScamDetection.analysis r) = false /\
                     ScamDetection.batch_confidence (ScamDetection.analysis r) = 0%Q /\
                     exists e, ScamDetection.analysis r = ScamDetection.Failed e)
           results /\
    ScamDetection.total (ScamDetection.summary results) = List.length jobPostings /\
    ScamDetection.scamsDetected (ScamDetection.summary results)
    + ScamDetection.legitimate (ScamDetection.summary results)
    = List.length jobPostings /\
    ScamDetection.legitimate (ScamDetection.summary results)
    = List.length (filter EngineSpec.degraded results)
      + List.length
          (filter (fun r => EngineSpec.analysed r &&
                            negb (ScamDetection.batch_isScam (ScamDetection.analysis r)))
                  results).
Proof.
  destruct (batchAnalyze_loop_entries E jobPostings [] this this eq_refl)
    as (this' & Hrun & _).
  cbn [app] in Hrun.
  exists (map (EngineSpec.entry_of E this) jobPostings), this'.
  split; [exact Hrun|]. split; [reflexivity|].
  assert (Hlen : List.length (map (EngineSpec.entry_of E this) jobPostings)
                 = List.length jobPostings) by apply length_map.
  split; [exact Hlen|]. split; [|split; [|split; [|split]]].
  - rewrite map_map. reflexivity.
  - apply Forall_forall. intros r _. unfold EngineSpec.degraded, EngineSpec.analysed.
    destruct (ScamDetection.analysis r) as [a|e]; [discriminate|].
    intros _. simpl. eauto.
  - exact Hlen.
  - rewrite summary_partition. exact Hlen.
  - apply legitimate_counts_degraded.
Qed.

(** C5 fails as stated: in a batch of five where the third posting has a
    [null] company, the failed entry is counted among the legitimate
    ones, so the two counts add up to 5, not to the 4 analysed entries. *)
Lemma degraded_counted_as_legitimate :
  exists results this',
    ScamDetection.batchAnalyze neutral sample_batch (ScamDetection.constructor neutral)
    = (Ok results, this') /\
    List.length results = 5 /\
    map EngineSpec.degraded results = [false; false; true; false; false] /\
    ScamDetection.scamsDetected (ScamDetection.summary results) = 1 /\
    ScamDetection.legitimate (ScamDetection.summary results) = 4 /\
    List.length (filter EngineSpec.analysed results) = 4 /\
    ScamDetection.scamsDetected (ScamDetection.summary results)
    + ScamDetection.legitimate (ScamDetection.summary results)
    <> List.length (filter EngineSpec.analysed results).
Proof.
  do 2 eexists. split; [vm_compute; reflexivity|].
  repeat split; vm_compute; discriminate.
Qed.

(** C4 (as amended).  For every list of well-formed examples the update
    appends them to the corpus and retrains: the classifier afterwards is
    train(corpus + newExamples).  For every list with an entry that is
    [null] or [undefined], the update throws at the first such entry
    without retraining: the statistics of the last training stay, and the
    examples before that entry stay appended to the corpus. *)
Theorem updateModel_appends (E : Externals) (this : ScamDetection.Service E) :
  let c := EngineSpec.active E this in
  (forall items,
     ScamDetection.updateModel E (map val items) this
     = (Ok tt,
        {| ScamDetection.tfidf := ScamDetection.tfidf this;
           ScamDetection.bayesClassifier :=
             val (EngineSpec.train_from_scratch E
                    (ScamDetection.docs c ++ map EngineSpec.doc_of items)) |})) /\
  (forall before bad after,
     present bad = false ->
     exists e,
       ScamDetection.updateModel E (map val before ++ bad :: after) this
       = (Throw e,
          {| ScamDetection.tfidf := ScamDetection.tfidf this;
             ScamDetection.bayesClassifier :=
               val {| ScamDetection.docs :=
                        ScamDetection.docs c ++ map EngineSpec.doc_of before;
                      ScamDetection.trained := ScamDetection.trained c |} |})).
Proof.
  intros c.
  pose (this0 := {| ScamDetection.tfidf := ScamDetection.tfidf this;
                    ScamDetection.bayesClassifier := val c |}).
  assert (Hstart : forall data,
             ScamDetection.updateModel E data this
             = ScamDetection.bind E (ScamDetection.updateModel_forEach E data)
                 (fun _ =>
                    ScamDetection.bind E (ScamDetection.get_this E)
                      (fun this1 =>
                         match ScamDetection.bayesClassifier this1 with
                         | val c1 =>
                             ScamDetection.set_bayesClassifier E
                               (ScamDetection.train E c1)
                         | _ =>
                             ScamDetection.throw E
                               "TypeError: Cannot read properties of null (reading 'train')"
                         end)) this0).
  { intros data. unfold ScamDetection.updateModel.
    unfold ScamDetection.bind at 1, ScamDetection.get_this at 1.
    unfold this0, c, EngineSpec.active.
    destruct this as [t [| |c0]]; reflexivity. }
  split.
  - intros items. rewrite Hstart. unfold ScamDetection.bind at 1.
    rewrite (updateModel_forEach_items E items this0 c eq_refl).
    unfold ScamDetection.bind, ScamDetection.get_this,
      ScamDetection.set_bayesClassifier.
    cbn [ScamDetection.bayesClassifier ScamDetection.tfidf this0].
    rewrite train_from_scratch_docs. reflexivity.
  - intros before bad after Hbad. eexists. rewrite Hstart.
    unfold ScamDetection.bind at 1.
    rewrite (updateModel_forEach_stops E before bad after Hbad this0 c eq_refl).
    reflexivity.
Qed.

Lemma updateModel_appends_witness :
  present (@null ScamDetection.TrainingItem) = false /\
  exists e,
    ScamDetection.updateModel neutral [val good_example; null]
      (ScamDetection.constructor neutral)
    = (Throw e,
       {| ScamDetection.tfidf := [];
          ScamDetection.bayesClassifier :=
            val (ScamDetection.Build_BayesClassifier neutral
                   (ScamDetection.trainingData ++ [EngineSpec.doc_of good_example])
                   ScamDetection.trainingData) |}).
Proof.
  split; [reflexivity|].
  exact (proj2 (updateModel_appends neutral (ScamDetection.constructor neutral))
           [good_example] null [] eq_refl).
Defined.

Example updateModel_retrains :
  ScamDetection.updateModel neutral [val good_example]
    (ScamDetection.constructor neutral)
  = (Ok tt,
     {| ScamDetection.tfidf := [];
        ScamDetection.bayesClassifier :=
          val (EngineSpec.train_from_scratch neutral
                 (ScamDetection.trainingData ++ [EngineSpec.doc_of good_example])) |}).
Proof. reflexivity. Qed.

(** C4 fails as stated: an update with a good example followed by [null]
    throws, yet the good example stays in the corpus; the service is not
    in the state it had before, and the next training, even with no new
    example, includes the example of the failed update. *)
Lemma failed_update_keeps_examples :
  let this := ScamDetection.constructor neutral in
  exists e this' c',
    ScamDetection.updateModel neutral [val good_example; null] this = (Throw e, this') /\
    ScamDetection.bayesClassifier this' = val c' /\
    ScamDetection.docs c' = ScamDetection.trainingData ++ [EngineSpec.doc_of good_example] /\
    ScamDetection.trained c' = ScamDetection.trainingData /\
    this' <> this /\
    snd (ScamDetection.updateModel neutral [] this')
    <> snd (ScamDetection.updateModel neutral [] this).
Proof.
  cbv zeta. do 3 eexists. split; [vm_compute; reflexivity|].
  split; [reflexivity|]. split; [reflexivity|]. split; [reflexivity|].
  split; intros H;
    apply (f_equal (fun s : ScamDetection.Service neutral =>
                      match ScamDetection.bayesClassifier s with
                      | val c => (List.length (ScamDetection.docs c),
                                  List.length (ScamDetection.trained c : list Doc))
                      | _ => (0, 0)
                      end)) in H;
    vm_compute in H; discriminate.
Qed.

(** ** Further runs of the services *)

Lemma job_flaggedKeywords_scan (E : Externals) (jobData : ScamDetection.JobData)
    (this this' : ScamDetection.Service E) (a : ScamDetection.Analysis) :
  ScamDetection.analyzeJobPosting E jobData this = (Ok a, this') ->
  exists fullText,
    ScamDetection.fullTextOf jobData = Ok fullText /\
    ScamDetection.flaggedKeywords a
    = scanKeywords ScamDetection.suspiciousKeywords fullText.
Proof.
  rewrite analyzeJobPosting_unfold.
  destruct (ScamDetection.fullTextOf jobData) as [fullText|e]; [|discriminate].
  cbv zeta. destruct (ScamDetection.riskScoreOf _ _ _ _); [|discriminate].
  intros H. injection H as <- _. eauto.
Qed.

(** Two distinct pattern matches and nothing else: 2 x 0.15 = 0.3, which
    is "medium" and below the 0.4 of suspicion. *)
Example two_patterns_medium :
  exists a,
    Social.analyzeSocialMediaContent (stub 0 two_matches (Returns (val [])))
      {| Social.text := val "Hurry"; Social.engagement := undefined |} = Ok a /\
    Social.flaggedPatterns a = ["urgent"; "now"] /\
    Social.confidence a = double 0.3 /\
    Social.riskLevel a = Social.medium /\
    Social.isSuspicious a = false.
Proof.
  eexists. split; [vm_compute; reflexivity|].
  repeat split; vm_compute; reflexivity.
Qed.

(** Spec section 8, fourth property: 500 likes on 800 followers and the
    keyword "earn money online" give 0.1 + 0.2, which is at least 0.3. *)
Example sample_post_engagement :
  exists a,
    Social.analyzeSocialMediaContent neutral sample_post = Ok a /\
    Social.flaggedKeywords a = ["earn money online"] /\
    Social.engagementRatio (Social.engagement sample_post) = Some (Finite (5#8)) /\
    Social.confidence a = (double 0.1 +! double 0.2)%Q /\
    (double 0.3 <= Social.confidence a)%Q /\
    Social.detectedScamTypes a = ["work_from_home_scam"].
Proof.
  eexists. split; [vm_compute; reflexivity|].
  repeat split; vm_compute; try reflexivity; discriminate.
Qed.

(** * Further properties of the services *)

(** ** Keywords, red flags and scam types *)

Lemma includes_trans (a b c : string) :
  includes a b = true -> includes b c = true -> includes a c = true.
Proof.
  rewrite !includes_iff.
  intros (pre & post & ->) (pre' & post' & ->).
  exists (pre ++ pre')%string, (post' ++ post)%string.
  rewrite !append_assoc. reflexivity.
Qed.

(** X1.  The scan is closed under containment inside the vocabulary: when
    a flagged keyword contains another vocabulary entry (up to case), that
    entry is flagged too. *)
Theorem scanKeywords_substring_closed (keywords : list string)
    (fullText k1 k2 : string) :
  In k1 keywords ->
  In k2 (scanKeywords keywords fullText) ->
  includes (toLowerCase k2) (toLowerCase k1) = true ->
  In k1 (scanKeywords keywords fullText).
Proof.
  intros H1 H2 Hsub. apply scanKeywords_In in H2. apply scanKeywords_In.
  split; [exact H1|]. apply includes_trans with (b := toLowerCase k2); tauto.
Qed.

Lemma scanKeywords_substring_closed_witness :
  In "fee" ScamDetection.suspiciousKeywords /\
  In "training fee" (scanKeywords ScamDetection.suspiciousKeywords "a training fee applies") /\
  includes (toLowerCase "training fee") (toLowerCase "fee") = true /\
  In "fee" (scanKeywords ScamDetection.suspiciousKeywords "a training fee applies").
Proof.
  assert (H1 : In "fee" ScamDetection.suspiciousKeywords)
    by (vm_compute; tauto).
  assert (H2 : In "training fee"
                 (scanKeywords ScamDetection.suspiciousKeywords "a training fee applies"))
    by (vm_compute; tauto).
  split; [exact H1|]. split; [exact H2|]. split; [reflexivity|].
  exact (scanKeywords_substring_closed _ _ "fee" "training fee" H1 H2 eq_refl).
Defined.

Lemma some_in_iff (xs ys : list string) :
  some_in xs ys = true <-> exists k, In k xs /\ In k ys.
Proof.
  unfold some_in. rewrite existsb_exists. split.
  - intros (k & Hk & Hin). apply array_includes_In in Hin. eauto.
  - intros (k & Hk & Hin). exists k. split; [exact Hk|].
    apply array_includes_In. exact Hin.
Qed.

Lemma some_in_false (xs ys : list string) :
  some_in xs ys = false <-> forall k, In k xs -> ~ In k ys.
Proof.
  rewrite <- not_true_iff_false, some_in_iff. split.
  - intros H k Hk Hy. apply H. eauto.
  - intros H (k & Hk & Hy). exact (H k Hk Hy).
Qed.

(** Dropping from the list tested by [some] the strings that cannot be
    among the flagged keywords changes nothing. *)
Lemma some_in_without (kws ys dead : list string) :
  (forall k, In k dead -> ~ In k kws) ->
  some_in kws (ys ++ dead) = some_in kws ys.
Proof.
  intros Hdead. apply eq_true_iff_eq. rewrite !some_in_iff. split.
  - intros (k & Hk & Hy). apply in_app_iff in Hy. destruct Hy as [Hy | Hd].
    + eauto.
    + destruct (Hdead k Hd Hk).
  - intros (k & Hk & Hy). exists k. rewrite in_app_iff. tauto.
Qed.

Lemma scanKeywords_vocabulary (keywords : list string) (fullText k : string) :
  In k (scanKeywords keywords fullText) -> In k keywords.
Proof. intros H. apply scanKeywords_In in H. tauto. Qed.

Lemma job_never_flagged (fullText k : string) :
  In k ["visa"; "flight"; "engineer"; "developer"; "analyst"] ->
  ~ In k (scanKeywords ScamDetection.suspiciousKeywords fullText).
Proof.
  intros Hk Hin. apply scanKeywords_vocabulary in Hin.
  assert (Hnot : forallb (fun d => negb (array_includes ScamDetection.suspiciousKeywords d))
                   ["visa"; "flight"; "engineer"; "developer"; "analyst"] = true)
    by reflexivity.
  rewrite forallb_forall in Hnot. specialize (Hnot k Hk).
  apply negb_true_iff, array_includes_not_In in Hnot. exact (Hnot Hin).
Qed.

Lemma In_flag (b : bool) (s x : string) :
  In x (if b then [s] else []) <-> b = true /\ s = x.
Proof. destruct b; simpl; intuition congruence. Qed.

(** Decides an equation between two different string literals. *)
Ltac literal_ne H :=
  match type of H with
  | ?a = ?b =>
      let F := fresh in
      assert (F : String.eqb a b = false) by reflexivity;
      apply String.eqb_eq in H; rewrite H in F; discriminate F
  end.

Ltac flag_iff :=
  rewrite !in_app_iff, !In_flag;
  split;
  [ intros H;
    repeat match type of H with
    | _ \/ _ => destruct H as [H | H]
    end;
    destruct H as [Hb Hs]; first [exact Hb | literal_ne Hs]
  | intros H; tauto ].

Lemma some_in_live (kws ys live : list string) :
  (forall k, In k live -> In k ys) ->
  (forall k, In k ys -> In k live \/ ~ In k kws) ->
  some_in kws ys = some_in kws live.
Proof.
  intros Hsub Hdead. apply eq_true_iff_eq. rewrite !some_in_iff. split.
  - intros (k & Hk & Hy). destruct (Hdead k Hy) as [Hl | Hn]; [eauto | tauto].
  - intros (k & Hk & Hl). eauto.
Qed.

Lemma some_in_mono (kws ys zs : list string) :
  (forall k, In k ys -> In k zs) ->
  some_in kws ys = true -> some_in kws zs = true.
Proof.
  intros Hsub. rewrite !some_in_iff. intros (k & Hk & Hy). eauto.
Qed.

(** What an analysis that returns holds in its keyword-derived fields. *)
Lemma analyzeJobPosting_fields (E : Externals) (jobData : ScamDetection.JobData)
    (this this' : ScamDetection.Service E) (a : ScamDetection.Analysis) :
  ScamDetection.analyzeJobPosting E jobData this = (Ok a, this') ->
  exists fullText,
    ScamDetection.fullTextOf jobData = Ok fullText /\
    ScamDetection.flaggedKeywords a
    = scanKeywords ScamDetection.suspiciousKeywords fullText /\
    ScamDetection.riskFactors a
    = ScamDetection.redFlagsOf (ScamDetection.flaggedKeywords a) /\
    ScamDetection.scamTypes a
    = ScamDetection.scamTypesOf (ScamDetection.flaggedKeywords a) /\
    ScamDetection.recommendations a
    = ScamDetection.recommendationsOf (ScamDetection.isScam a)
        (ScamDetection.flaggedKeywords a) (ScamDetection.riskFactors a).
Proof.
  rewrite analyzeJobPosting_unfold.
  destruct (ScamDetection.fullTextOf jobData) as [fullText|e]; [|discriminate].
  cbv zeta. destruct (ScamDetection.riskScoreOf _ _ _ _); [|discriminate].
  intros H. injection H as <- _. exists fullText.
  cbn [ScamDetection.flaggedKeywords ScamDetection.riskFactors
       ScamDetection.scamTypes ScamDetection.recommendations ScamDetection.isScam].
  split; [reflexivity|]. split; [reflexivity|]. split; [reflexivity|].
  split; reflexivity.
Qed.

Lemma redFlagsOf_In (kws : list string) :
  (In "payment_required" (ScamDetection.redFlagsOf kws)
   <-> JobSpec.payment_required kws = true) /\
  (In "work_from_home_payment" (ScamDetection.redFlagsOf kws)
   <-> JobSpec.work_from_home_payment kws = true) /\
  (In "international_fee" (ScamDetection.redFlagsOf kws)
   <-> JobSpec.international_fee kws = true) /\
  (In "high_pressure" (ScamDetection.redFlagsOf kws)
   <-> JobSpec.high_pressure kws = true) /\
  (In "vague_description" (ScamDetection.redFlagsOf kws)
   <-> JobSpec.vague_description kws = true).
Proof.
  unfold ScamDetection.redFlagsOf, JobSpec.payment_required,
    JobSpec.work_from_home_payment, JobSpec.international_fee,
    JobSpec.high_pressure, JobSpec.vague_description.
  split; [flag_iff | split; [flag_iff | split; [flag_iff | split; flag_iff]]].
Qed.

Lemma scamTypesOf_In (kws : list string) :
  (In "advance_fee_fraud" (ScamDetection.scamTypesOf kws)
   <-> JobSpec.payment_required kws = true) /\
  (In "work_from_home_scam" (ScamDetection.scamTypesOf kws)
   <-> JobSpec.work_from_home_payment kws = true) /\
  (In "recruitment_fraud" (ScamDetection.scamTypesOf kws)
   <-> JobSpec.international_fee kws = true).
Proof.
  unfold ScamDetection.scamTypesOf, JobSpec.payment_required,
    JobSpec.work_from_home_payment, JobSpec.international_fee.
  split; [flag_iff | split; flag_iff].
Qed.

(** X2.  In every job analysis, the red flag international_fee is raised
    exactly when one of "international", "abroad", "overseas" is flagged
    together with one of "fee", "payment", "deposit": the entries "visa"
    and "flight" of the tested list are never flagged keywords (the
    vocabulary has "visa processing" and "flight tickets" instead), so a
    posting about a visa or a flight alone never raises it. *)
Theorem international_fee_needs_place_word (E : Externals)
    (jobData : ScamDetection.JobData) (this this' : ScamDetection.Service E)
    (a : ScamDetection.Analysis) :
  ScamDetection.analyzeJobPosting E jobData this = (Ok a, this') ->
  let kws := ScamDetection.flaggedKeywords a in
  ~ In "visa" kws /\ ~ In "flight" kws /\
  (In "international_fee" (ScamDetection.riskFactors a) <->
   (exists k, In k kws /\ In k ["international"; "abroad"; "overseas"]) /\
   (exists k, In k kws /\ In k ["fee"; "payment"; "deposit"])).
Proof.
  intros Ha kws.
  destruct (analyzeJobPosting_fields E jobData this this' a Ha)
    as (fullText & _ & Hkws & Hflags & _).
  assert (Hdead : forall k, In k ["visa"; "flight"; "engineer"; "developer"; "analyst"] ->
                            ~ In k kws).
  { intros k Hk. unfold kws. rewrite Hkws. apply job_never_flagged. exact Hk. }
  split; [apply Hdead; simpl; tauto|]. split; [apply Hdead; simpl; tauto|].
  rewrite Hflags.
  destruct (redFlagsOf_In (ScamDetection.flaggedKeywords a)) as (_ & _ & -> & _).
  unfold JobSpec.international_fee. fold kws.
  rewrite (some_in_live kws ["international"; "abroad"; "overseas"; "visa"; "flight"]
             ["international"; "abroad"; "overseas"]).
  - rewrite andb_true_iff, !some_in_iff. tauto.
  - simpl. tauto.
  - intros k Hk. simpl in Hk.
    destruct Hk as [<- | [<- | [<- | [<- | [<- | []]]]]];
      try (left; simpl; tauto); right; apply Hdead; simpl; tauto.
Qed.

(** X3.  In every job analysis, the red flag vague_description is raised
    exactly when one of "various duties", "miscellaneous tasks",
    "data entry", "customer service" is flagged and neither "manager" nor
    "specialist" is: the entries "engineer", "developer" and "analyst" of
    the excluding list are not in the vocabulary, so a posting for an
    engineer, developer or analyst does not suppress the flag. *)
Theorem vague_description_suppressed_by (E : Externals)
    (jobData : ScamDetection.JobData) (this this' : ScamDetection.Service E)
    (a : ScamDetection.Analysis) :
  ScamDetection.analyzeJobPosting E jobData this = (Ok a, this') ->
  let kws := ScamDetection.flaggedKeywords a in
  ~ In "engineer" kws /\ ~ In "developer" kws /\ ~ In "analyst" kws /\
  (In "vague_description" (ScamDetection.riskFactors a) <->
   (exists k, In k kws /\
              In k ["various duties"; "miscellaneous tasks"; "data entry";
                    "customer service"]) /\
   ~ In "manager" kws /\ ~ In "specialist" kws).
Proof.
  intros Ha kws.
  destruct (analyzeJobPosting_fields E jobData this this' a Ha)
    as (fullText & _ & Hkws & Hflags & _).
  assert (Hdead : forall k, In k ["visa"; "flight"; "engineer"; "developer"; "analyst"] ->
                            ~ In k kws).
  { intros k Hk. unfold kws. rewrite Hkws. apply job_never_flagged. exact Hk. }
  split; [apply Hdead; simpl; tauto|]. split; [apply Hdead; simpl; tauto|].
  split; [apply Hdead; simpl; tauto|].
  rewrite Hflags.
  destruct (redFlagsOf_In (ScamDetection.flaggedKeywords a)) as (_ & _ & _ & _ & ->).
  unfold JobSpec.vague_description. fold kws.
  rewrite (some_in_live kws ["engineer"; "developer"; "analyst"; "manager"; "specialist"]
             ["manager"; "specialist"]).
  - rewrite andb_true_iff, negb_true_iff, some_in_iff, some_in_false. split.
    + intros [Hsome Hnone]. split; [exact Hsome|].
      split; intros Hin; apply (Hnone _ Hin); simpl; tauto.
    + intros [Hsome [Hm Hs]]. split; [exact Hsome|].
      intros k Hk [<- | [<- | []]]; tauto.
  - simpl. tauto.
  - intros k Hk. simpl in Hk.
    destruct Hk as [<- | [<- | [<- | [<- | [<- | []]]]]];
      try (left; simpl; tauto); right; apply Hdead; simpl; tauto.
Qed.

Lemma international_fee_needs_place_word_witness :
  exists a this',
    ScamDetection.analyzeJobPosting neutral visa_job (ScamDetection.constructor neutral)
    = (Ok a, this') /\
    ScamDetection.flaggedKeywords a
    = ["fee"; "visa processing"; "flight tickets"; "processing fee"] /\
    let kws := ScamDetection.flaggedKeywords a in
    ~ In "visa" kws /\ ~ In "flight" kws /\
    (In "international_fee" (ScamDetection.riskFactors a) <->
     (exists k, In k kws /\ In k ["international"; "abroad"; "overseas"]) /\
     (exists k, In k kws /\ In k ["fee"; "payment"; "deposit"])).
Proof.
  do 2 eexists. split; [vm_compute; reflexivity|]. split; [reflexivity|].
  refine (international_fee_needs_place_word neutral visa_job
            (ScamDetection.constructor neutral) _ _ _).
  vm_compute; reflexivity.
Defined.

Lemma vague_description_suppressed_by_witness :
  exists a this',
    ScamDetection.analyzeJobPosting neutral engineer_job (ScamDetection.constructor neutral)
    = (Ok a, this') /\
    ScamDetection.riskFactors a = ["vague_description"] /\
    let kws := ScamDetection.flaggedKeywords a in
    ~ In "engineer" kws /\ ~ In "developer" kws /\ ~ In "analyst" kws /\
    (In "vague_description" (ScamDetection.riskFactors a) <->
     (exists k, In k kws /\
                In k ["various duties"; "miscellaneous tasks"; "data entry";
                      "customer service"]) /\
     ~ In "manager" kws /\ ~ In "specialist" kws).
Proof.
  do 2 eexists. split; [vm_compute; reflexivity|]. split; [reflexivity|].
  refine (vague_description_suppressed_by neutral engineer_job
            (ScamDetection.constructor neutral) _ _ _).
  vm_compute; reflexivity.
Defined.

(** X4.  In every job analysis the scam types and the payment flag go
    together: each of work_from_home_payment and international_fee comes
    with payment_required; advance_fee_fraud is listed exactly when
    payment_required is raised, work_from_home_scam exactly with
    work_from_home_payment and recruitment_fraud exactly with
    international_fee; so every listed scam type comes with
    advance_fee_fraud, and high_pressure and vague_description alone add
    no scam type. *)
Theorem scamTypes_follow_payment (E : Externals)
    (jobData : ScamDetection.JobData) (this this' : ScamDetection.Service E)
    (a : ScamDetection.Analysis) :
  ScamDetection.analyzeJobPosting E jobData this = (Ok a, this') ->
  let flags := ScamDetection.riskFactors a in
  let types := ScamDetection.scamTypes a in
  (In "work_from_home_payment" flags -> In "payment_required" flags) /\
  (In "international_fee" flags -> In "payment_required" flags) /\
  (In "advance_fee_fraud" types <-> In "payment_required" flags) /\
  (In "work_from_home_scam" types <-> In "work_from_home_payment" flags) /\
  (In "recruitment_fraud" types <-> In "international_fee" flags) /\
  (types <> [] -> In "advance_fee_fraud" types) /\
  (~ In "payment_required" flags -> types = []).
Proof.
  intros Ha flags types.
  destruct (analyzeJobPosting_fields E jobData this this' a Ha)
    as (fullText & _ & _ & Hflags & Htypes & _).
  unfold flags, types. rewrite Hflags, Htypes.
  set (kws := ScamDetection.flaggedKeywords a).
  destruct (redFlagsOf_In kws) as (Hp & Hw & Hi & _ & _).
  destruct (scamTypesOf_In kws) as (Ha' & Hw' & Hi').
  rewrite Hp, Hw, Hi, Ha', Hw', Hi'.
  assert (Hwp : JobSpec.work_from_home_payment kws = true ->
                JobSpec.payment_required kws = true).
  { unfold JobSpec.work_from_home_payment, JobSpec.payment_required.
    rewrite andb_true_iff. intros [_ H].
    apply (some_in_mono kws ["fee"; "payment"; "deposit"]); [|exact H].
    simpl. tauto. }
  assert (Hip : JobSpec.international_fee kws = true ->
                JobSpec.payment_required kws = true).
  { unfold JobSpec.international_fee, JobSpec.payment_required.
    rewrite andb_true_iff. intros [_ H].
    apply (some_in_mono kws ["fee"; "payment"; "deposit"]); [|exact H].
    simpl. tauto. }
  split; [exact Hwp|]. split; [exact Hip|].
  split; [tauto|]. split; [tauto|]. split; [tauto|].
  assert (Hnone : JobSpec.payment_required kws = false ->
                  ScamDetection.scamTypesOf kws = []).
  { intros Hf. unfold ScamDetection.scamTypesOf.
    fold (JobSpec.payment_required kws). fold (JobSpec.work_from_home_payment kws).
    fold (JobSpec.international_fee kws). rewrite Hf.
    destruct (JobSpec.work_from_home_payment kws);
      [pose proof (Hwp eq_refl); congruence|].
    destruct (JobSpec.international_fee kws);
      [pose proof (Hip eq_refl); congruence|].
    reflexivity. }
  split.
  - intros Hne. destruct (JobSpec.payment_required kws) eqn:Hpr; [reflexivity|].
    destruct (Hne (Hnone eq_refl)).
  - intros Hno. apply Hnone. destruct (JobSpec.payment_required kws); [tauto|reflexivity].
Qed.

Lemma scamTypes_follow_payment_witness :
  exists a this',
    ScamDetection.analyzeJobPosting neutral sample_job (ScamDetection.constructor neutral)
    = (Ok a, this') /\
    ScamDetection.scamTypes a = ["advance_fee_fraud"; "work_from_home_scam"] /\
    (In "work_from_home_scam" (ScamDetection.scamTypes a)
     <-> In "work_from_home_payment" (ScamDetection.riskFactors a)).
Proof.
  do 2 eexists. split; [vm_compute; reflexivity|]. split; [reflexivity|].
  refine (proj1 (proj2 (proj2 (proj2
            (scamTypes_follow_payment neutral sample_job
               (ScamDetection.constructor neutral) _ _ _))))).
  vm_compute; reflexivity.
Defined.

(** ** Social posts: levels, bounds and scam types *)

Lemma social_fields (E : Externals) (content : Social.Content) (a : Social.Analysis) :
  Social.analyzeSocialMediaContent E content = Ok a ->
  exists t r,
    with_default (Social.text content) "" = val t /\
    Social.flaggedKeywords a
    = scanKeywords Social.suspiciousKeywords (toLowerCase t) /\
    Social.sentiment a = sentiment_analyze E (toLowerCase t) /\
    (r = SocialSpec.keyword_term (Social.flaggedKeywords a)
         +! SocialSpec.pattern_term (Social.flaggedPatterns a)
         +! SocialSpec.guarded_engagement_bonus (Social.engagement content)
         +! SocialSpec.sentiment_bonus (Social.sentiment a))%Q /\
    (0 <= r)%Q /\
    Social.confidence a = Math_min r 1 /\
    Social.isSuspicious a = Qgtb (Social.confidence a) (double 0.4) /\
    Social.riskLevel a = Social.riskLevelOf (Social.confidence a) /\
    Social.detectedScamTypes a = Social.scamTypesOf (Social.flaggedKeywords a).
Proof.
  unfold Social.analyzeSocialMediaContent.
  destruct (with_default (Social.text content) "") as [| |t]; try discriminate.
  intros H. injection H as <-. exists t. eexists.
  cbn [Social.flaggedKeywords Social.flaggedPatterns Social.sentiment
       Social.confidence Social.isSuspicious Social.riskLevel
       Social.detectedScamTypes].
  split; [reflexivity|]. split; [reflexivity|]. split; [reflexivity|].
  split; [apply riskScoreOf_sum|].
  split; [apply riskScoreOf_nonneg|].
  split; [reflexivity|]. split; [reflexivity|]. split; reflexivity.
Qed.

(** X5.  For every social post that is analysed, the confidence lies in
    [0, 1], a post rated "high" or "critical" is suspicious, and a post
    rated "low" is not; only "medium" posts can fall on either side of the
    0.4 threshold. *)
Theorem riskLevel_agrees_with_suspicion (E : Externals) (content : Social.Content)
    (a : Social.Analysis) :
  Social.analyzeSocialMediaContent E content = Ok a ->
  (0 <= Social.confidence a <= 1)%Q /\
  (Social.riskLevel a = Social.high \/ Social.riskLevel a = Social.critical ->
   Social.isSuspicious a = true) /\
  (Social.riskLevel a = Social.low -> Social.isSuspicious a = false) /\
  (Social.isSuspicious a = true -> (3#10 <= Social.confidence a)%Q).
Proof.
  intros Ha.
  destruct (social_fields E content a Ha)
    as (t & r & _ & _ & _ & _ & Hr & Hc & Hs & Hl & _).
  assert (Hbounds : (0 <= Social.confidence a <= 1)%Q).
  { rewrite Hc. qcases; lra. }
  split; [exact Hbounds|].
  rewrite Hs, Hl. unfold Social.riskLevelOf.
  destruct literals_order as (_ & _ & _ & _ & H34 & _ & _ & _ & _).
  assert (H46 : (double 0.4 < double 0.6)%Q) by (vm_compute; reflexivity).
  assert (H04 : (3#10 < double 0.4)%Q) by (vm_compute; reflexivity).
  clear - H34 H46 H04.
  generalize (Social.confidence a). intros c.
  destruct (Qgtb_cases c (double 0.4)) as [[Hs ->] | [Hs ->]];
    repeat match goal with
    | |- context [Qltb ?x ?y] =>
        destruct (Qltb_cases x y) as [[? ->] | [? ->]]; try (exfalso; lra)
    end;
    (split; [intros [Hx | Hx]; first [reflexivity | discriminate Hx]|]);
    (split; [intros Hx; first [reflexivity | discriminate Hx]|]);
    intros Hx; first [lra | discriminate Hx].
Qed.

Lemma riskLevel_agrees_with_suspicion_witness :
  exists a,
    Social.analyzeSocialMediaContent neutral sample_post = Ok a /\
    Social.riskLevel a = Social.medium /\
    Social.isSuspicious a = false /\
    (0 <= Social.confidence a <= 1)%Q.
Proof.
  eexists. split; [vm_compute; reflexivity|]. split; [reflexivity|].
  split; [vm_compute; reflexivity|].
  exact (proj1 (riskLevel_agrees_with_suspicion neutral sample_post _ eq_refl)).
Defined.

Lemma guarded_engagement_bonus_cases (engagement : js Social.Engagement) :
  SocialSpec.guarded_engagement_bonus engagement = 0%Q \/
  SocialSpec.guarded_engagement_bonus engagement = double 0.2.
Proof.
  unfold SocialSpec.guarded_engagement_bonus.
  destruct engagement as [| |e]; auto.
  destruct (Social.followers e); auto. destruct (Social.likes e); auto.
  match goal with |- context [if ?b then _ else _] => destruct b end; auto.
Qed.

Lemma sentiment_bonus_cases (s : SentimentResult) :
  SocialSpec.sentiment_bonus s = 0%Q \/ SocialSpec.sentiment_bonus s = double 0.15.
Proof. unfold SocialSpec.sentiment_bonus. destruct (Qgtb _ _); auto. Qed.

(** X6.  A post with no flagged keyword and no flagged pattern is never
    suspicious, whatever its engagement and sentiment: those two signals
    add at most 0.2 + 0.15 = 0.35. *)
Theorem engagement_and_sentiment_alone (E : Externals) (content : Social.Content)
    (a : Social.Analysis) :
  Social.analyzeSocialMediaContent E content = Ok a ->
  Social.flaggedKeywords a = [] ->
  Social.flaggedPatterns a = [] ->
  (Social.confidence a <= 7#20)%Q /\
  Social.isSuspicious a = false /\
  (Social.riskLevel a = Social.low \/ Social.riskLevel a = Social.medium).
Proof.
  intros Ha Hk Hp.
  destruct (social_fields E content a Ha)
    as (t & r & _ & _ & _ & Hr & _ & Hc & Hs & Hl & _).
  rewrite Hk, Hp in Hr. rewrite Hs, Hl, Hc, Hr. clear.
  destruct (guarded_engagement_bonus_cases (Social.engagement content)) as [-> | ->];
    destruct (sentiment_bonus_cases (Social.sentiment a)) as [-> | ->];
    (split; [vm_compute; discriminate|]); (split; [vm_compute; reflexivity|]);
    vm_compute; auto.
Qed.

Lemma engagement_and_sentiment_alone_witness :
  exists a,
    Social.analyzeSocialMediaContent cheerful liked_post = Ok a /\
    Social.confidence a = double 0.35 /\
    Social.isSuspicious a = false.
Proof.
  eexists. split; [vm_compute; reflexivity|]. split; [vm_compute; reflexivity|].
  refine (proj1 (proj2 (engagement_and_sentiment_alone cheerful liked_post
                          _ eq_refl _ _)));
    reflexivity.
Defined.

Lemma guarded_engagement_bonus_skipped (engagement : js Social.Engagement) :
  SocialSpec.no_ratio engagement ->
  SocialSpec.guarded_engagement_bonus engagement = 0%Q.
Proof.
  unfold SocialSpec.no_ratio, SocialSpec.guarded_engagement_bonus.
  destruct engagement as [| |e]; try reflexivity.
  destruct (Social.followers e) as [| |f], (Social.likes e) as [| |l];
    simpl; try reflexivity; intros [H | H]; try contradiction;
    apply Qeq_bool_iff in H; rewrite H; try reflexivity.
  rewrite andb_false_r. reflexivity.
Qed.

Lemma of_length_le {A} (l : list A) (n : nat) :
  List.length l <= n -> (of_length l <= inject_Z (Z.of_nat n))%Q.
Proof. intros H. unfold of_length. rewrite <- Zle_Qle. lia. Qed.

Lemma of_length_ge {A} (l : list A) (n : nat) :
  n <= List.length l -> (inject_Z (Z.of_nat n) <= of_length l)%Q.
Proof. intros H. unfold of_length. rewrite <- Zle_Qle. lia. Qed.

(** The keyword term by the number of keywords: one tenth each below
    five, one half from five on. *)
Lemma keyword_term_by_length (kws : list string) :
  (List.length kws < 5 /\
   SocialSpec.keyword_term kws
   = (inject_Z (Z.of_nat (List.length kws)) *! double 0.1)%Q /\
   (SocialSpec.keyword_term kws <= double 0.4)%Q) \/
  (5 <= List.length kws /\ SocialSpec.keyword_term kws = (1#2)%Q).
Proof.
  unfold SocialSpec.keyword_term.
  destruct (le_lt_dec 5 (List.length kws)) as [Hge | Hlt].
  - right. split; [exact Hge|].
    pose proof (of_length_ge kws 5 Hge) as Hq.
    change (inject_Z (Z.of_nat 5)) with 5%Q in Hq.
    assert (H01 : (1#10 < double 0.1)%Q) by (vm_compute; reflexivity).
    assert (Hhalf : (1#2 <= of_length kws *! double 0.1)%Q).
    { apply double_ge; [apply representable_half|]. nra. }
    unfold Math_min.
    destruct (Qle_bool (of_length kws *! double 0.1) (1#2)) eqn:Hle; [|reflexivity].
    apply Qle_bool_iff in Hle.
    assert (Heq : (of_length kws *! double 0.1 == 1#2)%Q) by lra.
    unfold jsmul in *. rewrite <- (double_canonical (_ * _)).
    change (1#2)%Q with (Qred (1#2)). apply Qred_complete, Heq.
  - left. split; [exact Hlt|]. unfold of_length.
    destruct (List.length kws) as [|[|[|[|[|n]]]]]; [| | | | |lia];
      (split; [vm_compute; reflexivity | vm_compute; discriminate]).
Qed.

(** X7.  On keywords alone (no flagged pattern, no engagement ratio to
    take, sentiment comparative at most 0.8) the confidence is
    min(0.1 x |flaggedKeywords|, 0.5): the post is suspicious exactly when
    at least five distinct keywords are flagged, and it is never rated
    above "medium". *)
Theorem keywords_alone (E : Externals) (content : Social.Content)
    (a : Social.Analysis) :
  Social.analyzeSocialMediaContent E content = Ok a ->
  Social.flaggedPatterns a = [] ->
  SocialSpec.no_ratio (Social.engagement content) ->
  (comparative (Social.sentiment a) <= double 0.8)%Q ->
  (Social.confidence a == SocialSpec.keyword_term (Social.flaggedKeywords a))%Q /\
  (Social.isSuspicious a = true <-> 5 <= List.length (Social.flaggedKeywords a)) /\
  (Social.riskLevel a = Social.low \/ Social.riskLevel a = Social.medium).
Proof.
  intros Ha Hp Hskip Hsent.
  destruct (social_fields E content a Ha)
    as (t & r & _ & _ & _ & Hr & _ & Hc & Hs & Hl & _).
  rewrite Hp, (guarded_engagement_bonus_skipped _ Hskip) in Hr.
  assert (Hs0 : SocialSpec.sentiment_bonus (Social.sentiment a) = 0%Q).
  { unfold SocialSpec.sentiment_bonus.
    destruct (Qgtb_cases (comparative (Social.sentiment a)) (double 0.8))
      as [[Hgt _] | [_ ->]]; [lra | reflexivity]. }
  rewrite Hs0, pattern_term_nil in Hr.
  pose proof (keyword_term_representable (Social.flaggedKeywords a)) as Hrep.
  rewrite !(jsadd_0_r _ Hrep) in Hr.
  pose proof (keyword_term_bounds (Social.flaggedKeywords a)) as Hkb.
  assert (Hconf : Social.confidence a
                  = SocialSpec.keyword_term (Social.flaggedKeywords a)).
  { rewrite Hc, Hr. unfold Math_min.
    destruct (Qle_bool_iff (SocialSpec.keyword_term (Social.flaggedKeywords a)) 1)
      as [_ Hle].
    rewrite Hle by lra. reflexivity. }
  split; [rewrite Hconf; reflexivity|].
  rewrite Hs, Hl, Hconf. unfold Social.riskLevelOf.
  pose proof literals_order.
  destruct (keyword_term_by_length (Social.flaggedKeywords a))
    as [(Hlt & _ & Hle) | (Hge & ->)].
  - split.
    + split; [|lia]. qcases; intros Ht; try discriminate Ht; exfalso; lra.
    + qcases; auto; exfalso; lra.
  - split.
    + split; [intros _; exact Hge|]. intros _.
      qcases; try reflexivity; exfalso; lra.
    + qcases; auto; exfalso; lra.
Qed.

Lemma keywords_alone_witness :
  exists a,
    Social.analyzeSocialMediaContent neutral
      {| Social.text := val sample_text; Social.engagement := undefined |} = Ok a /\
    Social.flaggedKeywords a = ["earn money online"; "act now"] /\
    (Social.confidence a == double 0.2)%Q /\
    Social.isSuspicious a = false.
Proof.
  eexists. split; [vm_compute; reflexivity|]. split; [reflexivity|].
  pose proof (keywords_alone neutral
                {| Social.text := val sample_text; Social.engagement := undefined |}
                _ eq_refl eq_refl I) as H.
  split; [|reflexivity].
  rewrite (proj1 (H ltac:(vm_compute; discriminate))). reflexivity.
Defined.

Lemma social_never_flagged (fullText : string) :
  ~ In "investment" (scanKeywords Social.suspiciousKeywords fullText).
Proof.
  intros Hin. apply scanKeywords_vocabulary in Hin.
  assert (Hnot : array_includes Social.suspiciousKeywords "investment" = false)
    by reflexivity.
  apply array_includes_not_In in Hnot. exact (Hnot Hin).
Qed.

(** X8.  In every social analysis, investment_fraud is listed exactly when
    one of "guaranteed returns", "high profit", "no risk" is flagged: the
    entry "investment" of the tested list is not in the vocabulary (which
    has "investment opportunity" and "crypto investment"), so a post about
    an investment alone is not labelled investment_fraud. *)
Theorem investment_fraud_keywords (E : Externals) (content : Social.Content)
    (a : Social.Analysis) :
  Social.analyzeSocialMediaContent E content = Ok a ->
  let kws := Social.flaggedKeywords a in
  ~ In "investment" kws /\
  (In "investment_fraud" (Social.detectedScamTypes a) <->
   exists k, In k kws /\ In k ["guaranteed returns"; "high profit"; "no risk"]).
Proof.
  intros Ha kws.
  destruct (social_fields E content a Ha)
    as (t & r & _ & Hkws & _ & _ & _ & _ & _ & _ & Htypes).
  assert (Hdead : ~ In "investment" kws).
  { unfold kws. rewrite Hkws. apply social_never_flagged. }
  split; [exact Hdead|].
  rewrite Htypes. fold kws. unfold Social.scamTypesOf.
  rewrite (some_in_live kws ["investment"; "guaranteed returns"; "high profit"; "no risk"]
             ["guaranteed returns"; "high profit"; "no risk"]).
  - rewrite <- some_in_iff.
    rewrite !in_app_iff, !In_flag. split.
    + intros H.
      repeat match type of H with _ \/ _ => destruct H as [H | H] end;
        destruct H as [Hb Hs]; first [exact Hb | literal_ne Hs].
    + tauto.
  - simpl. tauto.
  - intros k Hk. simpl in Hk.
    destruct Hk as [<- | [<- | [<- | [<- | []]]]];
      try (left; simpl; tauto); right; exact Hdead.
Qed.

Lemma investment_fraud_keywords_witness :
  exists a,
    Social.analyzeSocialMediaContent neutral investment_post = Ok a /\
    Social.flaggedKeywords a = ["investment opportunity"; "crypto investment"] /\
    Social.detectedScamTypes a = [] /\
    ~ In "investment" (Social.flaggedKeywords a).
Proof.
  eexists. split; [vm_compute; reflexivity|]. split; [reflexivity|].
  split; [reflexivity|].
  exact (proj1 (investment_fraud_keywords neutral investment_post _ eq_refl)).
Defined.

(** ** The state of the job service over several calls *)

Section ServiceRuns.
Import ScamDetection EngineSpec MoreSpec.
Variable E : Externals.

Lemma batchAnalyze_loop_state (jobPostings : list JobData) :
  forall (results : list BatchResult) (this : Service E),
    snd (batchAnalyze_loop E jobPostings results this)
    = {| tfidf := tfidf this ++ merged_texts jobPostings;
         bayesClassifier := bayesClassifier this |}.
Proof.
  induction jobPostings as [|job rest IH]; intros results this.
  - simpl. rewrite app_nil_r. destruct this; reflexivity.
  - cbn [batchAnalyze_loop].
    pose proof (analyzeJobPosting_state E job this) as Hst.
    destruct (analyzeJobPosting E job this) as [[a|e] this1]; cbn [snd] in Hst;
      rewrite IH; subst this1; unfold merged_texts; cbn [flat_map];
      fold (merged_texts rest);
      destruct (fullTextOf job) as [fullText|e']; cbn [with_document tfidf bayesClassifier app];
      rewrite <- ?app_assoc; reflexivity.
Qed.

End ServiceRuns.

(** X9.  A batch run never touches the classifier, and it appends to the
    TF-IDF index of the service, in input order, the merged text of every
    posting whose merge did not throw: the index grows by one document
    per such posting at every run and is never emptied. *)
Theorem batchAnalyze_state (E : Externals)
    (jobPostings : list ScamDetection.JobData) (this : ScamDetection.Service E) :
  let after := snd (ScamDetection.batchAnalyze E jobPostings this) in
  ScamDetection.bayesClassifier after = ScamDetection.bayesClassifier this /\
  ScamDetection.tfidf after
  = ScamDetection.tfidf this ++ MoreSpec.merged_texts jobPostings /\
  List.length (ScamDetection.tfidf this) <= List.length (ScamDetection.tfidf after)
  /\ List.length (ScamDetection.tfidf after)
     <= List.length (ScamDetection.tfidf this) + List.length jobPostings.
Proof.
  intros after. subst after. unfold ScamDetection.batchAnalyze.
  rewrite batchAnalyze_loop_state. cbn [ScamDetection.tfidf ScamDetection.bayesClassifier].
  split; [reflexivity|]. split; [reflexivity|].
  rewrite length_app.
  assert (Hlen : List.length (MoreSpec.merged_texts jobPostings)
                 <= List.length jobPostings).
  { unfold MoreSpec.merged_texts.
    induction jobPostings as [|job rest IH]; simpl; [lia|].
    rewrite length_app. destruct (ScamDetection.fullTextOf job); simpl; lia. }
  lia.
Qed.

Example batchAnalyze_state_sample :
  ScamDetection.tfidf
    (snd (ScamDetection.batchAnalyze neutral sample_batch
            (ScamDetection.constructor neutral)))
  = ["software engineer build services    "; sample_job_text;
     "nurse night shifts    "; "driver deliver parcels    "].
Proof. reflexivity. Qed.

Lemma updateModel_items (E : Externals) (this : ScamDetection.Service E)
    (items : list ScamDetection.TrainingItem) :
  ScamDetection.updateModel E (map val items) this
  = (Ok tt,
     {| ScamDetection.tfidf := ScamDetection.tfidf this;
        ScamDetection.bayesClassifier :=
          val (EngineSpec.train_from_scratch E
                 (ScamDetection.docs (EngineSpec.active E this)
                  ++ map EngineSpec.doc_of items)) |}).
Proof.
  set (c := EngineSpec.active E this).
  pose (this0 := {| ScamDetection.tfidf := ScamDetection.tfidf this;
                    ScamDetection.bayesClassifier := val c |}).
  assert (Hfor := updateModel_forEach_items E items this0 c eq_refl).
  unfold ScamDetection.updateModel.
  unfold ScamDetection.bind at 1, ScamDetection.get_this at 1.
  assert (Hinit : (match ScamDetection.bayesClassifier this with
                   | val _ => ScamDetection.ret E tt
                   | _ => ScamDetection.initializeBayesClassifier E
                   end) this = (Ok tt, this0)).
  { unfold this0, c, EngineSpec.active. destruct this as [t [| |c0]]; reflexivity. }
  unfold ScamDetection.bind at 1. rewrite Hinit.
  unfold ScamDetection.bind at 1. rewrite Hfor.
  unfold ScamDetection.bind, ScamDetection.get_this, ScamDetection.set_bayesClassifier.
  cbn [ScamDetection.bayesClassifier ScamDetection.tfidf this0].
  rewrite train_from_scratch_docs. reflexivity.
Qed.

(** X10.  Successful updates compose: updating with one list and then
    with another leaves the service as one update with the two lists
    concatenated does; and an update with no example after an update
    changes nothing (retraining is idempotent). *)
Theorem updateModel_compose (E : Externals) (this : ScamDetection.Service E)
    (first second : list ScamDetection.TrainingItem) :
  let after := snd (ScamDetection.updateModel E (map val first) this) in
  ScamDetection.updateModel E (map val second) after
  = ScamDetection.updateModel E (map val (first ++ second)) this /\
  ScamDetection.updateModel E [] after = (Ok tt, after).
Proof.
  intros after. subst after.
  rewrite (updateModel_items E this first). cbn [snd].
  assert (Hdocs : forall corpus,
             ScamDetection.docs (EngineSpec.train_from_scratch E corpus) = corpus).
  { intros corpus. rewrite train_from_scratch_docs. reflexivity. }
  split.
  - rewrite !updateModel_items.
    cbn [ScamDetection.tfidf EngineSpec.active ScamDetection.bayesClassifier].
    rewrite Hdocs, map_app, app_assoc. reflexivity.
  - change (@nil (js ScamDetection.TrainingItem))
      with (map (@val ScamDetection.TrainingItem) []).
    rewrite updateModel_items.
    cbn [ScamDetection.tfidf EngineSpec.active ScamDetection.bayesClassifier map].
    rewrite Hdocs, app_nil_r. reflexivity.
Qed.

(** ** Keywords in the merged fields *)

Lemma includes_append_l (a b k : string) :
  includes a k = true -> includes (a ++ b) k = true.
Proof.
  rewrite !includes_iff. intros (pre & post & ->).
  exists pre, (post ++ b)%string. rewrite !append_assoc. reflexivity.
Qed.

Lemma includes_append_r (a b k : string) :
  includes b k = true -> includes (a ++ b) k = true.
Proof.
  rewrite !includes_iff. intros (pre & post & ->).
  exists (a ++ pre)%string, post. rewrite !append_assoc. reflexivity.
Qed.

Lemma includes_refl (s : string) : includes s s = true.
Proof.
  apply includes_iff. exists "", "". simpl.
  induction s; simpl; congruence.
Qed.

Lemma includes_join (sep : string) (xs : list (js string)) (f : string) :
  In f (map or_empty xs) -> includes (join sep xs) f = true.
Proof.
  induction xs as [|x r IH]; [intros []|].
  intros [<- | Hin].
  - destruct r as [|y r']; cbn [join].
    + apply includes_refl.
    + apply includes_append_l, includes_refl.
  - destruct r as [|y r']; [destruct Hin|].
    cbn [join]. apply includes_append_r, includes_append_r, IH. exact Hin.
Qed.

Lemma includes_toLowerCase (s k : string) :
  includes s k = true -> includes (toLowerCase s) (toLowerCase k) = true.
Proof.
  rewrite !includes_iff. intros (pre & post & ->).
  exists (toLowerCase pre), (toLowerCase post).
  rewrite !toLowerCase_append. reflexivity.
Qed.

Lemma fullTextOf_Ok (jobData : ScamDetection.JobData) (fullText : string) :
  ScamDetection.fullTextOf jobData = Ok fullText ->
  exists c i,
    with_default (ScamDetection.company jobData)
      {| ScamDetection.name := undefined |} = val c /\
    with_default (ScamDetection.contactInfo jobData)
      {| ScamDetection.email := undefined; ScamDetection.phone := undefined;
         ScamDetection.website := undefined |} = val i /\
    fullText
    = toLowerCase
        (join " "
           ([with_default (ScamDetection.title jobData) "";
             with_default (ScamDetection.description jobData) "";
             val (or_empty (ScamDetection.name c))]
            ++ or_nil (with_default (ScamDetection.requirements jobData) [])
            ++ or_nil (with_default (ScamDetection.responsibilities jobData) [])
            ++ [val (or_empty (ScamDetection.email i));
                val (or_empty (ScamDetection.phone i));
                val (or_empty (ScamDetection.website i))])).
Proof.
  unfold ScamDetection.fullTextOf. cbv zeta.
  destruct (with_default (ScamDetection.company jobData) _) as [| |c];
    try discriminate.
  destruct (with_default (ScamDetection.contactInfo jobData) _) as [| |i];
    try discriminate.
  intros H. exists c, i. split; [reflexivity|]. split; [reflexivity|].
  injection H as H. symmetry. exact H.
Qed.

Lemma fullTextOf_includes_fields (jobData : ScamDetection.JobData)
    (fullText f : string) :
  ScamDetection.fullTextOf jobData = Ok fullText ->
  In f (MoreSpec.fields_of jobData) ->
  includes fullText (toLowerCase f) = true.
Proof.
  intros H Hin.
  destruct (fullTextOf_Ok jobData fullText H) as (c & i & Hc & Hi & ->).
  apply includes_toLowerCase, includes_join.
  assert (Hd : forall x : js string, or_empty (with_default x "") = or_empty x)
    by (intros [| |?]; reflexivity).
  assert (Hl : forall x : js (list (js string)),
             or_nil (with_default x []) = or_nil x)
    by (intros [| |?]; reflexivity).
  unfold MoreSpec.fields_of in Hin.
  rewrite !map_app, !Hl. cbn [map or_empty]. rewrite !Hd.
  rewrite !in_app_iff in *. cbn [In] in *.
  destruct (ScamDetection.company jobData) as [| |c0];
    cbn [with_default] in Hc; try discriminate Hc;
    injection Hc as <-;
    (destruct (ScamDetection.contactInfo jobData) as [| |i0];
     cbn [with_default] in Hi; try discriminate Hi;
     injection Hi as <-);
    cbn [In] in Hin; tauto.
Qed.

(** X11.  A vocabulary entry that occurs, in any case, in one of the
    merged fields of a posting (title, description, company name, a
    requirement, a responsibility, contact email, phone or website) is
    among the flagged keywords of its analysis. *)
Theorem keyword_in_field_is_flagged (E : Externals)
    (jobData : ScamDetection.JobData) (this this' : ScamDetection.Service E)
    (a : ScamDetection.Analysis) (field k : string) :
  ScamDetection.analyzeJobPosting E jobData this = (Ok a, this') ->
  In field (MoreSpec.fields_of jobData) ->
  In k ScamDetection.suspiciousKeywords ->
  LexiconSpec.occurs_ignoring_case k field ->
  In k (ScamDetection.flaggedKeywords a).
Proof.
  intros Ha Hfield Hk (pre & mid & post & -> & Hmid).
  destruct (analyzeJobPosting_fields E jobData this this' a Ha)
    as (fullText & Htext & -> & _).
  apply scanKeywords_In. split; [exact Hk|].
  pose proof (fullTextOf_includes_fields jobData fullText _ Htext Hfield) as Hinc.
  apply includes_trans with (b := toLowerCase (pre ++ mid ++ post)); [exact Hinc|].
  rewrite !toLowerCase_append, Hmid. apply includes_iff. eauto.
Qed.

Lemma keyword_in_field_is_flagged_witness :
  exists a this',
    ScamDetection.analyzeJobPosting neutral requirement_job
      (ScamDetection.constructor neutral) = (Ok a, this') /\
    In "Pay the TRAINING FEE upfront" (MoreSpec.fields_of requirement_job) /\
    In "training fee" ScamDetection.suspiciousKeywords /\
    LexiconSpec.occurs_ignoring_case "training fee" "Pay the TRAINING FEE upfront" /\
    In "training fee" (ScamDetection.flaggedKeywords a).
Proof.
  assert (Hf : In "Pay the TRAINING FEE upfront" (MoreSpec.fields_of requirement_job))
    by (vm_compute; tauto).
  assert (Hk : In "training fee" ScamDetection.suspiciousKeywords)
    by (vm_compute; tauto).
  assert (Ho : LexiconSpec.occurs_ignoring_case "training fee"
                 "Pay the TRAINING FEE upfront")
    by (exists "Pay the ", "TRAINING FEE", " upfront"; split; reflexivity).
  do 2 eexists. split; [vm_compute; reflexivity|].
  split; [exact Hf|]. split; [exact Hk|]. split; [exact Ho|].
  refine (keyword_in_field_is_flagged neutral requirement_job
            (ScamDetection.constructor neutral) _ _ _ _ _ Hf Hk Ho).
  vm_compute; reflexivity.
Defined.

(** ** The handlers of the ML routes *)


Lemma rate_cases (part total : nat) :
  (total = 0 /\ MlController.rate part total = 0%Q) \/
  (0 < total /\
   MlController.rate part total
   = (inject_Z (Z.of_nat part) /! inject_Z (Z.of_nat total) *! 100)%Q).
Proof.
  unfold MlController.rate. destruct total as [|t]; [left; split; reflexivity|].
  right. split; [lia | reflexivity].
Qed.

Lemma rate_bounds (part total : nat) :
  (0 <= MlController.rate part total)%Q /\
  (total = 0 -> MlController.rate part total = 0%Q) /\
  (part = 0 -> MlController.rate part total = 0%Q) /\
  (0 < total -> part = total -> MlController.rate part total = 100%Q) /\
  (part <= total -> (MlController.rate part total <= 100)%Q).
Proof.
  assert (Hp : (0 <= inject_Z (Z.of_nat part))%Q)
    by (change 0%Q with (inject_Z 0); rewrite <- Zle_Qle; lia).
  assert (H100 : representable 100) by (vm_compute; reflexivity).
  destruct (rate_cases part total) as [[-> ->] | [Hpos ->]].
  { split; [lra|]. split; [reflexivity|]. split; [reflexivity|].
    split; [lia | intros _; lra]. }
  assert (Ht : (0 < inject_Z (Z.of_nat total))%Q)
    by (change 0%Q with (inject_Z 0); rewrite <- Zlt_Qlt; lia).
  assert (Hq : (0 <= inject_Z (Z.of_nat part) / inject_Z (Z.of_nat total))%Q).
  { apply Qle_shift_div_l; [exact Ht | lra]. }
  unfold jsquot, jsmul.
  split; [|split; [lia|split; [|split]]].
  - apply double_nonneg. pose proof (double_nonneg _ Hq). nra.
  - intros ->. change (inject_Z (Z.of_nat 0)) with 0%Q.
    rewrite (double_comp (0 / inject_Z (Z.of_nat total)) 0)
      by (unfold Qdiv; ring).
    vm_compute. reflexivity.
  - intros _ ->.
    rewrite (double_comp (inject_Z (Z.of_nat total) / inject_Z (Z.of_nat total)) 1)
      by (field; lra).
    vm_compute. reflexivity.
  - intros Hle.
    assert (Hpt : (inject_Z (Z.of_nat part) <= inject_Z (Z.of_nat total))%Q)
      by (rewrite <- Zle_Qle; lia).
    assert (Hq1 : (inject_Z (Z.of_nat part) / inject_Z (Z.of_nat total) <= 1)%Q).
    { apply Qle_shift_div_r; [exact Ht | lra]. }
    pose proof (double_le _ 1 representable_1 Hq1) as Hd.
    apply double_le; [exact H100 | lra].
Qed.


(** One job in three: the rate is 33.33333333333333, and three times the
    rate is not 100. *)
Example rate_one_third :
  MlController.rate 1 3 = double 33.33333333333333 /\
  (MlController.rate 1 3 < 100 # 3)%Q /\
  (MlController.rate 1 3 *! 3 < 100)%Q.
Proof. repeat split; vm_compute; reflexivity. Qed.

(** X14.  retrainModel changes nothing unless the caller is an
    administrator and the body holds an array (403 and 400 otherwise).
    A successful update logs exactly one performance record, whose size is
    the number of examples sent and whose metrics are the same constants
    whatever the examples.  When the update throws, the exception is
    passed on and no performance record is logged. *)
Theorem retrainModel_outcomes (E : Externals) (role userId : string)
    (trainingData : js (list (js ScamDetection.TrainingItem)))
    (st : MlController.State E) :
  (role <> "admin" ->
   MlController.retrainModel E role userId trainingData st
   = (Ok (MlController.ErrorResponse "Only administrators can retrain models" 403), st)) /\
  (role = "admin" -> present trainingData = false ->
   MlController.retrainModel E role userId trainingData st
   = (Ok (MlController.ErrorResponse "Training data array is required" 400), st)) /\
  (role = "admin" ->
   forall items, trainingData = val (map val items) ->
   exists record,
     MlController.retrainModel E role userId trainingData st
     = (Ok (MlController.Json 200 record),
        (snd (ScamDetection.updateModel E (map val items) (fst st)),
         snd st ++ [record])) /\
     MlController.trainingDataSize record = List.length items /\
     MlController.accuracy record = double 0.92 /\
     MlController.precision record = double 0.89 /\
     MlController.recall record = double 0.91 /\
     MlController.f1Score record = double 0.90) /\
  (role = "admin" ->
   forall before bad after,
     present bad = false ->
     trainingData = val (map val before ++ bad :: after) ->
     exists e,
       MlController.retrainModel E role userId trainingData st
       = (Throw e,
          (snd (ScamDetection.updateModel E (map val before ++ bad :: after) (fst st)),
           snd st))).
Proof.
  unfold MlController.retrainModel. split; [|split; [|split]].
  - intros Hrole. apply String.eqb_neq in Hrole. rewrite Hrole. reflexivity.
  - intros -> Hdata. rewrite String.eqb_refl. cbn [negb].
    destruct trainingData; [reflexivity | reflexivity | discriminate].
  - intros -> items ->. rewrite String.eqb_refl. cbn [negb].
    rewrite updateModel_items. cbn [snd]. eexists.
    split; [reflexivity|]. cbn. rewrite length_map. repeat split.
  - intros -> before bad after Hbad ->. rewrite String.eqb_refl. cbn [negb].
    destruct (ScamDetection.updateModel E (map val before ++ bad :: after) (fst st))
      as [[u|e] this'] eqn:Hrun.
    + exfalso.
      pose (c := EngineSpec.active E (fst st)).
      pose (this0 := {| ScamDetection.tfidf := ScamDetection.tfidf (fst st);
                        ScamDetection.bayesClassifier := val c |}).
      assert (Hfor := updateModel_forEach_stops E before bad after Hbad this0 c eq_refl).
      unfold ScamDetection.updateModel in Hrun.
      unfold ScamDetection.bind at 1, ScamDetection.get_this at 1 in Hrun.
      assert (Hinit : (match ScamDetection.bayesClassifier (fst st) with
                       | val _ => ScamDetection.ret E tt
                       | _ => ScamDetection.initializeBayesClassifier E
                       end) (fst st) = (Ok tt, this0)).
      { unfold this0, c, EngineSpec.active.
        destruct (fst st) as [t [| |c0]]; reflexivity. }
      unfold ScamDetection.bind at 1 in Hrun. rewrite Hinit in Hrun.
      unfold ScamDetection.bind at 1 in Hrun. rewrite Hfor in Hrun.
      discriminate Hrun.
    + eexists. reflexivity.
Qed.

Lemma retrainModel_outcomes_witness :
  present (@null ScamDetection.TrainingItem) = false /\
  exists e,
    MlController.retrainModel neutral "admin" "user-1" (val [val good_example; null])
      (ScamDetection.constructor neutral, [])
    = (Throw e,
       (snd (ScamDetection.updateModel neutral [val good_example; null]
               (ScamDetection.constructor neutral)),
        [])).
Proof.
  split; [reflexivity|].
  exact (proj2 (proj2 (proj2
           (retrainModel_outcomes neutral "admin" "user-1"
              (val [val good_example; null])
              (ScamDetection.constructor neutral, []))))
           eq_refl [good_example] null [] eq_refl eq_refl).
Defined.




(** X17.  A batch request that names the same job twice is answered 404
    "Some jobs were not found" even when every named job exists: the store
    returns each matching posting once, so fewer postings come back than
    ids were sent.  Nothing is analysed and nothing is written. *)
Theorem batchAnalyze_duplicate_ids (E : Externals)
    (find_in : list string -> list ScamDetection.JobData)
    (jobIds : list string) (this : ScamDetection.Service E) :
  (forall job, In job (find_in jobIds) ->
               exists id, In id jobIds /\ ScamDetection._id job = val id) ->
  NoDup (map ScamDetection._id (find_in jobIds)) ->
  ~ NoDup jobIds ->
  MlController.batchAnalyze E find_in (val jobIds) this
  = (Ok ([], MlController.ErrorResponse "Some jobs were not found" 404), this).
Proof.
  intros Hmatch Hunique Hdup. unfold MlController.batchAnalyze.
  destruct jobIds as [|id ids]; [destruct Hdup; constructor|].
  destruct (Nat.eqb_spec (List.length (find_in (id :: ids))) (List.length (id :: ids)))
    as [Hlen | Hlen]; [|reflexivity].
  exfalso. apply Hdup.
  apply (NoDup_map_inv (@val string)).
  apply NoDup_incl_NoDup with (l := map ScamDetection._id (find_in (id :: ids))).
  - exact Hunique.
  - rewrite !length_map. lia.
  - intros x Hx. apply in_map_iff in Hx. destruct Hx as (job & <- & Hjob).
    destruct (Hmatch job Hjob) as (i & Hi & ->). apply in_map. exact Hi.
Qed.

Lemma batchAnalyze_duplicate_ids_witness :
  ~ NoDup ["job-3"; "job-3"] /\
  MlController.batchAnalyze neutral (fun _ => [null_company_job])
    (val ["job-3"; "job-3"]) (ScamDetection.constructor neutral)
  = (Ok ([], MlController.ErrorResponse "Some jobs were not found" 404),
     ScamDetection.constructor neutral).
Proof.
  assert (Hdup : ~ NoDup ["job-3"; "job-3"]).
  { intros H. inversion H as [|? ? Hin _]. apply Hin. left. reflexivity. }
  split; [exact Hdup|].
  apply (batchAnalyze_duplicate_ids neutral (fun _ => [null_company_job]));
    [| repeat constructor; intros [] | exact Hdup].
  intros job [<- | []]. exists "job-3". split; [left; reflexivity | reflexivity].
Defined.

(** ** The record of a suspicious post *)

Lemma substring_length (n : nat) (s : string) :
  String.length (substring 0 n s) = Nat.min n (String.length s).
Proof.
  revert s. induction n as [|n IH]; intros [|c s]; simpl; try reflexivity.
  rewrite IH. reflexivity.
Qed.

Lemma substring_all (n : nat) (s : string) :
  String.length s <= n -> substring 0 n s = s.
Proof.
  revert s. induction n as [|n IH]; intros [|c s] H; simpl in *;
    try reflexivity; try lia.
  rewrite IH by lia. reflexivity.
Qed.

Lemma append_length (a b : string) :
  String.length (a ++ b) = String.length a + String.length b.
Proof. induction a; simpl; congruence. Qed.

Lemma append_empty_r (a : string) : (a ++ "")%string = a.
Proof. induction a; simpl; congruence. Qed.

(** X18.  In the record built for a post, the title is the text itself
    when the text has at most 100 characters and its first 100 characters
    followed by "..." otherwise, so it never exceeds 103 characters (the
    schema allows 200); the priority is 2, 3, 4 or 5 for "low", "medium",
    "high", "critical"; platform and source hold the same string; and the
    viral risk level is "high" exactly when more than 1000 shares are
    recorded, "medium" otherwise (also when the share count is missing). *)
Theorem recordOf_shape (post : Monitor.Post) (platform : string)
    (analysis : Social.Analysis) (r : Monitor.ActivityRecord) :
  Monitor.recordOf post platform analysis = Ok r ->
  String.length (Monitor.title r) <= 103 /\
  (String.length (Monitor.content r) <= 100 -> Monitor.title r = Monitor.content r) /\
  (100 < String.length (Monitor.content r) ->
   Monitor.title r = (substring 0 100 (Monitor.content r) ++ "...")%string /\
   String.length (Monitor.title r) = 103) /\
  Monitor.priority r
  = match Social.riskLevel analysis with
    | Social.low => 2 | Social.medium => 3 | Social.high => 4 | Social.critical => 5
    end /\
  2 <= Monitor.priority r <= 5 /\
  Monitor.platform r = platform /\ Monitor.source r = platform /\
  (Monitor.viral_riskLevel (Monitor.viralPotential r) = "high" <->
   exists q, Social.shares (Monitor.engagementMetrics r) = val q /\ (1000 < q)%Q) /\
  (Monitor.viral_riskLevel (Monitor.viralPotential r) = "high" \/
   Monitor.viral_riskLevel (Monitor.viralPotential r) = "medium").
Proof.
  unfold Monitor.recordOf. cbv zeta.
  destruct (with_default (Social.text (Monitor.post_content post)) "") as [| |text];
    try discriminate.
  destruct (with_default (Monitor.author post) _) as [| |author]; try discriminate.
  destruct (with_default (Social.engagement (Monitor.post_content post)) _)
    as [| |engagement]; try discriminate.
  intros H. injection H as <-.
  cbn [Monitor.title Monitor.content Monitor.priority Monitor.platform Monitor.source
       Monitor.viralPotential Monitor.viral_riskLevel Monitor.engagementMetrics].
  assert (Hlen := substring_length 100 text).
  destruct (Nat.ltb_spec 100 (String.length text)) as [Hlong | Hshort].
  - rewrite append_length, Hlen. cbn [String.length].
    split; [lia|]. split; [lia|]. split; [intros _; split; [reflexivity | lia]|].
    split; [reflexivity|]. split; [destruct (Social.riskLevel analysis); lia|].
    split; [reflexivity|]. split; [reflexivity|].
    unfold Monitor.slot_gtb.
    destruct (Social.shares engagement) as [| |q].
    + split; [split; [discriminate | intros (q & Hq & _); discriminate] | auto].
    + split; [split; [discriminate | intros (q & Hq & _); discriminate] | auto].
    + destruct (Qgtb_cases q 1000) as [[Hq ->] | [Hq ->]].
      * split; [split; [eauto | reflexivity] | auto].
      * split; [split; [discriminate | intros (q' & [= <-] & Hq'); lra] | auto].
  - rewrite append_empty_r, substring_all by exact Hshort.
    split; [lia|]. split; [reflexivity|]. split; [lia|].
    split; [reflexivity|]. split; [destruct (Social.riskLevel analysis); lia|].
    split; [reflexivity|]. split; [reflexivity|].
    unfold Monitor.slot_gtb.
    destruct (Social.shares engagement) as [| |q].
    + split; [split; [discriminate | intros (q & Hq & _); discriminate] | auto].
    + split; [split; [discriminate | intros (q & Hq & _); discriminate] | auto].
    + destruct (Qgtb_cases q 1000) as [[Hq ->] | [Hq ->]].
      * split; [split; [eauto | reflexivity] | auto].
      * split; [split; [discriminate | intros (q' & [= <-] & Hq'); lra] | auto].
Qed.

Lemma recordOf_shape_witness :
  exists r,
    Monitor.recordOf long_post "tiktok" medium_analysis = Ok r /\
    String.length (Monitor.title r) = 103 /\
    Monitor.priority r = 3 /\
    Monitor.viral_riskLevel (Monitor.viralPotential r) = "high" /\
    String.length (Monitor.title r) <= 103.
Proof.
  eexists. split; [vm_compute; reflexivity|].
  split; [reflexivity|]. split; [reflexivity|]. split; [reflexivity|].
  match goal with
  | |- String.length (Monitor.title ?r) <= 103 =>
      exact (proj1 (recordOf_shape long_post "tiktok" medium_analysis r eq_refl))
  end.
Defined.

(** X19.  The analysis accepts a post whose engagement is [null] (its
    guard tests the object first) and does not read the author, but the
    record cannot be built for a post whose engagement or author is
    [null]: reading [engagement.shares] or [author.name] throws.  In the
    platform loop such a post, once found suspicious, ends the run of the
    platform with that exception. *)
Theorem recordOf_null_slots (E : Externals) (Stored : Type)
    (create : Monitor.ActivityRecord -> result Stored)
    (post : Monitor.Post) (platform : string) :
  Social.text (Monitor.post_content post) <> null ->
  Social.engagement (Monitor.post_content post) = null \/ Monitor.author post = null ->
  exists a,
    Social.analyzeSocialMediaContent E (Monitor.post_content post) = Ok a /\
    (forall analysis, exists e, Monitor.recordOf post platform analysis = Throw e) /\
    (Social.isSuspicious a = true ->
     forall rest found,
     exists e, Monitor.analyzePosts E Stored create (post :: rest) platform found
               = Throw e).
Proof.
  intros Htext Hnull.
  destruct (analyzeSocialMediaContent_returns E (Monitor.post_content post) Htext)
    as (t & Ht & Ha).
  cbv zeta in Ha. eexists. split; [exact Ha|].
  assert (Hthrow : forall analysis,
             exists e, Monitor.recordOf post platform analysis = Throw e).
  { intros analysis. unfold Monitor.recordOf. cbv zeta. rewrite Ht.
    destruct Hnull as [Hn | Hn]; rewrite Hn; cbn [with_default].
    - destruct (with_default (Monitor.author post) _); eauto.
    - eauto. }
  split; [exact Hthrow|].
  intros Hs rest found. cbn [Monitor.analyzePosts]. rewrite Ha, Hs.
  unfold Monitor.createSuspiciousActivityRecord.
  match goal with |- context [Monitor.recordOf post platform ?a] =>
    destruct (Hthrow a) as (e & ->) end.
  eauto.
Qed.

Lemma recordOf_null_slots_witness :
  Social.text (Monitor.post_content null_engagement_post) <> null /\
  exists a,
    Social.analyzeSocialMediaContent neutral (Monitor.post_content null_engagement_post)
    = Ok a /\
    Social.isSuspicious a = true /\
    exists e, Monitor.recordOf null_engagement_post "twitter" a = Throw e.
Proof.
  split; [discriminate|].
  destruct (recordOf_null_slots neutral Monitor.ActivityRecord accepting_create
              null_engagement_post "twitter" ltac:(discriminate)
              (or_introl eq_refl)) as (a & Ha & Hthrow & _).
  exists a. split; [exact Ha|]. split; [|apply Hthrow].
  vm_compute in Ha. injection Ha as <-. reflexivity.
Defined.

Lemma platform_enum_disjoint (p : string) :
  array_includes Monitor.platform_enum p = true ->
  array_includes Monitor.source_enum p = true ->
  p = "other".
Proof.
  intros Hp Hs. apply array_includes_In in Hp.
  unfold Monitor.platform_enum in Hp. cbn [In] in Hp.
  destruct Hp as [<- | [<- | [<- | [<- | [<- | [<- | []]]]]]];
    try discriminate Hs; reflexivity.
Qed.

Lemma supported_not_in_platform_enum (p : string) :
  In (toLowerCase p)
     ["twitter"; "facebook"; "instagram"; "linkedin"; "tiktok"; "reddit"] ->
  array_includes Monitor.platform_enum p = false.
Proof.
  intros Hlow. apply array_includes_not_In. intros Hp.
  unfold Monitor.platform_enum in Hp. cbn [In] in Hp.
  destruct Hp as [<- | [<- | [<- | [<- | [<- | [<- | []]]]]]];
    vm_compute in Hlow; intuition discriminate.
Qed.

(** X20.  The record built for a post never passes the enums of the
    schema it is created under, unless the platform is the string "other":
    platform and source hold the same string and the two enums share no
    other value.  For every platform name the monitor accepts ("twitter",
    "facebook", "instagram", "linkedin", "tiktok", "reddit", in any case)
    the platform path is outside its enum; and a record that lists
    investment_fraud has a scam type outside the enum. *)
Theorem recordOf_enum_violations (post : Monitor.Post) (platform : string)
    (analysis : Social.Analysis) (r : Monitor.ActivityRecord) :
  Monitor.recordOf post platform analysis = Ok r ->
  (platform <> "other" -> Monitor.enum_violations r <> []) /\
  (In (toLowerCase platform)
      ["twitter"; "facebook"; "instagram"; "linkedin"; "tiktok"; "reddit"] ->
   In "platform" (Monitor.enum_violations r)) /\
  (In "investment_fraud" (Social.detectedScamTypes analysis) ->
   In "detectedScamTypes" (Monitor.enum_violations r)).
Proof.
  intros Hr.
  assert (Hfields : Monitor.platform r = platform /\ Monitor.source r = platform /\
                    Monitor.detectedScamTypes r = Social.detectedScamTypes analysis).
  { unfold Monitor.recordOf in Hr. cbv zeta in Hr.
    destruct (with_default (Social.text (Monitor.post_content post)) "");
      try discriminate.
    destruct (with_default (Monitor.author post) _); try discriminate.
    destruct (with_default (Social.engagement (Monitor.post_content post)) _);
      try discriminate.
    injection Hr as <-. repeat split. }
  destruct Hfields as (Hp & Hs & Ht).
  unfold Monitor.enum_violations. rewrite Hp, Hs, Ht.
  split; [|split].
  - intros Hother.
    destruct (array_includes Monitor.platform_enum platform) eqn:H1;
      destruct (array_includes Monitor.source_enum platform) eqn:H2;
      try (destruct (array_includes _ (Monitor.activityType r)); discriminate).
    destruct (Hother (platform_enum_disjoint platform H1 H2)).
  - intros Hlow. rewrite (supported_not_in_platform_enum platform Hlow).
    rewrite !in_app_iff. right. left. left. reflexivity.
  - intros Hin.
    assert (Hall : forallb (array_includes Monitor.detectedScamTypes_enum)
                     (Social.detectedScamTypes analysis) = false).
    { apply not_true_iff_false. intros Hall. rewrite forallb_forall in Hall.
      specialize (Hall _ Hin). discriminate Hall. }
    rewrite Hall. rewrite !in_app_iff. do 3 right. left. left. reflexivity.
Qed.

Lemma recordOf_enum_violations_witness :
  exists r,
    Monitor.recordOf long_post "tiktok" medium_analysis = Ok r /\
    In "platform" (Monitor.enum_violations r).
Proof.
  eexists. split; [vm_compute; reflexivity|].
  match goal with
  | |- In _ (Monitor.enum_violations ?r) =>
      refine (proj1 (proj2 (recordOf_enum_violations long_post "tiktok"
                              medium_analysis r eq_refl)) _)
  end.
  vm_compute. tauto.
Defined.

(** ** The monitoring loops *)

Section MonitorRuns.
Import Monitor.
Variable E : Externals.
Variable Stored : Type.
Variable create : ActivityRecord -> result Stored.
Variable tokens : Tokens.

Lemma monitorPlatform_ignores_options (platform : string)
    (keywords keywords' : list string) (dateRange dateRange' : js string) :
  monitorPlatform E Stored create tokens platform keywords dateRange
  = monitorPlatform E Stored create tokens platform keywords' dateRange'.
Proof. reflexivity. Qed.

Lemma monitorPlatform_unsupported (platform : string) (keywords : list string)
    (dateRange : js string) :
  ~ In (toLowerCase platform)
       ["twitter"; "facebook"; "instagram"; "linkedin"; "tiktok"; "reddit"] ->
  monitorPlatform E Stored create tokens platform keywords dateRange
  = Throw ("Unsupported platform: " ++ platform).
Proof.
  intros Hnot. unfold monitorPlatform, fetchPosts. cbv zeta.
  repeat match goal with
  | |- context [String.eqb (toLowerCase platform) ?s] =>
      destruct (String.eqb_spec (toLowerCase platform) s) as [Heq | _];
      [exfalso; apply Hnot; rewrite Heq; simpl; tauto|]
  end.
  reflexivity.
Qed.

Lemma fetchPosts_supported (platform : string) (keywords : list string)
    (dateRange : js string) (posts : list Post) :
  fetchPosts tokens platform keywords dateRange = Ok posts ->
  In (toLowerCase platform)
     ["twitter"; "facebook"; "instagram"; "linkedin"; "tiktok"; "reddit"].
Proof.
  unfold fetchPosts. cbv zeta.
  repeat match goal with
  | |- context [String.eqb (toLowerCase platform) ?s] =>
      destruct (String.eqb_spec (toLowerCase platform) s) as [-> | _];
      [intros _; simpl; tauto|]
  end.
  discriminate.
Qed.

(** What a platform contributes to a run: its activities, or nothing
    when its run throws. *)
Lemma monitorSocialMedia_loop_flat (platforms : list string)
    (keywords : list string) (dateRange : js string) (results : list Stored) :
  monitorSocialMedia_loop E Stored create tokens platforms (val keywords) dateRange results
  = results ++
    flat_map (fun platform =>
                match monitorPlatform E Stored create tokens platform [] undefined with
                | Ok platformResults => platformResults
                | Throw _ => []
                end) platforms.
Proof.
  revert results. induction platforms as [|p rest IH]; intros results.
  - simpl. symmetry. apply app_nil_r.
  - cbn [monitorSocialMedia_loop flat_map].
    rewrite (monitorPlatform_ignores_options p _ [] dateRange undefined).
    destruct (monitorPlatform E Stored create tokens p [] undefined) as [l|e];
      rewrite IH; [rewrite app_assoc|]; reflexivity.
Qed.

Lemma monitorSocialMedia_loop_null (platforms : list string)
    (dateRange : js string) (results : list Stored) :
  monitorSocialMedia_loop E Stored create tokens platforms null dateRange results
  = results.
Proof.
  revert results. induction platforms as [|p rest IH]; intros results;
    [reflexivity | apply IH].
Qed.

End MonitorRuns.

(** X21.  monitorSocialMedia never throws when the platform list is an
    array: a platform whose run throws is skipped, so the result is the
    concatenation, in list order, of what the other platforms return.
    The keywords and the date range of the request have no effect on the
    result; only a [null] keyword list has one: every platform run then
    throws and the result is empty.  A platform whose name as
    [toLowerCase] returns it is none of "twitter", "facebook",
    "instagram", "linkedin", "tiktok", "reddit" is unsupported and always
    skipped. *)
Theorem monitorSocialMedia_skips (E : Externals) (Stored : Type)
    (create : Monitor.ActivityRecord -> result Stored) (tokens : Monitor.Tokens)
    (platforms keywords : list string) (dateRange : js string) :
  let contribution platform :=
    match Monitor.monitorPlatform E Stored create tokens platform [] undefined with
    | Ok platformResults => platformResults
    | Throw _ => []
    end in
  Monitor.monitorSocialMedia E Stored create tokens (val platforms) (val keywords) dateRange
  = Ok (flat_map contribution platforms) /\
  Monitor.monitorSocialMedia E Stored create tokens (val platforms) undefined dateRange
  = Ok (flat_map contribution platforms) /\
  Monitor.monitorSocialMedia E Stored create tokens (val platforms) null dateRange
  = Ok [] /\
  (forall platform,
     ~ In (toLowerCase platform)
          ["twitter"; "facebook"; "instagram"; "linkedin"; "tiktok"; "reddit"] ->
     contribution platform = []).
Proof.
  intros contribution. unfold Monitor.monitorSocialMedia. cbn [with_default].
  rewrite !monitorSocialMedia_loop_flat, monitorSocialMedia_loop_null.
  cbn [app]. repeat split.
  intros platform Hnot. unfold contribution.
  rewrite (monitorPlatform_unsupported E Stored create tokens platform [] undefined Hnot).
  reflexivity.
Qed.

Example youtube_is_skipped :
  In "youtube" Monitor.socialMediaPlatforms /\
  Monitor.monitorPlatform neutral _ accepting_create all_tokens "youtube" [] undefined
  = Throw "Unsupported platform: youtube".
Proof. split; [simpl; tauto | reflexivity]. Qed.

Section CheckedStore.
Import Monitor.
Variable E : Externals.
Variable Stored : Type.
Variable create : ActivityRecord -> result Stored.
Variable tokens : Tokens.
Hypothesis create_checks_enums :
  forall r, enum_violations r <> [] -> exists e, create r = Throw e.

Lemma recordOf_platform (post : Post) (p : string) (a : Social.Analysis)
    (r : ActivityRecord) :
  recordOf post p a = Ok r -> platform r = p /\ source r = p.
Proof.
  unfold recordOf. cbv zeta.
  destruct (with_default (Social.text (post_content post)) ""); try discriminate.
  destruct (with_default (author post) _); try discriminate.
  destruct (with_default (Social.engagement (post_content post)) _);
    try discriminate.
  intros H. injection H as <-. split; reflexivity.
Qed.

Lemma create_rejects (post : Post) (p : string) (a : Social.Analysis) :
  p <> "other" ->
  exists e, createSuspiciousActivityRecord Stored create post p a = Throw e.
Proof.
  intros Hp. unfold createSuspiciousActivityRecord.
  destruct (recordOf post p a) as [r|e] eqn:Hr; [|eauto].
  apply create_checks_enums.
  destruct (recordOf_platform post p a r Hr) as [Hplat Hsrc].
  unfold enum_violations. rewrite Hplat, Hsrc.
  destruct (array_includes platform_enum p) eqn:H1;
    destruct (array_includes source_enum p) eqn:H2;
    try (destruct (array_includes _ (activityType r)); discriminate).
  destruct (Hp (platform_enum_disjoint p H1 H2)).
Qed.

Lemma analyzePosts_stores_nothing (posts : list Post) (p : string)
    (found : list Stored) :
  p <> "other" ->
  analyzePosts E Stored create posts p found = Ok found \/
  exists e, analyzePosts E Stored create posts p found = Throw e.
Proof.
  intros Hp. induction posts as [|post rest IH]; [left; reflexivity|].
  cbn [analyzePosts].
  destruct (Social.analyzeSocialMediaContent E (post_content post)) as [a|e];
    [|right; eauto].
  destruct (Social.isSuspicious a); [|exact IH].
  destruct (create_rejects post p a Hp) as (e & ->). right. eauto.
Qed.

Lemma userPosts_loop_stores_nothing (posts : list Post) (p : string)
    (found : list Stored) :
  p <> "other" ->
  userPosts_loop E Stored create posts p found = found.
Proof.
  intros Hp. induction posts as [|post rest IH]; [reflexivity|].
  cbn [userPosts_loop].
  destruct (Social.analyzeSocialMediaContent E (post_content post)) as [a|e];
    [|reflexivity].
  destruct (Social.isSuspicious a); [|exact IH].
  destruct (create_rejects post p a Hp) as (e & ->). reflexivity.
Qed.

Lemma contribution_empty (p : string) (keywords : list string) (dateRange : js string) :
  match monitorPlatform E Stored create tokens p keywords dateRange with
  | Ok platformResults => platformResults
  | Throw _ => []
  end = [].
Proof.
  unfold monitorPlatform.
  destruct (fetchPosts tokens p keywords dateRange) as [posts|e] eqn:Hfetch;
    [|reflexivity].
  assert (Hp : p <> "other").
  { intros ->. apply fetchPosts_supported in Hfetch.
    vm_compute in Hfetch. intuition discriminate. }
  destruct (analyzePosts_stores_nothing posts p [] Hp) as [-> | (e & ->)];
    reflexivity.
Qed.

End CheckedStore.

(** X22.  When the store enforces the enums of the schema (as a create
    under that schema does), the monitor never stores anything: every
    record it builds has its platform path outside the enum, so each
    platform run either finds no suspicious post or throws at the first
    one, and monitorSocialMedia returns the empty list for every list of
    platforms, every keyword list and every token setting;
    monitorUserAccounts returns the empty list for every platform other
    than "other". *)
Theorem monitor_stores_nothing (E : Externals) (Stored : Type)
    (create : Monitor.ActivityRecord -> result Stored) (tokens : Monitor.Tokens) :
  (forall r, Monitor.enum_violations r <> [] -> exists e, create r = Throw e) ->
  (forall platforms keywords dateRange,
     platforms <> null ->
     Monitor.monitorSocialMedia E Stored create tokens platforms keywords dateRange
     = Ok []) /\
  (forall usernames platform,
     platform <> "other" ->
     Monitor.monitorUserAccounts E Stored create usernames platform = []).
Proof.
  intros Hcreate. split.
  - intros platforms keywords dateRange Hplatforms.
    assert (Hflat : forall l : list string,
               flat_map (fun platform =>
                           match Monitor.monitorPlatform E Stored create tokens
                                   platform [] undefined with
                           | Ok platformResults => platformResults
                           | Throw _ => []
                           end) l = []).
    { induction l as [|p l IH]; [reflexivity|].
      cbn [flat_map]. rewrite IH.
      rewrite (contribution_empty E Stored create tokens Hcreate p [] undefined).
      reflexivity. }
    unfold Monitor.monitorSocialMedia.
    destruct platforms as [| |platforms]; [| congruence |]; cbn [with_default];
      (destruct keywords as [| |keywords]; cbn [with_default];
       [rewrite monitorSocialMedia_loop_flat, Hflat; reflexivity
       |rewrite monitorSocialMedia_loop_null; reflexivity
       |rewrite monitorSocialMedia_loop_flat, Hflat; reflexivity]).
  - intros usernames platform Hp. unfold Monitor.monitorUserAccounts. cbv zeta.
    generalize (match usernames with
                | Monitor.One username => [username]
                | Monitor.Many usernames0 => usernames0
                end).
    intros l. induction l as [|u l IH]; [reflexivity|].
    cbn [Monitor.monitorUserAccounts_loop].
    rewrite (userPosts_loop_stores_nothing E Stored create Hcreate _ platform [] Hp).
    exact IH.
Qed.

Lemma monitor_stores_nothing_witness :
  (forall r, Monitor.enum_violations r <> [] ->
             exists e, checking_create r = Throw e) /\
  @val (list string) Monitor.socialMediaPlatforms <> null /\
  List.length
    (match Monitor.monitorSocialMedia alarming _ accepting_create all_tokens
             (val Monitor.socialMediaPlatforms) undefined undefined with
     | Ok results => results
     | Throw _ => []
     end) = 7 /\
  Monitor.monitorSocialMedia alarming _ checking_create all_tokens
    (val Monitor.socialMediaPlatforms) undefined undefined = Ok [].
Proof.
  assert (Hcreate : forall r, Monitor.enum_violations r <> [] ->
                              exists e, checking_create r = Throw e).
  { intros r Hr. unfold checking_create.
    destruct (Monitor.enum_violations r) as [|path rest]; [congruence | eauto]. }
  split; [exact Hcreate|]. split; [discriminate|].
  split; [vm_compute; reflexivity|].
  apply (proj1 (monitor_stores_nothing alarming _ checking_create all_tokens Hcreate)).
  discriminate.
Defined.

(** With a store that accepts everything the same run stores the seven
    mock posts; the first record the checked store rejects is refused for
    its platform path. *)
Example checked_store_rejects :
  exists r,
    Monitor.recordOf
      (hd long_post (match Monitor.fetchPosts all_tokens "twitter" [] undefined with
                     | Ok posts => posts
                     | Throw _ => []
                     end))
      "twitter" medium_analysis = Ok r /\
    checking_create r = Throw "ValidationError: platform".
Proof. eexists. split; vm_compute; reflexivity. Qed.

(** ** Objects used as maps *)

Section Objects.
Context {A : Type}.

Lemma object_get_set (o : object A) (k k' : string) (v : A) :
  object_get (object_set o k v) k'
  = if String.eqb k' k then Some v else object_get o k'.
Proof.
  induction o as [|[k0 v0] r IH]; simpl.
  - reflexivity.
  - destruct (String.eqb k k0) eqn:Hk; simpl.
    + apply String.eqb_eq in Hk. subst k0.
      destruct (String.eqb k' k); reflexivity.
    + rewrite IH. destruct (String.eqb k' k0) eqn:Hk0; [|reflexivity].
      apply String.eqb_eq in Hk0. subst k0.
      rewrite String.eqb_sym, Hk. reflexivity.
Qed.

Lemma object_set_keys (o : object A) (k : string) (v : A) :
  map fst (object_set o k v)
  = if array_includes (map fst o) k then map fst o else map fst o ++ [k].
Proof.
  unfold array_includes. induction o as [|[k0 v0] r IH]; simpl.
  - reflexivity.
  - destruct (String.eqb k k0); simpl; [reflexivity|].
    rewrite IH. destruct (existsb (String.eqb k) (map fst r)); reflexivity.
Qed.

Lemma object_set_NoDup (o : object A) (k : string) (v : A) :
  NoDup (map fst o) -> NoDup (map fst (object_set o k v)).
Proof.
  intros H. rewrite object_set_keys.
  destruct (array_includes (map fst o) k) eqn:Hk; [exact H|].
  apply array_includes_not_In in Hk.
  apply NoDup_app; [exact H | repeat constructor; intros [] |].
  intros x Hx [<- | []]. exact (Hk Hx).
Qed.

Lemma object_set_Forall (P : string * A -> Prop) (o : object A) (k : string) (v : A) :
  Forall P o -> P (k, v) -> Forall P (object_set o k v).
Proof.
  intros Ho Hkv. induction Ho as [|[k0 v0] r H0 Hr IH]; simpl.
  - constructor; [exact Hkv | constructor].
  - destruct (String.eqb k k0) eqn:Hk.
    + apply String.eqb_eq in Hk. subst k0. constructor; assumption.
    + constructor; assumption.
Qed.

Lemma object_get_In (o : object A) (k : string) (v : A) :
  NoDup (map fst o) -> In (k, v) o -> object_get o k = Some v.
Proof.
  induction o as [|[k0 v0] r IH]; simpl; [intros _ []|].
  intros Hnd [Heq | Hin].
  - injection Heq as -> ->. rewrite String.eqb_refl. reflexivity.
  - inversion Hnd as [|? ? Hnot Hnd']. subst.
    destruct (String.eqb k k0) eqn:Hk; [|exact (IH Hnd' Hin)].
    apply String.eqb_eq in Hk. subst k0.
    destruct Hnot. apply in_map_iff. exists (k, v). split; [reflexivity | exact Hin].
Qed.

Lemma object_get_key (o : object A) (k : string) :
  In k (map fst o) -> exists v, object_get o k = Some v /\ In (k, v) o.
Proof.
  induction o as [|[k0 v0] r IH]; simpl; [intros []|].
  intros Hin. destruct (String.eqb k k0) eqn:Hk.
  - apply String.eqb_eq in Hk. subst k0. exists v0. split; [reflexivity | now left].
  - destruct Hin as [-> | Hin]; [rewrite String.eqb_refl in Hk; discriminate|].
    destruct (IH Hin) as (v & Hv & Hin'). exists v. split; [exact Hv | now right].
Qed.

End Objects.

(** ** The keyword statistics *)

Section KeywordCounts.
Import KeywordStats.

Lemma startsWith_length (s search : string) :
  startsWith s search = true -> String.length search <= String.length s.
Proof.
  revert s. induction search as [|a search IH]; intros s; simpl; [lia|].
  destruct s as [|b s]; [discriminate|].
  intros H. apply andb_true_iff in H. destruct H as [_ H].
  apply IH in H. simpl. lia.
Qed.

Lemma count_matches_found (keyword : string) (skip : nat) (s : string) :
  0 < count_matches keyword skip s -> includes s keyword = true.
Proof.
  revert skip. induction s as [|c r IH]; intros skip.
  - cbn [count_matches includes]. destruct skip; [|lia].
    destruct (startsWith "" keyword); [reflexivity | lia].
  - cbn [count_matches includes]. destruct skip as [|n].
    + destruct (startsWith (String c r) keyword); [reflexivity|].
      intros H. apply IH in H. rewrite H. apply orb_true_r.
    + intros H. apply IH in H. rewrite H. apply orb_true_r.
Qed.

Lemma count_matches_finds (keyword s : string) :
  includes s keyword = true -> 0 < count_matches keyword 0 s.
Proof.
  induction s as [|c r IH]; cbn [count_matches includes].
  - rewrite orb_false_r. intros ->. lia.
  - destruct (startsWith (String c r) keyword); [lia|].
    simpl. exact IH.
Qed.

Lemma count_matches_fit (keyword : string) (skip : nat) (s : string) :
  skip <= String.length s ->
  count_matches keyword skip s * String.length keyword + skip <= String.length s.
Proof.
  revert skip. induction s as [|c r IH]; intros skip Hskip.
  - cbn [count_matches]. simpl in Hskip. destruct skip; [|lia].
    destruct (startsWith "" keyword) eqn:Hstart; [|simpl; lia].
    apply startsWith_length in Hstart. simpl in *. lia.
  - cbn [count_matches]. cbn [String.length] in *. destruct skip as [|n].
    + destruct (startsWith (String c r) keyword) eqn:Hstart.
      * apply startsWith_length in Hstart. cbn [String.length] in Hstart.
        specialize (IH (String.length keyword - 1)).
        destruct (String.length keyword) as [|L]; [lia|].
        assert (H : S L - 1 <= String.length r) by lia.
        specialize (IH H). lia.
      * specialize (IH 0). lia.
    + specialize (IH n). lia.
Qed.

Lemma forEach_keyword_keys (keywords : list string) (t : string)
    (stats stats' : object nat) :
  forEach_keyword keywords (val t) stats = Ok stats' ->
  map fst stats'
  = Set_add_all (map fst stats)
      (filter (fun keyword => includes (toLowerCase t) (toLowerCase keyword))
              keywords).
Proof.
  revert stats. induction keywords as [|keyword rest IH]; intros stats.
  - simpl. intros H. injection H as <-. reflexivity.
  - cbn [forEach_keyword filter]. cbv zeta. intros H. apply IH in H. rewrite H.
    destruct (includes (toLowerCase t) (toLowerCase keyword)) eqn:Hinc.
    + apply count_matches_finds in Hinc. apply Nat.ltb_lt in Hinc. rewrite Hinc.
      cbn [Set_add_all]. rewrite object_set_keys. reflexivity.
    + destruct (0 <? count_matches (toLowerCase keyword) 0 (toLowerCase t)) eqn:Hc;
        [|reflexivity].
      apply Nat.ltb_lt, count_matches_found in Hc. congruence.
Qed.

Lemma forEach_keyword_scan (keywords : list string) (t : string) (stats : object nat) :
  forEach_keyword keywords (val t) [] = Ok stats ->
  map fst stats = scanKeywords keywords (toLowerCase t).
Proof. intros H. apply forEach_keyword_keys in H. exact H. Qed.

Lemma forEach_keyword_total (keywords : list string) (t : string) (stats : object nat) :
  exists stats', forEach_keyword keywords (val t) stats = Ok stats'.
Proof.
  revert stats. induction keywords as [|keyword rest IH]; intros stats.
  - exists stats. reflexivity.
  - cbn [forEach_keyword]. apply IH.
Qed.

Lemma forEach_keyword_counts (keywords : list string) (t : string)
    (stats stats' : object nat) :
  let counted (e : string * nat) :=
    snd e = count_matches (toLowerCase (fst e)) 0 (toLowerCase t) /\ 0 < snd e in
  forEach_keyword keywords (val t) stats = Ok stats' ->
  Forall counted stats -> Forall counted stats'.
Proof.
  intros counted. revert stats.
  induction keywords as [|keyword rest IH]; intros stats.
  - simpl. intros H. injection H as <-. exact (fun H => H).
  - cbn [forEach_keyword]. cbv zeta. intros H Hstats. apply IH in H; [exact H|].
    destruct (0 <? count_matches (toLowerCase keyword) 0 (toLowerCase t)) eqn:Hc;
      [|exact Hstats].
    apply object_set_Forall; [exact Hstats|].
    apply Nat.ltb_lt in Hc. split; [reflexivity | exact Hc].
Qed.

End KeywordCounts.

(** X23.  getSuspiciousKeywordStats reads the same keywords off a text as
    the analysis does: on a string it returns, for every text, an object
    whose keys are exactly the keywords the keyword scan flags in the
    lowercased text, in the order of the vocabulary, each with a count of
    at least one and with no more matches than fit into the text without
    overlap; on [null] and [undefined] it throws.  Every keyword of the
    vocabulary is free of characters special to regular expressions and is
    an ordinary key. *)
Theorem getSuspiciousKeywordStats_keys :
  (forall text : string,
     exists stats,
       KeywordStats.getSuspiciousKeywordStats (val text) = Ok stats /\
       map fst stats
       = scanKeywords ScamDetection.suspiciousKeywords (toLowerCase text) /\
       forall k n, In (k, n) stats ->
                   1 <= n /\ n * String.length k <= String.length text) /\
  (exists e, KeywordStats.getSuspiciousKeywordStats null = Throw e) /\
  (exists e, KeywordStats.getSuspiciousKeywordStats undefined = Throw e) /\
  forallb KeywordStats.literal ScamDetection.suspiciousKeywords = true /\
  forallb ordinary ScamDetection.suspiciousKeywords = true.
Proof.
  split; [|split; [eexists; reflexivity|split; [eexists; reflexivity|]];
           split; vm_compute; reflexivity].
  intros text. unfold KeywordStats.getSuspiciousKeywordStats.
  destruct (forEach_keyword_total ScamDetection.suspiciousKeywords text [])
    as [stats Hstats].
  exists stats. split; [exact Hstats|]. split.
  - apply forEach_keyword_scan in Hstats. exact Hstats.
  - intros k n Hin.
    pose proof (forEach_keyword_counts _ _ _ _ Hstats (Forall_nil _)) as Hall.
    rewrite Forall_forall in Hall. specialize (Hall _ Hin).
    cbn [fst snd] in Hall. destruct Hall as [Hn Hpos]. split; [lia|].
    pose proof (count_matches_fit (toLowerCase k) 0 (toLowerCase text)
                  (Nat.le_0_l _)) as Hfit.
    rewrite !toLowerCase_length in Hfit. rewrite <- Hn in Hfit. lia.
Qed.

(** X24.  The statistics of a job's merged text list the flagged keywords
    of its analysis: when analyzeJobPosting returns an analysis of a job,
    getSuspiciousKeywordStats of the text it merged returns an object
    whose keys are that analysis' flaggedKeywords, in the same order. *)
Theorem keyword_stats_of_analysed_job (E : Externals) (jobData : ScamDetection.JobData)
    (this this' : ScamDetection.Service E) (a : ScamDetection.Analysis)
    (fullText : string) :
  ScamDetection.analyzeJobPosting E jobData this = (Ok a, this') ->
  ScamDetection.fullTextOf jobData = Ok fullText ->
  exists stats,
    KeywordStats.getSuspiciousKeywordStats (val fullText) = Ok stats /\
    map fst stats = ScamDetection.flaggedKeywords a.
Proof.
  intros Ha Htext.
  destruct (analyzeJobPosting_fields E jobData this this' a Ha)
    as (fullText' & Htext' & Hkw & _).
  assert (fullText' = fullText) by congruence. subst fullText'.
  destruct (fullTextOf_Ok jobData fullText Htext) as (c & i & _ & _ & Hlower).
  unfold KeywordStats.getSuspiciousKeywordStats.
  destruct (forEach_keyword_total ScamDetection.suspiciousKeywords fullText [])
    as [stats Hstats].
  exists stats. split; [exact Hstats|].
  assert (Hidem : toLowerCase fullText = fullText).
  { rewrite Hlower. apply toLowerCase_idempotent. }
  apply forEach_keyword_scan in Hstats. rewrite Hidem in Hstats.
  rewrite Hkw. exact Hstats.
Qed.

Lemma keyword_stats_of_analysed_job_witness :
  exists a this' fullText stats,
    ScamDetection.analyzeJobPosting neutral requirement_job
      (ScamDetection.constructor neutral) = (Ok a, this') /\
    ScamDetection.fullTextOf requirement_job = Ok fullText /\
    KeywordStats.getSuspiciousKeywordStats (val fullText) = Ok stats /\
    map fst stats = ScamDetection.flaggedKeywords a.
Proof.
  do 3 eexists.
  match goal with
  | |- exists stats, ?Ha /\ ?Ht /\ _ =>
      assert (Hrun : Ha) by (vm_compute; reflexivity);
      assert (Htext : Ht) by (vm_compute; reflexivity)
  end.
  destruct (keyword_stats_of_analysed_job neutral requirement_job _ _ _ _ Hrun Htext)
    as (stats & Hstats & Hkeys).
  exists stats. split; [exact Hrun|]. split; [exact Htext|].
  split; [exact Hstats | exact Hkeys].
Defined.

(** ** The trending topics *)

Section Tally.
Import Trends.

Lemma count_of_bump (counts : object nat) (key k : string) :
  count_of (bump counts key) k
  = (if string_dec key k then 1 else 0) + count_of counts k.
Proof.
  unfold bump, count_of at 1. rewrite object_get_set.
  destruct (string_dec key k) as [-> | Hne].
  - rewrite String.eqb_refl. lia.
  - destruct (String.eqb k key) eqn:Hk; [|reflexivity].
    apply String.eqb_eq in Hk. congruence.
Qed.

Lemma tally_count (keys : list string) (counts : object nat) (k : string) :
  count_of (fold_left bump keys counts) k
  = count_occ string_dec keys k + count_of counts k.
Proof.
  revert counts. induction keys as [|key keys IH]; intros counts; [reflexivity|].
  cbn [fold_left count_occ]. rewrite IH, count_of_bump.
  destruct (string_dec key k); lia.
Qed.

Lemma tally_NoDup (keys : list string) (counts : object nat) :
  NoDup (map fst counts) -> NoDup (map fst (fold_left bump keys counts)).
Proof.
  revert counts. induction keys as [|key keys IH]; intros counts H; [exact H|].
  cbn [fold_left]. apply IH, object_set_NoDup, H.
Qed.

Lemma tally_keys (keys : list string) (counts : object nat) (k : string) :
  In k (map fst (fold_left bump keys counts)) <-> In k keys \/ In k (map fst counts).
Proof.
  revert counts. induction keys as [|key keys IH]; intros counts.
  - simpl. tauto.
  - cbn [fold_left]. rewrite IH. unfold bump. rewrite object_set_keys.
    destruct (array_includes (map fst counts) key) eqn:Hkey.
    + apply array_includes_In in Hkey. simpl. split; [tauto|].
      intros [[<- | H] | H]; tauto.
    + rewrite in_app_iff. simpl. tauto.
Qed.

Lemma tally_entries (keys : list string) (k : string) (n : nat) :
  In (k, n) (fold_left bump keys []) <->
  In k keys /\ n = count_occ string_dec keys k.
Proof.
  pose proof (tally_NoDup keys [] (NoDup_nil _)) as Hnd.
  pose proof (tally_count keys [] k) as Hcount.
  unfold count_of in Hcount. simpl in Hcount. rewrite Nat.add_0_r in Hcount. split.
  - intros Hin. split.
    + assert (Hk : In k (map fst (fold_left bump keys []))).
      { apply in_map_iff. exists (k, n). split; [reflexivity | exact Hin]. }
      apply tally_keys in Hk. destruct Hk as [Hk | []]. exact Hk.
    + apply (object_get_In _ _ _ Hnd) in Hin. rewrite Hin in Hcount. lia.
  - intros [Hin ->].
    assert (Hk : In k (map fst (fold_left bump keys []))).
    { apply tally_keys. now left. }
    destruct (object_get_key _ _ Hk) as (v & Hv & Hentry).
    rewrite Hv in Hcount. assert (v = count_occ string_dec keys k) by lia.
    subst v. exact Hentry.
Qed.

Lemma forEach_activity_flat (activities : list Activity)
    (keywordCounts scamTypeCounts : object nat) :
  forEach_activity activities (keywordCounts, scamTypeCounts)
  = (fold_left bump (flat_map flaggedKeywords activities) keywordCounts,
     fold_left bump (flat_map detectedScamTypes activities) scamTypeCounts).
Proof.
  unfold forEach_activity. revert keywordCounts scamTypeCounts.
  induction activities as [|activity rest IH]; intros keywordCounts scamTypeCounts.
  - reflexivity.
  - cbn [fold_left flat_map]. rewrite IH, !fold_left_app. reflexivity.
Qed.

Lemma insert_desc_Permutation (e : string * nat) (l : list (string * nat)) :
  Permutation (insert_desc e l) (e :: l).
Proof.
  induction l as [|e' r IH]; simpl; [reflexivity|].
  destruct (snd e' <=? snd e); [reflexivity|].
  rewrite IH. apply perm_swap.
Qed.

Lemma sort_desc_Permutation (l : list (string * nat)) : Permutation (sort_desc l) l.
Proof.
  induction l as [|e r IH]; simpl; [reflexivity|].
  rewrite insert_desc_Permutation. constructor. exact IH.
Qed.

Lemma insert_desc_sorted (e : string * nat) (l : list (string * nat)) :
  StronglySorted (fun a b => snd b <= snd a) l ->
  StronglySorted (fun a b => snd b <= snd a) (insert_desc e l).
Proof.
  induction 1 as [|e' r Hr IH He']; simpl.
  - repeat constructor.
  - destruct (snd e' <=? snd e) eqn:Hle.
    + apply Nat.leb_le in Hle. constructor; [constructor; assumption|].
      constructor; [exact Hle|].
      rewrite Forall_forall in *. intros x Hx. specialize (He' x Hx). lia.
    + apply Nat.leb_gt in Hle. constructor; [exact IH|].
      rewrite Forall_forall in *. intros x Hx.
      apply (Permutation_in _ (insert_desc_Permutation e r)) in Hx.
      destruct Hx as [<- | Hx]; [lia | exact (He' x Hx)].
Qed.

Lemma sort_desc_sorted (l : list (string * nat)) :
  StronglySorted (fun a b => snd b <= snd a) (sort_desc l).
Proof.
  induction l as [|e r IH]; simpl; [constructor | apply insert_desc_sorted, IH].
Qed.

Lemma firstn_sorted {A} (R : A -> A -> Prop) (n : nat) (l : list A) :
  StronglySorted R l -> StronglySorted R (firstn n l).
Proof.
  revert n. induction l as [|x r IH]; intros n H.
  - rewrite firstn_nil. constructor.
  - destruct n as [|n]; [constructor|]. simpl.
    inversion H as [|? ? Hr Hx]. subst. constructor; [exact (IH n Hr)|].
    rewrite Forall_forall in *. intros y Hy. apply Hx.
    rewrite <- (firstn_skipn n r). apply in_or_app. now left.
Qed.

Lemma sorted_app_le {A} (R : A -> A -> Prop) (l1 l2 : list A) :
  StronglySorted R (l1 ++ l2) ->
  forall x y, In x l1 -> In y l2 -> R x y.
Proof.
  induction l1 as [|a l1 IH]; simpl; intros H x y Hx Hy; [destruct Hx|].
  inversion H as [|? ? Hr Ha]. subst. destruct Hx as [<- | Hx].
  - rewrite Forall_forall in Ha. apply Ha, in_or_app. now right.
  - exact (IH Hr x y Hx Hy).
Qed.

Lemma top_ranked (keys : list string) :
  MoreSpec.ranked keys (firstn 10 (sort_desc (fold_left bump keys []))).
Proof.
  set (counts := fold_left bump keys []).
  pose proof (sort_desc_Permutation counts) as Hperm.
  pose proof (sort_desc_sorted counts) as Hsorted.
  assert (Hnd : NoDup (map fst (sort_desc counts))).
  { apply (Permutation_NoDup (l := map fst counts)).
    - apply Permutation_map. symmetry. exact Hperm.
    - apply tally_NoDup. constructor. }
  assert (Hsplit : sort_desc counts
                   = firstn 10 (sort_desc counts) ++ skipn 10 (sort_desc counts))
    by (symmetry; apply firstn_skipn).
  unfold MoreSpec.ranked. split; [apply firstn_le_length|].
  split.
  { rewrite Hsplit, map_app in Hnd. exact (NoDup_app_remove_r _ _ Hnd). }
  split; [apply firstn_sorted; exact Hsorted|].
  split.
  - intros k n Hin.
    assert (Hentry : In (k, n) counts).
    { apply (Permutation_in _ Hperm). rewrite Hsplit. apply in_or_app. now left. }
    apply tally_entries in Hentry. destruct Hentry as [Hk ->].
    split; [reflexivity|].
    apply (count_occ_In string_dec) in Hk. lia.
  - intros k Hk Hout.
    assert (Hentry : In (k, count_occ string_dec keys k) (sort_desc counts)).
    { apply (Permutation_in _ (Permutation_sym Hperm)).
      apply tally_entries. split; [exact Hk | reflexivity]. }
    rewrite Hsplit in Hentry. apply in_app_or in Hentry.
    destruct Hentry as [Hin | Hin].
    { destruct Hout. apply in_map_iff. exists (k, count_occ string_dec keys k).
      split; [reflexivity | exact Hin]. }
    split.
    + apply firstn_length_le.
      destruct (le_lt_dec 10 (List.length (sort_desc counts))) as [Hlen | Hlen];
        [exact Hlen|].
      rewrite skipn_all2 in Hin by lia. destruct Hin.
    + intros e He. rewrite Hsplit in Hsorted.
      exact (sorted_app_le _ _ _ Hsorted e _ He Hin).
Qed.

End Tally.

(** X25.  getTrendingSuspiciousTopics reports the total number of
    activities found and, for the flagged keywords and for the detected
    scam types alike, the ten most frequent: at most ten entries, one per
    key, in descending order of count, each count being the number of
    times the key occurs over all the activities (so at least one), and,
    when a key that occurs is not listed, ten entries are listed and none
    of them occurs less often than that key.  The keys are taken to be
    ordinary ones, as those the monitor writes are. *)
Theorem trending_topics_ranked (activities : list Trends.Activity) :
  Forall (fun activity =>
            forallb ordinary (Trends.flaggedKeywords activity) = true /\
            forallb ordinary (Trends.detectedScamTypes activity) = true)
         activities ->
  let trends := Trends.getTrendingSuspiciousTopics activities in
  Trends.totalActivities trends = List.length activities /\
  MoreSpec.ranked (flat_map Trends.flaggedKeywords activities)
    (Trends.trendingKeywords trends) /\
  MoreSpec.ranked (flat_map Trends.detectedScamTypes activities)
    (Trends.trendingScamTypes trends).
Proof.
  intros _. unfold Trends.getTrendingSuspiciousTopics.
  rewrite forEach_activity_flat.
  cbn [Trends.totalActivities Trends.trendingKeywords Trends.trendingScamTypes].
  split; [reflexivity|]. split; apply top_ranked.
Qed.

Lemma trending_topics_ranked_witness :
  Forall (fun activity =>
            forallb ordinary (Trends.flaggedKeywords activity) = true /\
            forallb ordinary (Trends.detectedScamTypes activity) = true)
         stored_activities /\
  MoreSpec.ranked (flat_map Trends.flaggedKeywords stored_activities)
    (Trends.trendingKeywords (Trends.getTrendingSuspiciousTopics stored_activities)).
Proof.
  assert (H : Forall (fun activity =>
                        forallb ordinary (Trends.flaggedKeywords activity) = true /\
                        forallb ordinary (Trends.detectedScamTypes activity) = true)
                     stored_activities)
    by (repeat constructor).
  split; [exact H|].
  exact (proj1 (proj2 (trending_topics_ranked stored_activities H))).
Defined.

Example trending_sample :
  Trends.trendingKeywords (Trends.getTrendingSuspiciousTopics stored_activities)
  = [("fee", 3); ("money", 2); ("urgent", 2); ("bitcoin", 1); ("guaranteed", 1);
     ("deposit", 1); ("work from home", 1); ("easy money", 1); ("quick cash", 1);
     ("passport", 1)] /\
  forallb ordinary Social.suspiciousKeywords = true.
Proof. split; vm_compute; reflexivity. Qed.
